(** * namedstruct: the value model and the packing engine of values.py

    A shallow embedding of [values.py]: the value kinds, their constructors
    and their [pack] methods, with Python exceptions as an error result and
    the write cursor ([dataOffset]) passed explicitly, as the source does.

    The modules [types], [bithelper], [stringhelper] and [namedstruct] that
    [values.py] imports are not part of the sources at hand.  What is read
    from them is either kept abstract (the classes [TypesModule] and
    [BitHelper]) or modelled from the specification, and marked as such. *)

From Stdlib Require Import ZArith Lia String List.
From coqutil Require Import Byte Word.LittleEndianList.
From stdpp Require Import base list strings gmap.
Local Open Scope Z_scope.
Set Warnings "-register-all".

(** ** Python exceptions as results *)

Inductive PyError :=
| Exception (msg : string)   (* raise Exception(msg) *)
| AssertionError             (* a failed assert *)
| IndexError                 (* a list index out of range *)
| KeyError                   (* a missing dict key *)
| ValueError                 (* max() of an empty sequence *)
| ZeroDivisionError          (* x % 0 *)
| TypeError                  (* an operation on an object of the wrong kind *)
| AttributeError             (* a method looked up on an object without it *)
| ValueOutOfRange            (* types.py: a value that does not fit its type *)
| TypeMismatch.              (* types.py: two types that do not merge *)

Inductive Result (A : Type) :=
| Ok (a : A)
| Err (e : PyError).
Arguments Ok {A} a.
Arguments Err {A} e.

#[global] Instance Result_ret : MRet Result := fun A a => Ok a.
#[global] Instance Result_bind : MBind Result := fun A B f m =>
  match m with
  | Ok a => f a
  | Err e => Err e
  end.

(** [assert(b)] *)
Definition pyassert (b : bool) : Result unit :=
  if b then Ok tt else Err AssertionError.

(** [for x in l: f(x)], collecting the results in order and stopping at the
    first exception *)
Fixpoint forM {A B : Type} (f : A → Result B) (l : list A) : Result (list B) :=
  match l with
  | [] => Ok []
  | x :: rest => y ← f x; ys ← forM f rest; Ok (y :: ys)
  end.

(** [len(l)] as a Python integer *)
Definition len {A : Type} (l : list A) : Z := Z.of_nat (length l).

(** [sum(l)] *)
Definition pysum (l : list Z) : Z := foldr Z.add 0 l.

(** [max(l)]: Python raises ValueError on an empty sequence *)
Definition pymax (l : list Z) : Result Z :=
  match l with
  | [] => Err ValueError
  | x :: rest => Ok (fold_left Z.max rest x)
  end.

(** [c * n] for a one-element sequence [c]: empty when [n] is not positive *)
Definition times {A : Type} (c : A) (n : Z) : list A := replicate (Z.to_nat n) c.

(** ** Types (the part of types.py that values.py reads) *)

(** Modelled from the spec: types.py is not among the sources.  The variants
    are the ones section 3 of the specification lists, each with the
    attributes that values.py passes to its constructor or reads back
    ([bitWidth], [fieldWidths], [names], [referenceType], [targetType]); a
    struct type also keeps the byte size of the members added to it. *)
Inductive Ty :=
| NullType
| IntType (unsigned : bool) (bitWidth : Z)
| CharType
| BitFieldType (name : string) (bitWidth : Z)
    (fieldNames : list string) (fieldWidths : list Z)
| StructType (name : string) (names : list string) (size : Z)
| SimpleArrayType (elementType : Ty) (fixedSize : option Z)
    (byteAlignment : option Z)
| ReferenceArrayType (elementType : Ty) (fixedSize : option Z)
    (referenceBitWidth : Z)
| ReferenceType (targetType : Ty) (referenceBitWidth : Z)
| BitFieldArrayType (name : string) (fields : list string).

(** The tables and the unification of types.py, which values.py only calls:
    the byte width and the alignment a type reports, the [merge] method and
    the [mergeTypes] function.  Every definition and theorem below holds for
    whatever types.py computes here. *)
Class TypesModule := {
  getWidth : Ty → Z;
  getAlignment : Ty → Z;
  merge : Ty → Ty → Result Ty;
  mergeTypes : Ty → Ty → Result Ty
}.

(** bithelper.requiredBits, which values.py only calls. *)
Class BitHelper := {
  requiredBits : Z → Z
}.

Definition UINT16 : Ty := IntType true 16.

Definition isReferenceType (t : Ty) : bool :=
  match t with
  | ReferenceType _ _ => true
  | _ => false
  end.

(** Modelled from the spec: [getElementType] of the two array types.  A
    reference array stores each element behind a Reference of its pointer
    width, so that is the type of its slots. *)
Definition getElementType (t : Ty) : Ty :=
  match t with
  | SimpleArrayType elementType _ _ => elementType
  | ReferenceArrayType elementType _ referenceBitWidth =>
      ReferenceType elementType referenceBitWidth
  | _ => t
  end.

(** Modelled from the spec: the integer type a reference of the given pointer
    width is emitted as ([ReferenceType.referenceType]), an unsigned offset. *)
Definition referenceType (referenceBitWidth : Z) : Ty :=
  IntType true referenceBitWidth.

(** ** Python objects and values *)

(** The kinds of array value: [SimpleArray] and its subclasses [String] and
    [Blob] (which keep the string and the bit list they were built from),
    and [ReferenceArray]. *)
Inductive ArrayClass :=
| SimpleArrayC
| StringC (string : list byte)
| BlobC (blob : list bool)
| ReferenceArrayC.

(** One field of a BitFieldArray entry, the pair [(isBlob, value)]:
    [(True, blob)] keeps the Blob, of which only the bit list
    ([getPythonValue()]) is ever read, [(False, n)] keeps the integer. *)
Inductive FieldValue :=
| BlobField (blob : list bool)
| IntField (value : Z).

(** The value classes of values.py, each with the attributes its [__init__]
    stores ([self.type] is recomputed by [getType]), and the Python objects
    that the constructors accept: [None], integers, strings (a one-character
    string is a char), an object that is none of these and not iterable, and
    the values themselves.  [Padding()] is [Int 0 True 8]. *)
Inductive Value :=
| Int (unsigned : bool) (bitWidth : Z) (pythonValue : Z)
| Char (char : byte)
| BitField (name : string) (bitWidth : Z)
    (fieldNames : list string) (fieldWidths : list Z) (values : list Z)
| Null
| Reference (targetValue : Value) (referenceBitWidth : Z)
| Array (cls : ArrayClass) (type : Ty) (values : list PyObj)
    (fixedSize : option Z)
| Struct (name : string) (names : list string) (size : Z)
    (values : list Value)
| BitFieldArray (name : string) (fields : list string)
    (entries : list (list FieldValue))
with PyObj :=
| PyNone
| PyInt (n : Z)
| PyStr (s : list byte)
| PyFloat
| PyValue (v : Value).

Definition Padding : Value := Int true 8 0.

(** [Value.getType]: the type [__init__] stored in [self.type] *)
Fixpoint getType (v : Value) : Ty :=
  match v with
  | Int unsigned bitWidth _ => IntType unsigned bitWidth
  | Char _ => CharType
  | BitField name bitWidth fieldNames fieldWidths _ =>
      BitFieldType name bitWidth fieldNames fieldWidths
  | Null => NullType
  | Reference targetValue referenceBitWidth =>
      ReferenceType (getType targetValue) referenceBitWidth
  | Array _ type _ _ => type
  | Struct name names size _ => StructType name names size
  | BitFieldArray name fields _ => BitFieldArrayType name fields
  end.

(** [v.getPythonValue() == None]: only Null returns None, and a Reference
    returns what its target returns. *)
Fixpoint getPythonValue_isNone (v : Value) : bool :=
  match v with
  | Null => true
  | Reference targetValue _ => getPythonValue_isNone targetValue
  | _ => false
  end.

(** [isinstance(value, Value)] *)
Definition isValue (value : PyObj) : bool :=
  match value with
  | PyValue _ => true
  | _ => false
  end.

(** [len(values) > 0 and isinstance(values[0], Value)] *)
Definition elementsAreValueObjects (values : list PyObj) : bool :=
  match values with
  | value :: _ => isValue value
  | [] => false
  end.

(** ** Integer and character types *)

(** Modelled from the spec: the range of an integer type of the given
    signedness and width (a value outside it is a ValueOutOfRange error). *)
Definition inRange (unsigned : bool) (bitWidth : Z) (n : Z) : bool :=
  if unsigned
  then (0 <=? n) && (n <? 2 ^ bitWidth)
  else (- 2 ^ (bitWidth - 1) <=? n) && (n <? 2 ^ (bitWidth - 1)).

(** Modelled from the spec: [Type.assertValueHasType] for the two primitive
    types, an integer in range and a one-character string. *)
Definition hasType (t : Ty) (value : PyObj) : bool :=
  match t, value with
  | IntType unsigned bitWidth, PyInt n => inRange unsigned bitWidth n
  | CharType, PyStr [_] => true
  | _, _ => false
  end.

Definition assertValueHasType (t : Ty) (value : PyObj) : Result unit :=
  if hasType t value then Ok tt else Err ValueOutOfRange.

(** Modelled from the spec: [Type.pack] for the two primitive types.  An
    integer is emitted little-endian on [bitWidth/8] bytes (two's complement
    when negative), a character as its byte. *)
Definition Ty_pack (t : Ty) (value : PyObj) : Result (list byte) :=
  match t, value with
  | IntType unsigned bitWidth, PyInt n =>
      if inRange unsigned bitWidth n
      then Ok (le_split (Z.to_nat (bitWidth / 8)) n)
      else Err ValueOutOfRange
  | CharType, PyStr [c] => Ok [c]
  | _, _ => Err TypeError
  end.

(** ** Bits (bithelper) *)

(** Modelled from the spec: [bithelper.toBits(value, numBits)], the
    [numBits] low bits of [value], least significant first. *)
Definition toBits (value numBits : Z) : list bool :=
  map (fun j => Z.testbit value (Z.of_nat j)) (seq 0 (Z.to_nat numBits)).

(** The integer whose bits, least significant first, are [bits]. *)
Fixpoint bitsToZ (bits : list bool) : Z :=
  match bits with
  | [] => 0
  | b :: rest => Z.b2z b + 2 * bitsToZ rest
  end.

(** Modelled from the spec: [bithelper.packBitsToChars(blob)], one byte per
    eight bits, rounded up, where bit [i] of byte [k] is [blob[8*k + i]]. *)
Definition packBitsToChars (blob : list bool) : list byte :=
  map (fun k => byte.of_Z (bitsToZ (take 8 (drop (8 * k) blob))))
      (seq 0 ((length blob + 7) / 8)).

(** Modelled from the spec: [stringhelper.stringToChars(string)], the bytes
    of the (utf-8 encoded) string followed by the terminating zero char. *)
Definition stringToChars (string : list byte) : list PyObj :=
  map (fun c => PyStr [c]) (string ++ [Byte.x00]).

(** ** Constructors of values.py *)

(** [Int.__init__(intValue, unsigned, bitWidth)] *)
Definition Int_init (intValue : Z) (unsigned : bool) (bitWidth : Z) : Result Value :=
  let type := IntType unsigned bitWidth in
  _ ← assertValueHasType type (PyInt intValue);
  _ ← assertValueHasType type (PyInt intValue);
  Ok (Int unsigned bitWidth intValue).

Section Constructors.
Context {types : TypesModule}.

(** The loop of [Array.__init__] over [values]: a Value element must merge
    with the element type, any other element must have that type. *)
Fixpoint Array_init_check (type : Ty) (valueObjects : bool)
    (values : list PyObj) : Result unit :=
  match values with
  | [] => Ok tt
  | v :: rest =>
      _ ← (if valueObjects
           then _ ← pyassert (isValue v);
                match v with
                | PyValue v' => _ ← merge (getElementType type) (getType v'); Ok tt
                | _ => Err AssertionError
                end
           else assertValueHasType (getElementType type) v);
      Array_init_check type valueObjects rest
  end.

(** [Array.__init__(type, values)], for the array class [cls] *)
Definition Array_init (cls : ArrayClass) (type : Ty) (values : list PyObj)
    (fixedSize : option Z) : Result Value :=
  _ ← Array_init_check type (elementsAreValueObjects values) values;
  Ok (Array cls type values fixedSize).

(** [SimpleArray.__init__(elementType, values, fixedSize, byteAlignment)],
    also run by the subclasses, which is what [cls] records *)
Definition SimpleArray_init_as (cls : ArrayClass) (elementType : Ty)
    (values : list PyObj) (fixedSize byteAlignment : option Z) : Result Value :=
  if isReferenceType elementType
  then Err (Exception "simple arrays cannot store references")
  else
    _ ← match fixedSize with
        | Some n => pyassert (len values <=? n)
        | None => Ok tt
        end;
    Array_init cls (SimpleArrayType elementType fixedSize byteAlignment)
      values fixedSize.

Definition SimpleArray_init := SimpleArray_init_as SimpleArrayC.

(** [String.__init__(string, fixedSize, omitTerminal)] *)
Definition String_init (string : list byte) (fixedSize : option Z)
    (omitTerminal : bool) : Result Value :=
  let chars := stringToChars string in
  let chars := if omitTerminal then take (length chars - 1) chars else chars in
  SimpleArray_init_as (StringC string) CharType chars fixedSize None.

(** [Blob.__init__(blob, fixedSize, byteAlignment)] for a blob given as a
    bit list (the append to the module's [blobStrings] list, which nothing
    reads, is left out) *)
Definition Blob_init (blob : list bool) (fixedSize : option Z)
    (byteAlignment : Z) : Result Value :=
  SimpleArray_init_as (BlobC blob) CharType
    (map (fun c => PyStr [c]) (packBitsToChars blob))
    fixedSize (Some byteAlignment).

(** [getValue(value)], on the objects of [PyObj] *)
Definition getValue (value : PyObj) : Result Value :=
  match value with
  | PyValue v => Ok v
  | PyInt n => Int_init n false 32
  | PyStr s => String_init s None false
  | PyNone => Ok Null
  | PyFloat => Err (Exception "can't convert to a Value")
  end.

(** [value != None] *)
Definition isNotNone (value : PyObj) : bool :=
  match value with
  | PyNone => false
  | _ => true
  end.

(** [Reference.__init__(targetValue, referenceBitWidth, targetType)] *)
Definition Reference_init (targetValue : PyObj) (referenceBitWidth : Z)
    (targetType : option Ty) : Result Value :=
  if isNotNone targetValue && bool_decide (is_Some targetType)
  then Err (Exception "cannot set target type for non-null reference")
  else
    let targetValue :=
      if isNotNone targetValue then targetValue else PyValue Null in
    targetValue ← getValue targetValue;
    Ok (Reference targetValue referenceBitWidth).

(** The loop of [ReferenceArray.__init__] over [values], which converts
    each element, refuses a Reference and merges the element types *)
Fixpoint ReferenceArray_init_loop (values : list PyObj) (elementType : Ty)
    (targetValues : list Value) : Result (Ty * list Value) :=
  match values with
  | [] => Ok (elementType, targetValues)
  | v :: rest =>
      v ← getValue v;
      match v with
      | Reference _ _ =>
          Err (Exception "cannot store references in reference array")
      | _ =>
          elementType ← mergeTypes (getType v) elementType;
          ReferenceArray_init_loop rest elementType (targetValues ++ [v])
      end
  end.

(** [ReferenceArray.__init__(values, fixedSize, referenceBitWidth)] *)
Definition ReferenceArray_init (values : list PyObj) (fixedSize : option Z)
    (referenceBitWidth : Z) : Result Value :=
  if len values =? 0
  then Err (Exception "reference array values cannot be empty")
  else
    _ ← match fixedSize with
        | Some n => pyassert (len values <=? n)
        | None => Ok tt
        end;
    first ← match values with
            | v :: _ => getValue v
            | [] => Err IndexError
            end;
    '(elementType, targetValues) ←
      ReferenceArray_init_loop values (getType first) [];
    referenceValues ←
      forM (fun v => Reference_init (PyValue v) referenceBitWidth None)
        targetValues;
    Array_init ReferenceArrayC
      (ReferenceArrayType elementType fixedSize referenceBitWidth)
      (map PyValue referenceValues) fixedSize.
End Constructors.

(** [BitField.__init__(name, bitWidth)] *)
Definition BitField_init (name : string) (bitWidth : Z) : Value :=
  BitField name bitWidth [] [] [].

(** [BitField.add(name, value, bitWidth)].  Modelled from the spec:
    [BitFieldType.add] appends the field and its width, and refuses a field
    that makes the widths exceed the container's width. *)
Definition BitField_add (self : Value) (name : string) (value bitWidth : Z)
    : Result Value :=
  match self with
  | BitField n containerWidth fieldNames fieldWidths values =>
      _ ← pyassert ((0 <=? value) && (value <? 2 ^ bitWidth));
      if containerWidth <? pysum fieldWidths + bitWidth
      then Err ValueOutOfRange
      else Ok (BitField n containerWidth (fieldNames ++ [name])
                 (fieldWidths ++ [bitWidth]) (values ++ [value]))
  | _ => Err AttributeError
  end.

(** [BitFieldArray.__init__(name, *fields)] *)
Definition BitFieldArray_init (name : string) (fields : list string) : Value :=
  BitFieldArray name fields [].

(** The argument of [BitFieldArray.add]: a sequence of values in the order
    of the fields, or a dictionary from field names to values. *)
Inductive FieldValues :=
| Sequence (values : list PyObj)
| Dict (values : gmap string PyObj).

(** [len(fieldValues)] *)
Definition FieldValues_len (fieldValues : FieldValues) : Z :=
  match fieldValues with
  | Sequence values => len values
  | Dict values => Z.of_nat (size values)
  end.

(** One step of the loop of [BitFieldArray.add] over the field values *)
Definition BitFieldArray_add_value (value : PyObj) : Result FieldValue :=
  match value with
  | PyValue (Array (BlobC blob) _ _ _) => Ok (BlobField blob)
  | PyInt n =>
      if (0 <=? n) && (n <? 2 ^ 31)
      then Ok (IntField n)
      else Err (Exception "bitFieldArray only supports values between 0 (incl) and 2^31 (excl)")
  | _ => Err (Exception "bitFieldArray only supports int or blobValue")
  end.

(** [BitFieldArray.add(fieldValues)]; the result is [self], with the entry
    appended to its entries *)
Definition BitFieldArray_add (self : Value) (fieldValues : FieldValues)
    : Result Value :=
  match self with
  | BitFieldArray name fields entries =>
      _ ← pyassert (len fields =? FieldValues_len fieldValues);
      fieldValues ←
        match fieldValues with
        | Sequence values => Ok values
        | Dict values =>
            forM (fun field =>
                    match values !! field with
                    | Some value => Ok value
                    | None => Err KeyError
                    end) fields
        end;
      entry ← forM BitFieldArray_add_value fieldValues;
      Ok (BitFieldArray name fields (entries ++ [entry]))
  | _ => Err AttributeError
  end.

(** ** Sizes *)

Section Packing.
Context {types : TypesModule} {bithelper : BitHelper}.

(** The bit length of one field of an entry, as [getFieldLengths] reads it:
    the length of a blob, the required bits of an integer *)
Definition fieldBits (field : FieldValue) : Z :=
  match field with
  | BlobField blob => len blob
  | IntField value => requiredBits value
  end.

(** [BitFieldArray.getFieldLengths] *)
Definition getFieldLengths (fields : list string)
    (entries : list (list FieldValue)) : Result (list Z) :=
  if len entries =? 0
  then Ok (times 0 (len fields))
  else
    forM (fun fieldIndex =>
            lengths ← forM (fun entry : list FieldValue =>
                              match entry !! fieldIndex with
                              | Some field => Ok (fieldBits field)
                              | None => Err IndexError
                              end) entries;
            pymax lengths)
         (seq 0 (length fields)).

(** [sum(v.getImmediateDataSize() for v in values)] *)
Fixpoint sumSizes (sizeOf : Value → Result Z) (values : list Value) : Result Z :=
  match values with
  | [] => Ok 0
  | v :: rest => n ← sizeOf v; m ← sumSizes sizeOf rest; Ok (n + m)
  end.

(** [getImmediateDataSize], as each class defines or inherits it *)
Fixpoint getImmediateDataSize (v : Value) : Result Z :=
  match v with
  | Array _ type values fixedSize =>
      Ok (getWidth (getElementType type)
          * match fixedSize with
            | None => len values
            | Some n => n
            end)
  | Struct _ _ _ values => sumSizes getImmediateDataSize values
  | BitFieldArray _ fields entries =>
      fieldLengths ← getFieldLengths fields entries;
      Ok ((len fieldLengths + 2) * 2
          + (pysum fieldLengths * len entries + 7) / 8)
  | _ => Ok (getWidth (getType v))
  end.

(** ** The packing engine *)

(** A packed value: the immediate data and the offseted data *)
Definition Packed : Type := list byte * list byte.

(** [PrimitiveValue.pack]: [self.type.pack(self.pythonValue), ""] *)
Definition PrimitiveValue_pack (v : Value) : Result Packed :=
  match v with
  | Int unsigned bitWidth pythonValue =>
      data ← Ty_pack (IntType unsigned bitWidth) (PyInt pythonValue);
      Ok (data, [])
  | Char c => data ← Ty_pack CharType (PyStr [c]); Ok (data, [])
  | _ => Err AttributeError
  end.

(** The loop of [BitField.pack], from field [i] on *)
Fixpoint BitField_pack_loop (fieldWidths : list Z) (i : nat)
    (values : list Z) (value shift : Z) : Result Z :=
  match values with
  | [] => Ok value
  | v :: rest =>
      let value := Z.lor value (Z.shiftl v shift) in
      match fieldWidths !! i with
      | Some width =>
          BitField_pack_loop fieldWidths (S i) rest value (shift + width)
      | None => Err IndexError
      end
  end.

(** [BitField.pack] *)
Definition BitField_pack (bitWidth : Z) (fieldWidths : list Z)
    (values : list Z) : Result Packed :=
  value ← BitField_pack_loop fieldWidths 0 values 0 0;
  int ← Int_init value true bitWidth;
  PrimitiveValue_pack int.

Section Loops.
(** [value.pack(dataOffset)] of the members and elements, which the
    definition of [pack] below ties to itself *)
Variable pack : Value → option Z → Result Packed.

(** The loop of [Array.pack] over [self.values] *)
Fixpoint Array_pack_loop (elementType : Ty)
    (valueObjects elementOffsetsRelativeToElement : bool)
    (values : list PyObj) (dataOffset : Z)
    (immediateData offsetedData : list (list byte)) (immediateLen : Z)
    : Result (list (list byte) * list (list byte)) :=
  match values with
  | [] => Ok (immediateData, offsetedData)
  | value :: rest =>
      if valueObjects
      then
        match value with
        | PyValue v =>
            '(immediate, referred) ←
              pack v (Some (dataOffset
                            - (if elementOffsetsRelativeToElement
                               then immediateLen else 0)));
            Array_pack_loop elementType valueObjects
              elementOffsetsRelativeToElement rest
              (dataOffset + len referred)
              (immediateData ++ [immediate]) (offsetedData ++ [referred])
              (immediateLen + len immediate)
        | _ => Err AttributeError
        end
      else
        immediate ← Ty_pack elementType value;
        Array_pack_loop elementType valueObjects
          elementOffsetsRelativeToElement rest dataOffset
          (immediateData ++ [immediate]) offsetedData
          (immediateLen + len immediate)
  end.

(** [Array.pack(dataOffset, elementOffsetsRelativeToElement)] *)
Definition Array_pack (self : Value) (dataOffset : option Z)
    (elementOffsetsRelativeToElement : bool) : Result Packed :=
  match self with
  | Array _ type values _ =>
      dataOffset ← match dataOffset with
                   | None => getImmediateDataSize self
                   | Some dataOffset => Ok dataOffset
                   end;
      '(immediateData, offsetedData) ←
        Array_pack_loop (getElementType type)
          (elementsAreValueObjects values)
          elementOffsetsRelativeToElement values dataOffset [] [] 0;
      Ok (concat immediateData, concat offsetedData)
  | _ => Err AttributeError
  end.

(** The zero fill of [SimpleArray.pack] and [ReferenceArray.pack] *)
Definition fillFixedSize (self : Value) (fixedSize : option Z)
    (immediateData : list byte) : Result (list byte) :=
  match fixedSize with
  | Some _ =>
      size ← getImmediateDataSize self;
      Ok (immediateData ++ times Byte.x00 (size - len immediateData))
  | None => Ok immediateData
  end.

(** [SimpleArray.pack(dataOffset)] *)
Definition SimpleArray_pack (self : Value) (dataOffset : option Z)
    : Result Packed :=
  match self with
  | Array _ _ _ fixedSize =>
      '(immediateData, offsetData) ← Array_pack self dataOffset true;
      immediateData ← fillFixedSize self fixedSize immediateData;
      match dataOffset with
      | None => Ok (immediateData ++ offsetData, [])
      | Some _ => Ok (immediateData, offsetData)
      end
  | _ => Err AttributeError
  end.

(** [ReferenceArray.pack(dataOffset)] *)
Definition ReferenceArray_pack (self : Value) (dataOffset : option Z)
    : Result Packed :=
  match self with
  | Array _ _ _ fixedSize =>
      size ← match dataOffset with
             | None => getImmediateDataSize self
             | Some dataOffset => Ok dataOffset
             end;
      let combine := bool_decide (dataOffset = None) in
      '(immediateData, offsetData) ← Array_pack self (Some size) false;
      immediateData ← fillFixedSize self fixedSize immediateData;
      if combine
      then Ok (immediateData ++ offsetData, [])
      else Ok (immediateData, offsetData)
  | _ => Err AttributeError
  end.

(** The loop of [Struct.pack] over [enumerate(self.values)], from member
    [i] on *)
Fixpoint Struct_pack_loop (names : list string) (i : nat)
    (values : list Value) (dataOffset : Z)
    (immediateData offsetedData : list byte)
    : Result (list byte * list byte) :=
  match values with
  | [] => Ok (immediateData, offsetedData)
  | value :: rest =>
      match names !! i with
      | Some currentMember =>
          '(immediate, referred) ← pack value (Some dataOffset);
          Struct_pack_loop names (S i) rest (dataOffset + len referred)
            (immediateData ++ immediate) (offsetedData ++ referred)
      | None => Err IndexError
      end
  end.

(** [Struct.pack(dataOffset)] *)
Definition Struct_pack (self : Value) (dataOffset : option Z)
    : Result Packed :=
  match self with
  | Struct _ names _ values =>
      let combine := bool_decide (dataOffset = None) in
      dataOffset ← match dataOffset with
                   | None => getImmediateDataSize self
                   | Some dataOffset => Ok dataOffset
                   end;
      '(immediateData, offsetedData) ←
        Struct_pack_loop names 0 values dataOffset [] [];
      size ← getImmediateDataSize self;
      let padding := size - len immediateData in
      let immediateData := immediateData ++ times Byte.x00 padding in
      if combine
      then Ok (immediateData ++ offsetedData, [])
      else Ok (immediateData, offsetedData)
  | _ => Err AttributeError
  end.

(** Modelled from the spec: [namedstruct.pack(value)], the top-level
    call, which packs with no write cursor and returns the immediate
    data followed by the offseted data. *)
Definition namedstruct_pack_with (value : Value) : Result (list byte) :=
  '(data, offsetedData) ← pack value None;
  Ok (data ++ offsetedData).

(** [Reference.pack(dataOffset)] *)
Definition Reference_pack (self : Value) (dataOffset : option Z)
    : Result Packed :=
  match self with
  | Reference targetValue referenceBitWidth =>
      match dataOffset with
      | None =>
          Err (Exception "cannot pack reference without a data offset (is the reference not contained in a struct?)")
      | Some dataOffset =>
          if getPythonValue_isNone targetValue
          then
            packedReference ←
              Ty_pack (referenceType referenceBitWidth) (PyInt 0);
            Ok (packedReference, [])
          else
            let alignment := getAlignment (getType targetValue) in
            if alignment =? 0
            then Err ZeroDivisionError
            else
              let padding := (- dataOffset) `mod` alignment in
              packedReference ←
                Ty_pack (referenceType referenceBitWidth)
                  (PyInt (dataOffset + padding));
              target ← namedstruct_pack_with targetValue;
              Ok (packedReference, times Byte.x00 padding ++ target)
      end
  | _ => Err AttributeError
  end.
End Loops.

(** [namedstruct.pack] of an array of Python values (the header array and
    the Blob of [BitFieldArray.pack]): none of its elements is a Value, so
    no element's [pack] is called *)
Definition packPythonArray (value : Value) : Result (list byte) :=
  namedstruct_pack_with
    (SimpleArray_pack (fun _ _ => Err AttributeError)) value.

(** The inner loop of [BitFieldArray.pack] over [enumerate(entry)], from
    field [i] on *)
Fixpoint BitFieldArray_pack_entry (fieldLengths : list Z) (i : nat)
    (entry : list FieldValue) (blob : list bool) : Result (list bool) :=
  match entry with
  | [] => Ok blob
  | field :: rest =>
      match fieldLengths !! i with
      | Some fieldLength =>
          let blob :=
            match field with
            | BlobField b => (blob ++ b) ++ times false (fieldLength - len b)
            | IntField value => blob ++ toBits value fieldLength
            end in
          BitFieldArray_pack_entry fieldLengths (S i) rest blob
      | None => Err IndexError
      end
  end.

(** The outer loop of [BitFieldArray.pack] over [self.entries] *)
Fixpoint BitFieldArray_pack_entries (fieldLengths : list Z)
    (entries : list (list FieldValue)) (blob : list bool)
    : Result (list bool) :=
  match entries with
  | [] => Ok blob
  | entry :: rest =>
      blob ← BitFieldArray_pack_entry fieldLengths 0 entry blob;
      BitFieldArray_pack_entries fieldLengths rest blob
  end.

(** [BitFieldArray.pack] *)
Definition BitFieldArray_pack (fields : list string)
    (entries : list (list FieldValue)) : Result Packed :=
  fieldLengths ← getFieldLengths fields entries;
  let offset := (len fieldLengths + 2) * 16 in
  let headerValues :=
    pysum fieldLengths
    :: map (fun i => offset + pysum (take i fieldLengths))
         (seq 0 (length fieldLengths + 1)) in
  headerArray ← SimpleArray_init UINT16 (map PyInt headerValues) None None;
  header ← packPythonArray headerArray;
  blob ← BitFieldArray_pack_entries fieldLengths entries [];
  blobValue ← Blob_init blob None 4;
  data ← packPythonArray blobValue;
  _ ← pyassert (len blob =? pysum fieldLengths * len entries);
  Ok (header ++ data, []).

(** [pack(dataOffset)], by the class of the value.  Null inherits
    [Value.pack], which raises. *)
Fixpoint pack (self : Value) (dataOffset : option Z) : Result Packed :=
  match self with
  | Int _ _ _ | Char _ => PrimitiveValue_pack self
  | BitField _ bitWidth _ fieldWidths values =>
      BitField_pack bitWidth fieldWidths values
  | Null => Err (Exception "")
  | Reference _ _ => Reference_pack pack self dataOffset
  | Array ReferenceArrayC _ _ _ => ReferenceArray_pack pack self dataOffset
  | Array _ _ _ _ => SimpleArray_pack pack self dataOffset
  | Struct _ _ _ _ => Struct_pack pack self dataOffset
  | BitFieldArray _ fields entries => BitFieldArray_pack fields entries
  end.

(** Modelled from the spec: [namedstruct.pack(value)], see
    [namedstruct_pack_with]. *)
Definition namedstruct_pack : Value → Result (list byte) :=
  namedstruct_pack_with pack.
End Packing.

(** ** A concrete instance, to run the model on examples *)

(** Modelled from the spec: the byte width types.py reports for the kinds of
    fixed width (section 3: an integer, a bit field and a reference are
    [bitWidth/8] bytes, a character one byte, a struct the size its type
    keeps, an array of declared length that many slots). *)
Fixpoint sampleWidth (t : Ty) : Z :=
  match t with
  | IntType _ bitWidth => bitWidth / 8
  | CharType => 1
  | BitFieldType _ bitWidth _ _ => bitWidth / 8
  | ReferenceType _ referenceBitWidth => referenceBitWidth / 8
  | StructType _ _ size => size
  | SimpleArrayType elementType (Some n) _ => n * sampleWidth elementType
  | ReferenceArrayType _ (Some n) referenceBitWidth => n * (referenceBitWidth / 8)
  | _ => 0
  end.

(** Modelled from the spec: an alignment for each kind, the natural one (the
    byte width of an integer, a bit field or a reference, the declared
    alignment of an array or else that of its elements, four bytes for a
    struct and a bit field array). *)
Fixpoint sampleAlignment (t : Ty) : Z :=
  match t with
  | NullType => 1
  | IntType _ bitWidth => bitWidth / 8
  | CharType => 1
  | BitFieldType _ bitWidth _ _ => bitWidth / 8
  | StructType _ _ _ => 4
  | SimpleArrayType _ _ (Some byteAlignment) => byteAlignment
  | SimpleArrayType elementType _ None => sampleAlignment elementType
  | ReferenceArrayType _ _ referenceBitWidth => referenceBitWidth / 8
  | ReferenceType _ referenceBitWidth => referenceBitWidth / 8
  | BitFieldArrayType _ _ => 4
  end.

(** Modelled from the spec: the merge of section 4.1.  Two integer types
    widen to the larger width and the more permissive signedness, a type
    merges with one of the same name and kind, Null merges into the other
    type; everything else is a TypeMismatch. *)
Definition sampleMerge (a b : Ty) : Result Ty :=
  match a, b with
  | NullType, _ => Ok b
  | _, NullType => Ok a
  | IntType u1 w1, IntType u2 w2 => Ok (IntType (u1 && u2) (Z.max w1 w2))
  | CharType, CharType => Ok a
  | BitFieldType n1 _ _ _, BitFieldType n2 _ _ _ =>
      if bool_decide (n1 = n2) then Ok a else Err TypeMismatch
  | StructType n1 _ _, StructType n2 _ _ =>
      if bool_decide (n1 = n2) then Ok a else Err TypeMismatch
  | SimpleArrayType _ _ _, SimpleArrayType _ _ _ => Ok a
  | ReferenceArrayType _ _ _, ReferenceArrayType _ _ _ => Ok a
  | ReferenceType _ w1, ReferenceType _ w2 =>
      if bool_decide (w1 = w2) then Ok a else Err TypeMismatch
  | BitFieldArrayType n1 _, BitFieldArrayType n2 _ =>
      if bool_decide (n1 = n2) then Ok a else Err TypeMismatch
  | _, _ => Err TypeMismatch
  end.

(** Modelled from the spec: [mergeTypes], the merge that refuses a Reference
    operand. *)
Definition sampleMergeTypes (a b : Ty) : Result Ty :=
  if isReferenceType a || isReferenceType b
  then Err TypeMismatch
  else sampleMerge a b.

Definition sampleTypes : TypesModule := {|
  getWidth := sampleWidth;
  getAlignment := sampleAlignment;
  merge := sampleMerge;
  mergeTypes := sampleMergeTypes
|}.

(** Modelled from the spec: the bits required to represent a value, its
    binary length (none for zero). *)
Definition bitLength (n : Z) : Z :=
  if n <=? 0 then 0 else Z.log2 n + 1.

Definition sampleBits : BitHelper := {| requiredBits := bitLength |}.

(** ** Statements: the words of the properties *)

(** The combined value of a bit field, the sum of each field value shifted
    by the widths of the fields before it. *)
Fixpoint shiftedSum (values fieldWidths : list Z) (shift : Z) : Z :=
  match values, fieldWidths with
  | v :: values, w :: fieldWidths =>
      Z.shiftl v shift + shiftedSum values fieldWidths (shift + w)
  | _, _ => 0
  end.

(** What [BitField.add] and [BitFieldType.add] check of a bit field: each
    value fits the width of its field and the widths fit the container. *)
Definition BitField_ok (self : Value) : Prop :=
  match self with
  | BitField _ bitWidth _ fieldWidths values =>
      Forall2 (fun v w => 0 <= v < 2 ^ w) values fieldWidths
      ∧ pysum fieldWidths <= bitWidth
  | _ => False
  end.

(** The bit field [flags] of testStruct34 in tests.py:
    [BitField("bitField1",8).add("aFlag",1).add("bFlag",0).add("cFlag",1)
     .add("values",3,2)] *)
Definition flags34 : Value :=
  BitField "bitField1" 8 ["aFlag"; "bFlag"; "cFlag"; "values"]
    [1; 1; 1; 2] [1; 0; 1; 3].

Section Cursor.
Context {types : TypesModule} {bithelper : BitHelper}.

(** The members of a struct packed one after the other from a write
    cursor that each member advances by the length of its indirect
    bytes. *)
Inductive membersPacked : Z → list Value → list Packed → Prop :=
| membersPacked_nil cursor : membersPacked cursor [] []
| membersPacked_cons cursor value values immediate referred packed :
    pack value (Some cursor) = Ok (immediate, referred) →
    membersPacked (cursor + len referred) values packed →
    membersPacked cursor (value :: values) ((immediate, referred) :: packed).


(** The cursor a value packed with [dataOffset] starts from: the given
    one, or its own immediate size when it is the top-level value *)
Definition startCursor (size : Z) (dataOffset : option Z) : Z :=
  match dataOffset with
  | Some dataOffset => dataOffset
  | None => size
  end.

(** What [pack] returns for the inline and the indirect bytes of a
    container: the two apart at a given cursor, the two in one sequence
    for the top-level value *)
Definition returned (dataOffset : option Z) (inline indirect : list byte)
    : Packed :=
  match dataOffset with
  | Some _ => (inline, indirect)
  | None => (inline ++ indirect, [])
  end.

(** The inline bytes and the indirect bytes of the packed members *)
Definition inlineOf (packed : list Packed) : list byte :=
  concat (map fst packed).
Definition indirectOf (packed : list Packed) : list byte :=
  concat (map snd packed).
End Cursor.

(** The struct of tests.py's testStruct14 without its last member: an int32
    [number = 23] and a reference to the string "helluWorld". *)
Definition helluWorld : list byte :=
  [Byte.x68; Byte.x65; Byte.x6c; Byte.x6c; Byte.x75;
   Byte.x57; Byte.x6f; Byte.x72; Byte.x6c; Byte.x64].
Definition helluWorldString : Value :=
  Array (StringC helluWorld) (SimpleArrayType CharType None None)
    (stringToChars helluWorld) None.
Definition numberAndString : Value :=
  Struct "testStruct14" ["number"; "string"] 8
    [Int false 32 23; Reference helluWorldString 32].
Definition numberAndStringPacked : list Packed :=
  [([Byte.x17; Byte.x00; Byte.x00; Byte.x00], []);
   ([Byte.x08; Byte.x00; Byte.x00; Byte.x00],
    helluWorld ++ [Byte.x00])].

(** [isinstance(self, ReferenceArray)] for an array of class [cls] *)
Definition isReferenceArray (cls : ArrayClass) : bool :=
  match cls with
  | ReferenceArrayC => true
  | _ => false
  end.


(** The packed null pointer of a reference of the given width *)
Definition nullPointer (referenceBitWidth : Z) : list byte :=
  replicate (Z.to_nat (referenceBitWidth / 8)) Byte.x00.

(** The reference array of tests.py's testStruct32 cut to two elements:
    [ReferenceArray([None, "helluWorld"], fixedSize=3, referenceBitWidth=16)] *)
Definition fixedReferences : Value :=
  Array ReferenceArrayC
    (ReferenceArrayType (SimpleArrayType CharType None None) (Some 3) 16)
    [PyValue (Reference Null 16); PyValue (Reference helluWorldString 16)]
    (Some 3).

(** [isinstance(v, Reference)] *)
Definition isReference (v : Value) : bool :=
  match v with
  | Reference _ _ => true
  | _ => false
  end.

(** The element types of the targets of a reference array merge, in order,
    into [mergeAll elementType targets], starting from [elementType]. *)
Fixpoint mergeAll {types : TypesModule} (elementType : Ty) (targets : list Value)
    : Result Ty :=
  match targets with
  | [] => Ok elementType
  | v :: rest =>
      elementType ← mergeTypes (getType v) elementType;
      mergeAll elementType rest
  end.

(** A field value [BitFieldArray.add] accepts: a Blob, or an integer from 0
    (included) to 2^31 (excluded). *)
Definition isFieldValue (value : PyObj) : bool :=
  match value with
  | PyValue (Array (BlobC _) _ _ _) => true
  | PyInt n => (0 <=? n) && (n <? 2 ^ 31)
  | _ => false
  end.

(** The field an accepted value is stored as *)
Definition fieldValueOf (value : PyObj) : FieldValue :=
  match value with
  | PyValue (Array (BlobC blob) _ _ _) => BlobField blob
  | PyInt n => IntField n
  | _ => IntField 0
  end.

(** The 16-bit little-endian word number [k] of a byte sequence *)
Definition headerWord (bytes : list byte) (k : nat) : Z :=
  le_combine (take 2 (drop (2 * k) bytes)).

(** Bit [j] of a field packed at the width of its column: bit [j] of an
    integer, counted from the least significant one; bit [j] of a blob,
    and zero past its end. *)
Definition fieldBitAt (field : FieldValue) (j : nat) : bool :=
  match field with
  | IntField value => Z.testbit value (Z.of_nat j)
  | BlobField blob => default false (blob !! j)
  end.

(** What [add] guarantees of the entries of a BitFieldArray: each has one
    value per field. *)
Definition BitFieldArray_ok (fields : list string)
    (entries : list (list FieldValue)) : Prop :=
  Forall (fun entry : list FieldValue => length entry = length fields) entries.

(** The bits [BitFieldArray.pack] appends for one field of an entry *)
Definition paddedBits (field : FieldValue) (fieldLength : Z) : list bool :=
  match field with
  | BlobField b => b ++ times false (fieldLength - len b)
  | IntField value => toBits value fieldLength
  end.

(** The BitFieldArray of tests.py's testStruct39:
    [BitFieldArray("PairBitArray","a","b").add([0,12]).add([0,4])
     .add([0,0]).add([0,63])] *)
Definition pairBitArray : Value :=
  BitFieldArray "PairBitArray" ["a"; "b"]
    [[IntField 0; IntField 12]; [IntField 0; IntField 4];
     [IntField 0; IntField 0]; [IntField 0; IntField 63]].

(** The BitFieldArray of tests.py's testStruct38, one field [bit] and the
    eight entries 0, 1, 1, 0, 0, 1, 0, 1 *)
Definition bitBitArray : Value :=
  BitFieldArray "BitBitArray" ["bit"]
    [[IntField 0]; [IntField 1]; [IntField 1]; [IntField 0];
     [IntField 0]; [IntField 1]; [IntField 0]; [IntField 1]].

(** The bits [BitFieldArray.pack] appends for one entry: its fields in
    order, each at the width of its column *)
Definition entryBits (fieldLengths : list Z) (entry : list FieldValue)
    : list bool :=
  concat (zip_with paddedBits entry fieldLengths).


(** ** More of values.py: reading and filling a BitFieldArray *)

(** [l[i]] for a Python integer: an index below zero counts from the end,
    and an index outside the list raises IndexError. *)
Definition pyIndex {A : Type} (l : list A) (i : Z) : Result A :=
  let i := if i <? 0 then i + len l else i in
  if i <? 0
  then Err IndexError
  else match l !! Z.to_nat i with
       | Some x => Ok x
       | None => Err IndexError
       end.

(** [l.index(x)]: the first position of [x], ValueError when there is none *)
Fixpoint pyIndexOf (x : string) (l : list string) : Result Z :=
  match l with
  | [] => Err ValueError
  | y :: rest =>
      if bool_decide (y = x) then Ok 0 else i ← pyIndexOf x rest; Ok (i + 1)
  end.

(** [BitFieldArray.get(fieldName, index)]:
    [self.entries[index][self.type.getFields().index(fieldName)][1]] *)
Definition BitFieldArray_get (self : Value) (fieldName : string) (index : Z)
    : Result FieldValue :=
  match self with
  | BitFieldArray _ fields entries =>
      entry ← pyIndex entries index;
      position ← pyIndexOf fieldName fields;
      pyIndex entry position
  | _ => Err AttributeError
  end.

(** [BitFieldArray.addAll(entries)]: [add] on each entry in turn.  The
    result is the array as the call leaves it, with what it returned
    ([self]) or raised: [add] appends only after all its checks, so the
    entries added before the one that raises stay added. *)
Fixpoint BitFieldArray_addAll (self : Value) (entries : list FieldValues)
    : Value * Result unit :=
  match entries with
  | [] => (self, Ok ())
  | entry :: rest =>
      match BitFieldArray_add self entry with
      | Ok self => BitFieldArray_addAll self rest
      | Err e => (self, Err e)
      end
  end.

(** ** Values by what they contain *)

(** No Reference anywhere in the value: not the value itself, not an
    element of an array, not a member of a struct, at any depth. *)
Fixpoint referenceFree (v : Value) : bool :=
  match v with
  | Reference _ _ => false
  | Array _ _ values _ =>
      forallb (fun value => match value with
                            | PyValue v => referenceFree v
                            | _ => true
                            end) values
  | Struct _ _ _ values => forallb referenceFree values
  | _ => true
  end.

Section LockStep.
Context {types : TypesModule} {bithelper : BitHelper}.

(** The width table of types.py agrees with the bytes its types pack to:
    an integer, a bit field and a reference are [bitWidth/8] bytes wide, a
    character one byte. *)
Definition widthsAgree : Prop :=
  (∀ unsigned bitWidth, getWidth (IntType unsigned bitWidth) = bitWidth / 8)
  ∧ getWidth CharType = 1
  ∧ (∀ name bitWidth fieldNames fieldWidths,
       getWidth (BitFieldType name bitWidth fieldNames fieldWidths)
       = bitWidth / 8)
  ∧ (∀ targetType referenceBitWidth,
       getWidth (ReferenceType targetType referenceBitWidth)
       = referenceBitWidth / 8).

(** The sizes of a value are in lock-step with its type: in every array,
    at any depth, the width of the element type is not negative, the
    elements are no more than a declared fixed length, and each element
    that is a value has the width of the element type as its immediate
    size. *)
Fixpoint lockStep (v : Value) : Prop :=
  match v with
  | Array _ type values fixedSize =>
      0 <= getWidth (getElementType type)
      ∧ match fixedSize with
        | Some n => len values <= n
        | None => True
        end
      ∧ (fix elements (values : list PyObj) : Prop :=
           match values with
           | [] => True
           | value :: rest =>
               match value with
               | PyValue element =>
                   lockStep element
                   ∧ getImmediateDataSize element
                     = Ok (getWidth (getElementType type))
               | _ => True
               end
               ∧ elements rest
           end) values
  | Struct _ _ _ values =>
      (fix members (values : list Value) : Prop :=
         match values with
         | [] => True
         | value :: rest => lockStep value ∧ members rest
         end) values
  | _ => True
  end.
End LockStep.

(** The struct of tests.py's testStruct34: two bit fields and an int32
    [terminal = 567] *)
Definition smallInts34 : Value :=
  BitField "bitField2" 16 ["aFlag"; "b"; "c"; "d"] [1; 7; 3; 5] [0; 127; 0; 7].
Definition flagsAndInts : Value :=
  Struct "testStruct34" ["flags"; "pad"; "smallInts"; "terminal"] 8
    [flags34; Padding; smallInts34; Int false 32 567].

(** ** Induction on values, through arrays and structs *)

Section ValueInduction.
Variable P : Value → Prop.
Hypothesis P_Int : ∀ unsigned bitWidth pythonValue,
  P (Int unsigned bitWidth pythonValue).
Hypothesis P_Char : ∀ char, P (Char char).
Hypothesis P_BitField : ∀ name bitWidth fieldNames fieldWidths values,
  P (BitField name bitWidth fieldNames fieldWidths values).
Hypothesis P_Null : P Null.
Hypothesis P_Reference : ∀ targetValue referenceBitWidth,
  P targetValue → P (Reference targetValue referenceBitWidth).
Hypothesis P_Array : ∀ cls type values fixedSize,
  Forall (fun value => match value with PyValue v => P v | _ => True end)
    values →
  P (Array cls type values fixedSize).
Hypothesis P_Struct : ∀ name names size values,
  Forall P values → P (Struct name names size values).
Hypothesis P_BitFieldArray : ∀ name fields entries,
  P (BitFieldArray name fields entries).

Fixpoint Value_nested_ind (v : Value) : P v :=
  match v with
  | Int unsigned bitWidth pythonValue => P_Int unsigned bitWidth pythonValue
  | Char char => P_Char char
  | BitField name bitWidth fieldNames fieldWidths values =>
      P_BitField name bitWidth fieldNames fieldWidths values
  | Null => P_Null
  | Reference targetValue referenceBitWidth =>
      P_Reference targetValue referenceBitWidth (Value_nested_ind targetValue)
  | Array cls type values fixedSize =>
      P_Array cls type values fixedSize
        ((fix elements (l : list PyObj)
            : Forall (fun value => match value with
                                   | PyValue v => P v
                                   | _ => True
                                   end) l :=
            match l with
            | [] => List.Forall_nil _
            | value :: rest =>
                List.Forall_cons _ _ _
                  (match value as o
                         return match o with
                                | PyValue v => P v
                                | _ => True
                                end
                   with
                   | PyValue v => Value_nested_ind v
                   | _ => I
                   end)
                  (elements rest)
            end) values)
  | Struct name names size values =>
      P_Struct name names size values
        ((fix members (l : list Value) : Forall P l :=
            match l with
            | [] => List.Forall_nil _
            | value :: rest =>
                List.Forall_cons _ _ _ (Value_nested_ind value) (members rest)
            end) values)
  | BitFieldArray name fields entries => P_BitFieldArray name fields entries
  end.
End ValueInduction.

Section CursorFree.
Context {types : TypesModule} {bithelper : BitHelper}.

(** [pack] makes no use of the write cursor it is given for the value:
    every cursor gives the same outcome, and no indirect bytes. *)
Definition cursorFree (v : Value) : Prop :=
  (∀ c1 c2, pack v (Some c1) = pack v (Some c2))
  ∧ ∀ c inline indirect, pack v (Some c) = Ok (inline, indirect) → indirect = [].
End CursorFree.

(** ** Arrays from Python sequences *)

(** types.py's [isImmediate], which values.py only calls. *)
Class Immediacy := {
  isImmediate : Ty → bool
}.

Section ArrayValues.
Context {types : TypesModule} {immediacy : Immediacy}.

(** The loop of [getArrayValue] over [arrayValues[1:]], which merges the
    type of each value into the type so far *)
Fixpoint getArrayValue_merge (t : Ty) (values : list Value) : Result Ty :=
  match values with
  | [] => Ok t
  | v :: rest =>
      t ← mergeTypes t (getType v);
      getArrayValue_merge t rest
  end.

(** [getArrayValue(arrayValues, fixedSize)], on a sequence of the objects
    of [PyObj].  The list of converted values is no string, so the branch
    for one is never taken. *)
Definition getArrayValue (arrayValues : list PyObj) (fixedSize : option Z)
    : Result Value :=
  arrayValues ← forM getValue arrayValues;
  match arrayValues with
  | [] => Err IndexError
  | first :: rest =>
      t ← getArrayValue_merge (getType first) rest;
      if isReferenceType t
      then Err (Exception "can't build arrays out of references")
      else if isImmediate t
      then SimpleArray_init t (map PyValue arrayValues) fixedSize None
      else ReferenceArray_init (map PyValue arrayValues) fixedSize 32
  end.
End ArrayValues.
(** * Properties *)

(** ** The error monad *)

Lemma bind_Ok {A B : Type} (m : Result A) (f : A → Result B) (b : B) :
  m ≫= f = Ok b ↔ ∃ a, m = Ok a ∧ f a = Ok b.
Proof.
  destruct m as [a|e]; simpl; split.
  - intros Hf. exists a. by split.
  - intros (a' & [= <-] & Hf). done.
  - discriminate.
  - intros (a' & Ha & _). discriminate.
Qed.

Lemma bind_Err {A B : Type} (m : Result A) (f : A → Result B) (e : PyError) :
  m = Err e → m ≫= f = Err e.
Proof. by intros ->. Qed.

Lemma len_app {A : Type} (l k : list A) : len (l ++ k) = len l + len k.
Proof. unfold len. rewrite length_app. lia. Qed.

Lemma len_nonneg {A : Type} (l : list A) : 0 <= len l.
Proof. unfold len. lia. Qed.

Lemma len_times {A : Type} (c : A) (n : Z) : len (times c n) = Z.max 0 n.
Proof. unfold len, times. rewrite length_replicate. lia. Qed.

Lemma pysum_app (l k : list Z) : pysum (l ++ k) = pysum l + pysum k.
Proof. induction l as [|x l IH]; simpl; [done | rewrite IH; lia]. Qed.

#[local] Arguments inRange : simpl never.

(** ** Bit fields *)

Lemma lor_shiftl_add (acc v shift : Z) :
  0 <= acc < 2 ^ shift → 0 <= shift →
  Z.lor acc (Z.shiftl v shift) = acc + Z.shiftl v shift.
Proof.
  intros Hacc Hshift.
  rewrite <- Z.lxor_lor, <- Z.add_nocarry_lxor; try done.
  all: apply Z.bits_inj'; intros n Hn; rewrite Z.land_spec, Z.bits_0.
  all: destruct (Z.lt_ge_cases n shift) as [Hlt|Hge].
  all: try (rewrite (Z.shiftl_spec_low v shift n Hlt); apply andb_false_r).
  all: rewrite <- (Z.mod_small acc (2 ^ shift)) by done.
  all: rewrite Z.mod_pow2_bits_high by lia; done.
Qed.

Lemma shiftedSum_bound (values fieldWidths : list Z) :
  Forall2 (fun v w => 0 <= v < 2 ^ w) values fieldWidths →
  ∀ shift, 0 <= shift →
    0 <= shiftedSum values fieldWidths shift
    ∧ 2 ^ shift + shiftedSum values fieldWidths shift
      <= 2 ^ (shift + pysum fieldWidths).
Proof.
  induction 1 as [|v w values fieldWidths Hv H IH]; intros shift Hshift; simpl.
  - rewrite !Z.add_0_r. lia.
  - assert (0 <= w) as Hw.
    { destruct (Z.lt_ge_cases w 0) as [Hneg|]; [|done].
      rewrite Z.pow_neg_r in Hv by done. lia. }
    destruct (IH (shift + w)) as [IH0 IH1]; [lia|].
    rewrite Z.shiftl_mul_pow2 by done.
    assert (0 <= pysum fieldWidths) as Hsum.
    { clear -H. induction H as [|v' w' vs ws Hv' _ IH']; simpl; [done|].
      destruct (Z.lt_ge_cases w' 0) as [Hneg|]; [|lia].
      rewrite Z.pow_neg_r in Hv' by done. lia. }
    replace (shift + (w + pysum fieldWidths))
      with (shift + w + pysum fieldWidths) by lia.
    assert (0 < 2 ^ shift) by (apply Z.pow_pos_nonneg; lia).
    assert (2 ^ (shift + w) = 2 ^ shift * 2 ^ w) as Hpow
      by (apply Z.pow_add_r; lia).
    split; [nia|]. nia.
Qed.

Lemma BitField_pack_loop_sum (values fieldWidths : list Z) :
  Forall2 (fun v w => 0 <= v < 2 ^ w) values fieldWidths →
  ∀ before value shift,
    0 <= value < 2 ^ shift → 0 <= shift →
    BitField_pack_loop (before ++ fieldWidths) (length before) values value shift
    = Ok (value + shiftedSum values fieldWidths shift).
Proof.
  induction 1 as [|v w values fieldWidths Hv Hrest IH];
    intros before value shift Hvalue Hshift; simpl.
  - by rewrite Z.add_0_r.
  - rewrite list_lookup_middle by done.
    assert (0 <= w) as Hw.
    { destruct (Z.lt_ge_cases w 0) as [Hneg|]; [|done].
      rewrite Z.pow_neg_r in Hv by done. lia. }
    rewrite lor_shiftl_add by done.
    replace (before ++ w :: fieldWidths) with ((before ++ [w]) ++ fieldWidths)
      by (by rewrite <- app_assoc).
    replace (S (length before)) with (length (before ++ [w]))
      by (rewrite length_app; simpl; lia).
    rewrite IH; [f_equal; lia | | lia].
    rewrite Z.shiftl_mul_pow2, Z.pow_add_r by lia.
    assert (0 < 2 ^ shift) by (apply Z.pow_pos_nonneg; lia).
    nia.
Qed.

Lemma BitField_init_ok (name : string) (bitWidth : Z) :
  0 <= bitWidth → BitField_ok (BitField_init name bitWidth).
Proof. intros Hw. split; [constructor | done]. Qed.

Lemma BitField_add_ok (self self' : Value) (name : string) (value bitWidth : Z) :
  BitField_ok self →
  BitField_add self name value bitWidth = Ok self' →
  BitField_ok self'.
Proof.
  destruct self as [| |n w fns fws vs| | | | |]; try done.
  intros [Hfit Hsum]. unfold BitField_add, pyassert.
  destruct ((0 <=? value) && (value <? 2 ^ bitWidth)) eqn:Hv; simpl;
    [|discriminate].
  apply andb_true_iff in Hv as [Hv0 Hv1].
  apply Z.leb_le in Hv0. apply Z.ltb_lt in Hv1.
  destruct (Z.ltb_spec w (pysum fws + bitWidth)); [discriminate|].
  intros [= <-]. split.
  - apply Forall2_app; [done|]. constructor; [lia | constructor].
  - rewrite pysum_app. simpl. lia.
Qed.

Section BitFieldProperties.
Context {types : TypesModule} {bithelper : BitHelper}.

(** C4 (as amended).  [BitField.pack] packs the fields least significant
    bit first in declaration order: for a bit field as [add] builds it
    (each value fits its field, the fields fit the container) the packed
    bytes are the little-endian integer, of the container's width, whose
    value is the sum of the field values each shifted by the widths of the
    fields before it, and nothing is indirect.  The 8-bit bit field with
    aFlag=1, bFlag=0, cFlag=1 (one bit each) and values=3 (two bits), which
    is what the [add] calls of tests.py build, packs to the single byte
    0x1D, bits 1,0,1,1,1,0,0,0 from the least significant on. *)
Theorem BitField_pack_lsb_first (name : string) (bitWidth : Z)
    (fieldNames : list string) (fieldWidths values : list Z)
    (dataOffset : option Z) :
  BitField_ok (BitField name bitWidth fieldNames fieldWidths values) →
  pack (BitField name bitWidth fieldNames fieldWidths values) dataOffset
  = Ok (le_split (Z.to_nat (bitWidth / 8)) (shiftedSum values fieldWidths 0), [])
  ∧ (bf ← BitField_add (BitField_init "bitField1" 8) "aFlag" 1 1;
     bf ← BitField_add bf "bFlag" 0 1;
     bf ← BitField_add bf "cFlag" 1 1;
     BitField_add bf "values" 3 2) = Ok flags34
  ∧ pack flags34 dataOffset = Ok ([Byte.x1d], []).
Proof.
  intros [Hfit Hsum]. split; [|done].
  cbn [pack]. unfold BitField_pack.
  pose proof (BitField_pack_loop_sum values fieldWidths Hfit [] 0 0) as Hloop.
  simpl in Hloop. rewrite Hloop by lia. clear Hloop.
  destruct (shiftedSum_bound _ _ Hfit 0) as [Hlo Hhi]; [done|].
  rewrite Z.pow_0_r, Z.add_0_l in Hhi.
  assert (2 ^ pysum fieldWidths <= 2 ^ bitWidth) as Hpow.
  { apply Z.pow_le_mono_r; [lia | done]. }
  assert (inRange true bitWidth (shiftedSum values fieldWidths 0) = true)
    as Hrange.
  { unfold inRange. apply andb_true_iff.
    split; [apply Z.leb_le | apply Z.ltb_lt]; lia. }
  unfold Int_init, assertValueHasType, hasType.
  rewrite Z.add_0_l. simpl. rewrite Hrange. simpl. by rewrite Hrange.
Qed.
End BitFieldProperties.

(** The bit field of tests.py meets the conditions of the theorem. *)
Lemma BitField_pack_lsb_first_witness :
  BitField_ok flags34
  ∧ pack (types := sampleTypes) (bithelper := sampleBits) flags34 None
    = Ok ([Byte.x1d], []).
Proof.
  assert (BitField_ok flags34) as Hok.
  { split; [|simpl; lia]. repeat constructor; simpl; lia. }
  split; [exact Hok|].
  exact (proj2 (proj2 (BitField_pack_lsb_first (types := sampleTypes)
    (bithelper := sampleBits) "bitField1" 8 ["aFlag"; "bFlag"; "cFlag"; "values"]
    [1; 1; 1; 2] [1; 0; 1; 3] None Hok))).
Defined.

(** C4, the counterexample: the bit field of the claim packs to the byte
    0x1D, which is not the byte 0x17 the claim names. *)
Lemma BitField_pack_not_0x17 :
  pack (types := sampleTypes) (bithelper := sampleBits) flags34 None = Ok ([Byte.x1d], [])
  ∧ pack (types := sampleTypes) (bithelper := sampleBits) flags34 None
    ≠ Ok ([Byte.x17], []).
Proof. split; [done | discriminate]. Qed.

(** ** References *)

Lemma le_split_0 (n : nat) : le_split n 0 = replicate n Byte.x00.
Proof.
  induction n as [|n IH]; [done|].
  change (le_split (S n) 0) with (byte.of_Z 0 :: le_split n (Z.shiftr 0 8)).
  by rewrite Z.shiftr_0_l, IH.
Qed.

Lemma inRange_unsigned (bitWidth n : Z) :
  0 <= n < 2 ^ bitWidth → inRange true bitWidth n = true.
Proof.
  intros Hn. unfold inRange. apply andb_true_iff.
  split; [apply Z.leb_le | apply Z.ltb_lt]; lia.
Qed.

Section ReferenceProperties.
Context {types : TypesModule} {bithelper : BitHelper}.

Lemma pack_None_isNone (v : Value) (packed : Packed) :
  pack v None = Ok packed → getPythonValue_isNone v = false.
Proof. destruct v; try done. Qed.

(** What a Reference with a present target emits at a cursor: the cursor
    moved up to the alignment of the target, when that fits the pointer. *)
Lemma Reference_pack_pointer (targetValue : Value)
    (referenceBitWidth dataOffset : Z) (packed : Packed) :
  getPythonValue_isNone targetValue = false →
  0 < getAlignment (getType targetValue) →
  pack (Reference targetValue referenceBitWidth) (Some dataOffset) = Ok packed →
  ∃ padding,
    0 <= padding < getAlignment (getType targetValue)
    ∧ packed.1 = le_split (Z.to_nat (referenceBitWidth / 8)) (dataOffset + padding).
Proof.
  intros Hnone Halign Hpack. cbn [pack Reference_pack] in Hpack.
  rewrite Hnone in Hpack.
  destruct (Z.eqb_spec (getAlignment (getType targetValue)) 0) as [|_];
    [lia|].
  exists ((- dataOffset) `mod` getAlignment (getType targetValue)).
  split; [by apply Z.mod_pos_bound|].
  unfold referenceType, Ty_pack in Hpack.
  destruct (inRange true referenceBitWidth _); [|discriminate].
  cbn [mbind Result_bind] in Hpack.
  destruct (namedstruct_pack_with pack targetValue); [|discriminate].
  by injection Hpack as <-.
Qed.

(** What a Reference with a present target returns at a cursor, whenever
    it returns: the alignment is not zero, the pointer is the cursor moved
    up by [padding = (-dataOffset) mod alignment] and fits the pointer
    width, and the indirect bytes are the padding followed by the target
    packed as the top-level value. *)
Lemma Reference_pack_present (targetValue : Value)
    (referenceBitWidth dataOffset : Z) (packed : Packed) :
  let alignment := getAlignment (getType targetValue) in
  let padding := (- dataOffset) `mod` alignment in
  getPythonValue_isNone targetValue = false →
  pack (Reference targetValue referenceBitWidth) (Some dataOffset) = Ok packed →
  alignment ≠ 0
  ∧ 0 <= dataOffset + padding < 2 ^ referenceBitWidth
  ∧ packed.1
    = le_split (Z.to_nat (referenceBitWidth / 8)) (dataOffset + padding)
  ∧ ∃ data offsetedData,
      pack targetValue None = Ok (data, offsetedData)
      ∧ packed.2 = times Byte.x00 padding ++ data ++ offsetedData.
Proof.
  intros alignment padding Hnone Hpack. cbn [pack Reference_pack] in Hpack.
  rewrite Hnone in Hpack. fold alignment in Hpack.
  destruct (Z.eqb_spec alignment 0) as [|Halignment]; [done|].
  fold padding in Hpack.
  apply bind_Ok in Hpack as (packedReference & Hpointer & Hpack).
  apply bind_Ok in Hpack as (target & Htarget & [= <-]).
  unfold namedstruct_pack_with in Htarget.
  apply bind_Ok in Htarget as ([data offsetedData] & Hdata & [= <-]).
  unfold referenceType in Hpointer. cbn [Ty_pack] in Hpointer.
  destruct (inRange true referenceBitWidth (dataOffset + padding)) eqn:Hin;
    [|done].
  injection Hpointer as <-. unfold inRange in Hin.
  apply andb_true_iff in Hin as [Hlow%Z.leb_le Hhigh%Z.ltb_lt].
  repeat split; try done. by exists data, offsetedData.
Qed.

(** C8.  Packing a Reference with no write cursor, which is what a
    Reference packed as the top-level value gets, raises an error, and so
    does constructing a Reference with a target type and a target that is
    not None; either way the result is the error alone, with no bytes. *)
Theorem Reference_errors (targetValue : PyObj) (target : Value)
    (referenceBitWidth : Z) (targetType : Ty) :
  targetValue ≠ PyNone →
  pack (Reference target referenceBitWidth) None
  = Err (Exception "cannot pack reference without a data offset (is the reference not contained in a struct?)")
  ∧ namedstruct_pack (Reference target referenceBitWidth)
    = Err (Exception "cannot pack reference without a data offset (is the reference not contained in a struct?)")
  ∧ Reference_init targetValue referenceBitWidth (Some targetType)
    = Err (Exception "cannot set target type for non-null reference").
Proof.
  intros Hnot. repeat split; try done.
  unfold Reference_init. by destruct targetValue.
Qed.

(** C2.  A Reference packed at a defined write cursor, at every cursor.
    With an absent target (None, which the constructor turns into Null
    whatever target type is declared, or any target whose Python value is
    None) it packs to [referenceBitWidth/8] zero bytes and no indirect
    bytes.  With a present target and
    [padding = (-dataOffset) mod alignment] for the alignment of the
    target's type: when the target packs, as the top-level value, to
    [data] followed by [offsetedData], the alignment is not zero and
    [dataOffset + padding] fits the pointer width, the inline bytes are
    that integer at the pointer width and the indirect bytes are [padding]
    zero bytes followed by [data] and [offsetedData]; and whenever [pack]
    returns, these are the bytes it returns. *)
Theorem Reference_pack_cursor (targetValue : Value)
    (referenceBitWidth dataOffset : Z) :
  let alignment := getAlignment (getType targetValue) in
  let padding := (- dataOffset) `mod` alignment in
  let zeros := replicate (Z.to_nat (referenceBitWidth / 8)) Byte.x00 in
  let pointer :=
    le_split (Z.to_nat (referenceBitWidth / 8)) (dataOffset + padding) in
  0 <= referenceBitWidth →
  (∀ targetType,
     Reference_init PyNone referenceBitWidth targetType
     = Ok (Reference Null referenceBitWidth))
  ∧ pack (Reference Null referenceBitWidth) (Some dataOffset) = Ok (zeros, [])
  ∧ (getPythonValue_isNone targetValue = true →
     pack (Reference targetValue referenceBitWidth) (Some dataOffset)
     = Ok (zeros, []))
  ∧ Reference_init (PyValue targetValue) referenceBitWidth None
    = Ok (Reference targetValue referenceBitWidth)
  ∧ (∀ data offsetedData,
       pack targetValue None = Ok (data, offsetedData) →
       alignment ≠ 0 →
       0 <= dataOffset + padding < 2 ^ referenceBitWidth →
       pack (Reference targetValue referenceBitWidth) (Some dataOffset)
       = Ok (pointer, times Byte.x00 padding ++ data ++ offsetedData))
  ∧ ∀ inline indirect,
      getPythonValue_isNone targetValue = false →
      pack (Reference targetValue referenceBitWidth) (Some dataOffset)
      = Ok (inline, indirect) →
      inline = pointer
      ∧ ∃ data offsetedData,
          pack targetValue None = Ok (data, offsetedData)
          ∧ indirect = times Byte.x00 padding ++ data ++ offsetedData.
Proof.
  intros alignment padding zeros pointer Hwidth.
  assert (∀ absent,
            getPythonValue_isNone absent = true →
            pack (Reference absent referenceBitWidth) (Some dataOffset)
            = Ok (zeros, [])) as Habsent.
  { intros absent Hnone. cbn [pack Reference_pack]. rewrite Hnone.
    unfold referenceType, Ty_pack.
    rewrite inRange_unsigned by (split; [done | by apply Z.pow_pos_nonneg]).
    cbn [mbind Result_bind]. by rewrite le_split_0. }
  split; [by intros [?|]|]. split; [by apply Habsent|].
  split; [exact (Habsent targetValue)|]. split; [done|]. split.
  - intros data offsetedData Htarget Halign Hfits.
    cbn [pack Reference_pack].
    rewrite (pack_None_isNone _ _ Htarget).
    fold alignment. destruct (Z.eqb_spec alignment 0); [done|].
    fold padding. unfold referenceType, Ty_pack.
    rewrite inRange_unsigned by done.
    unfold namedstruct_pack_with. by rewrite Htarget.
  - intros inline indirect Hnone Hpack.
    destruct (Reference_pack_present _ _ _ _ Hnone Hpack)
      as (_ & _ & Hinline & Hindirect).
    by split.
Qed.
End ReferenceProperties.

(** ** Structs *)

Section StructProperties.
Context {types : TypesModule} {bithelper : BitHelper}.

Lemma Struct_pack_loop_members (cursor : Z) (values : list Value)
    (packed : list Packed) :
  membersPacked cursor values packed →
  ∀ names i immediateData offsetedData,
    (i + length values <= length names)%nat →
    Struct_pack_loop pack names i values cursor immediateData offsetedData
    = Ok (immediateData ++ inlineOf packed, offsetedData ++ indirectOf packed).
Proof.
  induction 1 as [cursor|cursor value values immediate referred packed Hpack _ IH];
    intros names i immediateData offsetedData Hnames.
  - unfold inlineOf, indirectOf. simpl. by rewrite !app_nil_r.
  - cbn [Struct_pack_loop length] in *.
    destruct (lookup_lt_is_Some_2 names i) as [name ->]; [lia|].
    rewrite Hpack. cbn [mbind Result_bind].
    rewrite IH by lia. unfold inlineOf, indirectOf. simpl.
    by rewrite <- !app_assoc.
Qed.

Lemma membersPacked_length (cursor : Z) (values : list Value)
    (packed : list Packed) :
  membersPacked cursor values packed → length packed = length values.
Proof. induction 1; simpl; [done | by f_equal]. Qed.

(** Member [k] is packed at the start cursor moved past the indirect bytes
    of the members before it. *)
Lemma membersPacked_lookup (cursor : Z) (values : list Value)
    (packed : list Packed) :
  membersPacked cursor values packed →
  ∀ k value p,
    values !! k = Some value → packed !! k = Some p →
    pack value (Some (cursor + len (indirectOf (take k packed)))) = Ok p.
Proof.
  induction 1 as [cursor|cursor value values immediate referred packed Hpack _ IH];
    intros k value' p Hvalue Hp; [done|].
  destruct k as [|k]; simpl in Hvalue, Hp.
  - injection Hvalue as <-. injection Hp as <-.
    unfold indirectOf. simpl. by rewrite Z.add_0_r.
  - rewrite <- (IH k value' p Hvalue Hp). do 2 f_equal.
    unfold indirectOf. simpl. rewrite len_app. lia.
Qed.







(** C6 (as amended).  A struct whose members pack one after the other,
    each at the start cursor moved past the indirect bytes of the members
    before it, packs to these inline bytes: the members' inline bytes in
    order, zero-filled up to the immediate size of the struct; and to
    these indirect bytes: the members' indirect bytes in order.  Given a
    write cursor, [pack] starts from it and returns the two apart; for
    the top-level value it starts from the immediate size of the struct
    and returns the inline bytes followed by the indirect bytes as one
    sequence, with nothing indirect.  A member that is a Reference with a
    present target points at or past its own cursor, hence past the
    indirect bytes of all the members before it. *)
Theorem Struct_pack_members (name : string) (names : list string)
    (typeSize size : Z) (values : list Value) (dataOffset : option Z)
    (packed : list Packed) :
  let self := Struct name names typeSize values in
  let start := startCursor size dataOffset in
  let inline :=
    inlineOf packed ++ times Byte.x00 (size - len (inlineOf packed)) in
  (length values <= length names)%nat →
  getImmediateDataSize self = Ok size →
  membersPacked start values packed →
  pack self dataOffset = Ok (returned dataOffset inline (indirectOf packed))
  ∧ ∀ (k : nat) (value : Value) (p : Packed),
      values !! k = Some value → packed !! k = Some p →
      let cursor := start + len (indirectOf (take k packed)) in
      pack value (Some cursor) = Ok p
      ∧ ∀ targetValue referenceBitWidth,
          value = Reference targetValue referenceBitWidth →
          getPythonValue_isNone targetValue = false →
          0 < getAlignment (getType targetValue) →
          ∃ padding,
            0 <= padding < getAlignment (getType targetValue)
            ∧ p.1 = le_split (Z.to_nat (referenceBitWidth / 8))
                      (cursor + padding).
Proof.
  intros self start inline Hnames Hsize Hmembers. split.
  - unfold self in *. cbn [pack]. unfold Struct_pack. rewrite Hsize.
    assert ((match dataOffset with
             | Some dataOffset0 => Ok dataOffset0
             | None => Ok size
             end : Result Z) = Ok start) as -> by (by destruct dataOffset).
    cbn [mbind Result_bind].
    rewrite (Struct_pack_loop_members _ _ _ Hmembers) by (simpl; lia).
    cbn [mbind Result_bind app]. by destruct dataOffset.
  - intros k value p Hvalue Hp cursor.
    pose proof (membersPacked_lookup _ _ _ Hmembers k value p Hvalue Hp)
      as Hpack.
    split; [done|]. intros targetValue referenceBitWidth -> Hnone Halign.
    by apply (Reference_pack_pointer targetValue referenceBitWidth cursor).
Qed.

End StructProperties.

(** ** Arrays *)

Section ArrayProperties.
Context {types : TypesModule} {bithelper : BitHelper}.




End ArrayProperties.


(** ** Arrays of a declared length *)


Section FixedSizeProperties.
Context {types : TypesModule} {bithelper : BitHelper}.

Lemma Array_pack_top_level (cls : ArrayClass) (type : Ty)
    (values : list PyObj) (fixedSize dataOffset : option Z) (size : Z)
    (relative : bool) :
  getImmediateDataSize (Array cls type values fixedSize) = Ok size →
  Array_pack pack (Array cls type values fixedSize) dataOffset relative
  = Array_pack pack (Array cls type values fixedSize)
      (Some (startCursor size dataOffset)) relative.
Proof.
  intros Hsize. unfold Array_pack. rewrite Hsize. by destruct dataOffset.
Qed.

End FixedSizeProperties.

(** ** Loops that collect results *)

Lemma forM_Ok {A B : Type} (f : A → Result B) (l : list A) (r : list B) :
  forM f l = Ok r ↔ Forall2 (fun x y => f x = Ok y) l r.
Proof.
  revert r. induction l as [|x l IH]; intros r; simpl.
  - split; [intros [= <-]; constructor | by inversion 1].
  - split.
    + intros (y & Hy & Hrest)%bind_Ok.
      apply bind_Ok in Hrest as (ys & Hys & [= <-]).
      constructor; [done | by apply IH].
    + inversion 1 as [|? y ? ys Hy Hys]; subst.
      rewrite Hy. apply IH in Hys. simpl. by rewrite Hys.
Qed.

Lemma forM_map {A B : Type} (f : A → Result B) (g : A → B) (l : list A) :
  Forall (fun x => f x = Ok (g x)) l → forM f l = Ok (map g l).
Proof.
  induction 1 as [|x l Hx _ IH]; simpl; [done|]. by rewrite Hx, IH.
Qed.

Lemma forM_Err {A B : Type} (f : A → Result B) (l : list A) :
  Exists (fun x => ∃ e, f x = Err e) l → ∃ e, forM f l = Err e.
Proof.
  induction 1 as [x l [e He]|x l _ [e IH]]; simpl.
  - rewrite He. by eexists.
  - destruct (f x); [|by eexists]. simpl. rewrite IH. by eexists.
Qed.

(** ** Reference arrays *)

Section ReferenceArrayProperties.
Context {types : TypesModule} {bithelper : BitHelper}.



End ReferenceArrayProperties.


(** ** Bit field arrays: adding an entry *)

Lemma BitFieldArray_add_value_accepts (value : PyObj) :
  isFieldValue value = true →
  BitFieldArray_add_value value = Ok (fieldValueOf value).
Proof.
  destruct value as [|n| | |v]; try done.
  - simpl. by intros ->.
  - destruct v as [| | | | |cls ? ? ?| |]; try done. by destruct cls.
Qed.

Lemma BitFieldArray_add_value_refuses (value : PyObj) :
  isFieldValue value = false → ∃ e, BitFieldArray_add_value value = Err e.
Proof.
  intros Hvalue.
  destruct value as [|n| | |v]; simpl in *.
  - by exists (Exception "bitFieldArray only supports int or blobValue").
  - rewrite Hvalue. by eexists.
  - by exists (Exception "bitFieldArray only supports int or blobValue").
  - by exists (Exception "bitFieldArray only supports int or blobValue").
  - destruct v as [| | | | |cls ? ? ?| |];
      try (by exists (Exception "bitFieldArray only supports int or blobValue")).
    destruct cls; try discriminate;
      by exists (Exception "bitFieldArray only supports int or blobValue").
Qed.

(** Distinct field names that are all keys of a dictionary with as many
    keys as there are fields are all its keys. *)
Lemma fields_cover_keys (fields : list string) (d : gmap string PyObj)
    (key : string) :
  NoDup fields →
  Forall (fun field => is_Some (d !! field)) fields →
  size d = length fields →
  is_Some (d !! key) → key ∈ fields.
Proof.
  intros Hnodup Hkeys Hsize Hkey.
  assert (list_to_set fields ≡@{gset string} dom d) as Hdom.
  { apply set_subseteq_size_equiv.
    - intros field Hfield%elem_of_list_to_set. apply elem_of_dom.
      by eapply Forall_forall in Hkeys.
    - rewrite size_dom, size_list_to_set by done. lia. }
  apply elem_of_dom in Hkey. apply Hdom in Hkey.
  by apply elem_of_list_to_set in Hkey.
Qed.

(** C10 (as amended).  [add] on a BitFieldArray with distinct field names.
    It raises an error whenever a supplied field value (an element of the
    sequence, a value of the dictionary) is neither a Blob nor an integer
    from 0 to 2^31 - 1, and whenever the number of supplied values is not
    the number of fields.  When the supplied values are as many as the
    fields (for a dictionary, with every field name a key) and each is a
    Blob or an integer from 0 to 2^31 - 1, the call returns the
    BitFieldArray with one more entry, the supplied values in field order. *)
Theorem BitFieldArray_add_checked (name : string) (fields : list string)
    (entries : list (list FieldValue)) :
  let self := BitFieldArray name fields entries in
  let added values :=
    Ok (BitFieldArray name fields (entries ++ [map fieldValueOf values])) in
  NoDup fields →
  (∀ values, Exists (fun value => isFieldValue value = false) values →
     ∃ e, BitFieldArray_add self (Sequence values) = Err e)
  ∧ (∀ d key value, d !! key = Some value → isFieldValue value = false →
       ∃ e, BitFieldArray_add self (Dict d) = Err e)
  ∧ (∀ fieldValues, FieldValues_len fieldValues ≠ len fields →
       BitFieldArray_add self fieldValues = Err AssertionError)
  ∧ (∀ values, length values = length fields →
       Forall (fun value => isFieldValue value = true) values →
       BitFieldArray_add self (Sequence values) = added values)
  ∧ (∀ d values, size d = length fields →
       Forall2 (fun field value => d !! field = Some value) fields values →
       Forall (fun value => isFieldValue value = true) values →
       BitFieldArray_add self (Dict d) = added values).
Proof.
  intros self added Hnodup.
  assert (∀ values, Exists (fun value => isFieldValue value = false) values →
            ∃ e, forM BitFieldArray_add_value values = Err e) as Hrefuse.
  { intros values Hbad. apply forM_Err.
    eapply Exists_impl; [exact Hbad|].
    intros value. apply BitFieldArray_add_value_refuses. }
  assert (∀ values, Forall (fun value => isFieldValue value = true) values →
            forM BitFieldArray_add_value values
            = Ok (map fieldValueOf values)) as Haccept.
  { intros values Hgood. apply forM_map.
    eapply Forall_impl; [exact Hgood|].
    intros value. apply BitFieldArray_add_value_accepts. }
  repeat split.
  - intros values Hbad. unfold self, BitFieldArray_add.
    destruct (pyassert _) as [[]|e]; [|by eexists]. cbn [mbind Result_bind].
    destruct (Hrefuse values Hbad) as [e ->]. by eexists.
  - intros d key value Hkey Hbad. unfold self, BitFieldArray_add, pyassert.
    cbn [FieldValues_len]. unfold len.
    destruct (Z.eqb_spec (Z.of_nat (length fields)) (Z.of_nat (size d)))
      as [Hsize|_]; [|by eexists].
    cbn [mbind Result_bind].
    destruct (forM _ fields) as [values|e] eqn:Hvalues; [|by eexists].
    cbn [mbind Result_bind]. apply forM_Ok in Hvalues.
    assert (Forall2 (fun field value => d !! field = Some value) fields values)
      as Hlookup.
    { eapply Forall2_impl; [exact Hvalues|]. intros field v. simpl.
      destruct (d !! field); [by intros [= ->] | done]. }
    assert (key ∈ fields) as Hin.
    { apply (fields_cover_keys fields d); [done | | lia | by eexists].
      apply Forall_forall. intros field Hfield.
      destruct (proj1 (list_elem_of_lookup _ _) Hfield) as [i Hi].
      destruct (Forall2_lookup_l _ _ _ _ _ Hlookup Hi) as (v & _ & Hv).
      by eexists. }
    destruct (proj1 (list_elem_of_lookup _ _) Hin) as [i Hi].
    destruct (Forall2_lookup_l _ _ _ _ _ Hlookup Hi) as (v & Hv & Hd).
    rewrite Hkey in Hd. injection Hd as <-.
    destruct (Hrefuse values) as [e ->]; [|by eexists].
    apply Exists_exists. exists value. split; [|done].
    by eapply list_elem_of_lookup_2.
  - intros fieldValues Hlen. unfold self, BitFieldArray_add, pyassert.
    by destruct (Z.eqb_spec (len fields) (FieldValues_len fieldValues)).
  - intros values Hlen Hgood. unfold self, BitFieldArray_add, pyassert.
    cbn [FieldValues_len]. unfold len. rewrite Hlen, Z.eqb_refl.
    cbn [mbind Result_bind]. by rewrite Haccept.
  - intros d values Hsize Hlookup Hgood.
    unfold self, BitFieldArray_add, pyassert.
    cbn [FieldValues_len]. unfold len. rewrite Hsize, Z.eqb_refl.
    cbn [mbind Result_bind].
    assert (forM (fun field => match d !! field with
                               | Some value => Ok value
                               | None => Err KeyError
                               end) fields = Ok values) as ->.
    { apply forM_Ok. eapply Forall2_impl; [exact Hlookup|].
      intros field value. simpl. by intros ->. }
    cbn [mbind Result_bind]. by rewrite Haccept.
Qed.

(** The fields "a" and "b" are distinct, and a float is refused. *)
Lemma BitFieldArray_add_checked_witness :
  NoDup ["a"; "b"]
  ∧ ∃ e, BitFieldArray_add (BitFieldArray "pairs" ["a"; "b"] [])
           (Sequence [PyInt 1; PyFloat]) = Err e.
Proof.
  assert (NoDup ["a"; "b"]) as Hnodup by compute_done.
  split; [exact Hnodup|].
  apply (proj1 (BitFieldArray_add_checked "pairs" ["a"; "b"] [] Hnodup)).
  apply Exists_cons_tl, Exists_cons_hd. reflexivity.
Defined.

(** C10, the counterexample: one value, an integer within the range, is
    supplied to a BitFieldArray of two fields, and [add] raises. *)
Lemma BitFieldArray_add_count_mismatch :
  Forall (fun value => isFieldValue value = true) [PyInt 1]
  ∧ BitFieldArray_add (BitFieldArray_init "pairs" ["a"; "b"])
      (Sequence [PyInt 1])
    = Err AssertionError.
Proof. split; [by repeat constructor | reflexivity]. Qed.

(** ** Arrays of Python values *)

Section PythonArrays.
Context {types : TypesModule} {bithelper : BitHelper}.

(** With elements that are not value objects the loop of [Array.pack]
    calls no element's [pack]. *)
Lemma Array_pack_loop_python (elementType : Ty) (values : list PyObj)
    (packs : list (list byte)) :
  Forall2 (fun value packed => Ty_pack elementType value = Ok packed)
    values packs →
  ∀ pack' relative dataOffset immediateData offsetedData immediateLen,
    Array_pack_loop pack' elementType false relative values dataOffset
      immediateData offsetedData immediateLen
    = Ok (immediateData ++ packs, offsetedData).
Proof.
  induction 1 as [|value packed values packs Hpacked _ IH];
    intros pack' relative dataOffset immediateData offsetedData immediateLen.
  - simpl. by rewrite app_nil_r.
  - cbn [Array_pack_loop]. rewrite Hpacked. cbn [mbind Result_bind].
    rewrite IH. by rewrite <- app_assoc.
Qed.

(** A SimpleArray of Python values with no fixed length packs, as the
    top-level value, to the packed elements in order, whatever [pack] the
    elements would be handed to: [packPythonArray] is [namedstruct.pack]
    on such an array. *)
Lemma SimpleArray_pack_python (pack' : Value → option Z → Result Packed)
    (cls : ArrayClass) (elementType : Ty) (byteAlignment : option Z)
    (values : list PyObj) (packs : list (list byte)) :
  elementsAreValueObjects values = false →
  Forall2 (fun value packed => Ty_pack elementType value = Ok packed)
    values packs →
  namedstruct_pack_with (SimpleArray_pack pack')
    (Array cls (SimpleArrayType elementType None byteAlignment) values None)
  = Ok (concat packs).
Proof.
  intros Hobjects Hpacks.
  unfold namedstruct_pack_with, SimpleArray_pack, Array_pack.
  cbn [getImmediateDataSize mbind Result_bind getElementType].
  rewrite Hobjects.
  rewrite (Array_pack_loop_python _ _ _ Hpacks).
  cbn [mbind Result_bind fillFixedSize app concat].
  by rewrite !app_nil_r.
Qed.

Lemma packPythonArray_is_pack (cls : ArrayClass) (elementType : Ty)
    (byteAlignment : option Z) (values : list PyObj)
    (packs : list (list byte)) :
  isReferenceArray cls = false →
  elementsAreValueObjects values = false →
  Forall2 (fun value packed => Ty_pack elementType value = Ok packed)
    values packs →
  namedstruct_pack
    (Array cls (SimpleArrayType elementType None byteAlignment) values None)
  = packPythonArray
      (Array cls (SimpleArrayType elementType None byteAlignment) values None).
Proof.
  intros Hcls Hobjects Hpacks. unfold packPythonArray.
  rewrite (SimpleArray_pack_python _ _ _ _ _ _ Hobjects Hpacks).
  rewrite <- (SimpleArray_pack_python pack cls _ byteAlignment _ _
                Hobjects Hpacks).
  unfold namedstruct_pack, namedstruct_pack_with.
  by destruct cls.
Qed.

Lemma Array_init_check_python (type : Ty) (values : list PyObj) :
  Forall (fun value => hasType (getElementType type) value = true) values →
  Array_init_check type false values = Ok ().
Proof.
  induction 1 as [|value values Hvalue _ IH]; [done|].
  cbn [Array_init_check]. unfold assertValueHasType. rewrite Hvalue.
  cbn [mbind Result_bind]. exact IH.
Qed.

(** The header array of [BitFieldArray.pack]: unsigned 16-bit words *)
Lemma header_packed (headerValues : list Z) :
  Forall (fun n => 0 <= n < 65536) headerValues →
  ∃ headerArray,
    SimpleArray_init UINT16 (map PyInt headerValues) None None
    = Ok headerArray
    ∧ packPythonArray headerArray
      = Ok (concat (map (le_split 2) headerValues)).
Proof.
  intros Hrange.
  assert (Forall (fun n => inRange true 16 n = true) headerValues) as Hin.
  { eapply Forall_impl; [exact Hrange|]. intros n Hn.
    by apply inRange_unsigned. }
  assert (elementsAreValueObjects (map PyInt headerValues) = false)
    as Hobjects by (by destruct headerValues).
  eexists. split.
  - unfold SimpleArray_init, SimpleArray_init_as, Array_init.
    cbn [isReferenceType UINT16 mbind Result_bind]. rewrite Hobjects.
    by rewrite Array_init_check_python by (by apply Forall_map).
  - unfold packPythonArray.
    apply SimpleArray_pack_python; [done|].
    clear -Hin. induction Hin as [|n ns Hn _ IH]; simpl; [constructor|].
    constructor; [|exact IH]. by rewrite Hn.
Qed.

(** The Blob of [BitFieldArray.pack]: the bits packed into chars *)
Lemma blob_packed (blob : list bool) :
  ∃ blobValue,
    Blob_init blob None 4 = Ok blobValue
    ∧ packPythonArray blobValue = Ok (packBitsToChars blob).
Proof.
  assert (elementsAreValueObjects
            (map (fun c => PyStr [c]) (packBitsToChars blob)) = false)
    as Hobjects by (by destruct (packBitsToChars blob)).
  eexists. split.
  - unfold Blob_init, SimpleArray_init_as, Array_init.
    cbn [isReferenceType mbind Result_bind]. rewrite Hobjects.
    by rewrite Array_init_check_python
      by (apply Forall_map, Forall_forall; done).
  - unfold packPythonArray.
    rewrite (SimpleArray_pack_python _ _ _ _ _
               (map (fun c => [c]) (packBitsToChars blob))); [|done|].
    + f_equal. generalize (packBitsToChars blob) as chars.
      induction chars as [|c cs IH]; simpl; [done | by rewrite IH].
    + generalize (packBitsToChars blob) as chars.
      induction chars as [|c cs IH]; simpl; constructor; done.
Qed.
End PythonArrays.

Lemma packBitsToChars_length (blob : list bool) :
  len (packBitsToChars blob) = (len blob + 7) / 8.
Proof.
  unfold packBitsToChars, len. rewrite length_map, length_seq.
  by rewrite Nat2Z.inj_div, Nat2Z.inj_add.
Qed.

(** Word [k] of a header of 16-bit words is the [k]-th value. *)
Lemma headerWord_words (headerValues : list Z) (k : nat) (value : Z) :
  headerValues !! k = Some value →
  0 <= value < 65536 →
  headerWord (concat (map (le_split 2) headerValues)) k = value.
Proof.
  intros Hk Hvalue. unfold headerWord.
  assert (take 2 (drop (2 * k) (concat (map (le_split 2) headerValues)))
          = le_split 2 value) as ->.
  { revert k Hk. induction headerValues as [|n ns IH]; intros k Hk; [done|].
    destruct k as [|k]; simpl in Hk.
    - injection Hk as ->. cbn [map concat]. rewrite Nat.mul_0_r.
      rewrite drop_0.
      by rewrite take_app_length' by (by rewrite length_le_split).
    - cbn [map concat].
      replace (2 * S k)%nat with (length (le_split 2 n) + 2 * k)%nat
        by (rewrite length_le_split; lia).
      rewrite drop_app_add. by apply IH. }
  rewrite le_combine_split. apply Z.mod_small.
  change (2 ^ (Z.of_nat 2 * 8)) with 65536. done.
Qed.

(** ** Bit field arrays: widths and bits *)

Lemma fold_left_max (rest : list Z) (x : Z) :
  x <= fold_left Z.max rest x
  ∧ Forall (fun y => y <= fold_left Z.max rest x) rest
  ∧ (fold_left Z.max rest x = x ∨ fold_left Z.max rest x ∈ rest).
Proof.
  revert x. induction rest as [|y rest IH]; intros x; simpl.
  - repeat split; [lia | constructor | by left].
  - destruct (IH (Z.max x y)) as (Hle & Hall & Hin).
    repeat split; [lia | constructor; [lia | done] |].
    destruct Hin as [Heq|Hin]; [|right; by constructor].
    rewrite Heq. destruct (Z.max_spec x y) as [[_ ->]|[_ ->]];
      [right; constructor | by left].
Qed.

Lemma pymax_spec (l : list Z) (w : Z) :
  pymax l = Ok w → w ∈ l ∧ Forall (fun y => y <= w) l.
Proof.
  destruct l as [|x rest]; [done|]. intros [= <-].
  destruct (fold_left_max rest x) as (Hle & Hall & Hin). split.
  - destruct Hin as [->|Hin]; [constructor | by constructor].
  - by constructor.
Qed.

Lemma lookup_map {A B : Type} (f : A → B) (l : list A) (i : nat) :
  map f l !! i = f <$> l !! i.
Proof.
  revert i. induction l as [|x l IH]; intros [|i]; simpl; done.
Qed.

Lemma pysum_nonneg (l : list Z) : Forall (fun w => 0 <= w) l → 0 <= pysum l.
Proof. induction 1 as [|w l Hw _ IH]; simpl; lia. Qed.

Lemma pysum_take_le (l : list Z) (i : nat) :
  Forall (fun w => 0 <= w) l → 0 <= pysum (take i l) <= pysum l.
Proof.
  intros Hl. revert i. induction Hl as [|w l Hw Hl IH]; intros [|i]; simpl;
    try lia.
  - pose proof (pysum_nonneg l Hl). lia.
  - specialize (IH i). lia.
Qed.

Lemma concat_uniform_lookup {A : Type} (chunks : list (list A)) (m : nat) :
  Forall (fun c => length c = m) chunks →
  ∀ n c j, chunks !! n = Some c → (j < m)%nat →
    concat chunks !! (n * m + j)%nat = c !! j.
Proof.
  induction 1 as [|c' chunks Hc' _ IH]; intros n c j Hn Hj; [done|].
  destruct n as [|n]; simpl in Hn |- *.
  - injection Hn as ->. apply lookup_app_l. lia.
  - rewrite lookup_app_r by lia.
    replace (m + n * m + j - length c')%nat with (n * m + j)%nat by lia.
    by apply IH.
Qed.

Lemma concat_uniform_length {A : Type} (chunks : list (list A)) (m : nat) :
  Forall (fun c => length c = m) chunks →
  length (concat chunks) = (length chunks * m)%nat.
Proof.
  induction 1 as [|c chunks Hc _ IH]; simpl; [done|].
  rewrite length_app. lia.
Qed.

Section BitFieldArrayBits.
Context {types : TypesModule} {bithelper : BitHelper}.

(** [getFieldLengths] returns, for each field, the greatest bit length of
    that field over the entries, and zero when there is no entry. *)
Lemma getFieldLengths_spec (fields : list string)
    (entries : list (list FieldValue)) (fieldLengths : list Z) :
  getFieldLengths fields entries = Ok fieldLengths →
  length fieldLengths = length fields
  ∧ ∀ i w, fieldLengths !! i = Some w →
      (∀ entry, entry ∈ entries →
         ∃ field, entry !! i = Some field ∧ fieldBits field <= w)
      ∧ (entries = [] → w = 0)
      ∧ (entries ≠ [] →
           ∃ entry field,
             entry ∈ entries ∧ entry !! i = Some field
             ∧ fieldBits field = w).
Proof.
  unfold getFieldLengths.
  destruct (Z.eqb_spec (len entries) 0) as [Hempty|Hnonempty].
  - intros [= <-]. unfold times, len in *.
    destruct entries as [|entry entries]; [|simpl in Hempty; lia].
    rewrite length_replicate, Nat2Z.id. split; [done|].
    intros i w [-> _]%lookup_replicate.
    repeat split; [by intros entry Hentry%elem_of_nil | done].
  - intros Hall%forM_Ok. split.
    { apply Forall2_length in Hall. by rewrite length_seq in Hall. }
    intros i w Hw.
    destruct (Forall2_lookup_r _ _ _ _ _ Hall Hw) as (fi & Hfi & Hcolumn).
    apply lookup_seq in Hfi as [-> _]. simpl in Hcolumn.
    apply bind_Ok in Hcolumn as (lengths & Hlengths%forM_Ok & Hmax).
    apply pymax_spec in Hmax as [Hin Hle].
    repeat split.
    + intros entry Hentry.
      destruct (proj1 (list_elem_of_lookup _ _) Hentry) as [n Hn].
      destruct (Forall2_lookup_l _ _ _ _ _ Hlengths Hn) as (l & Hl & Hfield).
      destruct (entry !! i) as [field|]; [|done].
      injection Hfield as <-. exists field. split; [done|].
      eapply Forall_forall in Hle; [exact Hle|].
      by eapply list_elem_of_lookup_2.
    + intros ->. by destruct Hnonempty.
    + intros _.
      destruct (proj1 (list_elem_of_lookup _ _) Hin) as [n Hn].
      destruct (Forall2_lookup_r _ _ _ _ _ Hlengths Hn)
        as (entry & Hentry & Hfield).
      destruct (entry !! i) as [field|] eqn:Hi; [|done].
      injection Hfield as <-. exists entry, field.
      split; [by eapply list_elem_of_lookup_2 | done].
Qed.

Lemma fieldBits_nonneg (field : FieldValue) :
  (∀ n, 0 <= requiredBits n) → 0 <= fieldBits field.
Proof. intros Hbits. destruct field; simpl; [apply len_nonneg | done]. Qed.

Lemma paddedBits_length (field : FieldValue) (w : Z) :
  0 <= w ∧ fieldBits field <= w →
  length (paddedBits field w) = Z.to_nat w.
Proof.
  intros [Hw Hfits]. destruct field as [b|value]; simpl in *.
  - unfold times, len in *. rewrite length_app, length_replicate. lia.
  - unfold toBits. by rewrite length_map, length_seq.
Qed.

Lemma paddedBits_lookup (field : FieldValue) (w : Z) (j : nat) :
  (j < Z.to_nat w)%nat →
  paddedBits field w !! j = Some (fieldBitAt field j).
Proof.
  intros Hj. destruct field as [b|value]; simpl.
  - destruct (b !! j) as [bit|] eqn:Hbit; simpl.
    + rewrite lookup_app_l by (by eapply lookup_lt_Some). done.
    + apply lookup_ge_None in Hbit. rewrite lookup_app_r by done.
      apply lookup_replicate_2. unfold times, len in *. lia.
  - unfold toBits. rewrite lookup_map, lookup_seq_lt by done. done.
Qed.

Lemma entryBits_length (fieldLengths : list Z) (entry : list FieldValue) :
  Forall2 (fun field w => 0 <= w ∧ fieldBits field <= w) entry fieldLengths →
  length (entryBits fieldLengths entry) = Z.to_nat (pysum fieldLengths).
Proof.
  unfold entryBits.
  induction 1 as [|field w entry fieldLengths Hfield Hrest IH]; [done|].
  cbn [zip_with concat pysum foldr]. rewrite length_app, IH.
  rewrite (paddedBits_length _ _ Hfield).
  assert (0 <= pysum fieldLengths).
  { apply pysum_nonneg. clear -Hrest.
    induction Hrest as [|? ? ? ? [? _] _ IH]; by constructor. }
  unfold pysum in *. lia.
Qed.

Lemma entryBits_lookup (fieldLengths : list Z) (entry : list FieldValue) :
  Forall2 (fun field w => 0 <= w ∧ fieldBits field <= w) entry fieldLengths →
  ∀ i field w j,
    entry !! i = Some field → fieldLengths !! i = Some w →
    (j < Z.to_nat w)%nat →
    entryBits fieldLengths entry
      !! (Z.to_nat (pysum (take i fieldLengths)) + j)%nat
    = Some (fieldBitAt field j).
Proof.
  unfold entryBits.
  induction 1 as [|field' w' entry fieldLengths Hfield Hrest IH];
    intros i field w j Hi Hw Hj; [done|].
  cbn [zip_with concat].
  destruct i as [|i]; simpl in Hi, Hw.
  - injection Hi as ->. injection Hw as ->. simpl.
    rewrite lookup_app_l by (by rewrite (paddedBits_length _ _ Hfield)).
    by apply paddedBits_lookup.
  - assert (Forall (fun w => 0 <= w) fieldLengths) as Hnonneg.
    { clear -Hrest. induction Hrest as [|? ? ? ? [? _] _ IH]; by constructor. }
    pose proof (pysum_take_le fieldLengths i Hnonneg) as Hprefix.
    cbn [take pysum foldr]. fold (pysum (take i fieldLengths)).
    rewrite lookup_app_r
      by (rewrite (paddedBits_length _ _ Hfield); lia).
    rewrite (paddedBits_length _ _ Hfield).
    replace (Z.to_nat (w' + pysum (take i fieldLengths)) + j - Z.to_nat w')%nat
      with (Z.to_nat (pysum (take i fieldLengths)) + j)%nat by lia.
    by apply (IH i field w j).
Qed.

Lemma BitFieldArray_pack_entry_bits (fieldLengths : list Z)
    (entry : list FieldValue) :
  ∀ i blob,
    (i + length entry <= length fieldLengths)%nat →
    BitFieldArray_pack_entry fieldLengths i entry blob
    = Ok (blob ++ concat (zip_with paddedBits entry (drop i fieldLengths))).
Proof.
  induction entry as [|field entry IH]; intros i blob Hlen; simpl in *.
  - by rewrite app_nil_r.
  - destruct (lookup_lt_is_Some_2 fieldLengths i) as [w Hw]; [lia|].
    rewrite Hw, (drop_S _ _ _ Hw). cbn [zip_with concat].
    rewrite IH by lia. f_equal. rewrite app_assoc. f_equal.
    destruct field; simpl; [by rewrite <- app_assoc | done].
Qed.

Lemma BitFieldArray_pack_entries_bits (fieldLengths : list Z)
    (entries : list (list FieldValue)) :
  Forall (fun entry : list FieldValue =>
            (length entry <= length fieldLengths)%nat) entries →
  ∀ blob,
    BitFieldArray_pack_entries fieldLengths entries blob
    = Ok (blob ++ concat (map (entryBits fieldLengths) entries)).
Proof.
  induction 1 as [|entry entries Hentry _ IH]; intros blob; simpl.
  - by rewrite app_nil_r.
  - rewrite BitFieldArray_pack_entry_bits by (simpl; lia).
    cbn [mbind Result_bind]. rewrite IH, drop_0.
    by rewrite <- app_assoc.
Qed.
End BitFieldArrayBits.

Section BitFieldArrayLayout.
Context {types : TypesModule} {bithelper : BitHelper}.

(** C1 (as amended).  A BitFieldArray with F fields and N entries of F
    values each, whose header words fit 16 bits, packs to inline bytes
    alone.  They are a header of F+2 little-endian 16-bit words followed
    by the bits of the entries packed into bytes.  Word 0 is the number
    of bits of an entry, the sum of the field widths.  Words 1 to F+1 are
    16*(F+2), the bit length of the header, plus the sum of the widths of
    the fields before: the bit offset of each field of the first entry
    counted from the start of the header, word F+1 being the end of that
    entry; so the difference of two successive words is a field width.
    The width of a field is the greatest bit length of that field over
    the entries (the required bits of an integer, the length of a blob),
    and zero when there is no entry.  The bits are N times the entry
    width, rounded up to whole bytes; field [i] of entry [n] starts at
    bit [n] times the entry width plus the widths of the fields before
    it, least significant bit first for an integer, in order for a blob,
    and zero from the end of the value to the width of the field. *)
Theorem BitFieldArray_pack_layout (name : string) (fields : list string)
    (entries : list (list FieldValue)) (dataOffset : option Z)
    (fieldLengths : list Z) :
  let self := BitFieldArray name fields entries in
  let F := length fields in
  let N := length entries in
  let total := pysum fieldLengths in
  (∀ n, 0 <= requiredBits n) →
  BitFieldArray_ok fields entries →
  getFieldLengths fields entries = Ok fieldLengths →
  16 * (Z.of_nat F + 2) + total < 65536 →
  ∃ header data bits,
    pack self dataOffset = Ok (header ++ data, [])
    ∧ length header = (2 * (F + 2))%nat
    ∧ headerWord header 0 = total
    ∧ (∀ i, (i <= F)%nat →
         headerWord header (S i)
         = 16 * (Z.of_nat F + 2) + pysum (take i fieldLengths))
    ∧ (∀ i w, fieldLengths !! i = Some w →
         headerWord header (S (S i)) - headerWord header (S i) = w)
    ∧ data = packBitsToChars bits
    ∧ len data = (Z.of_nat N * total + 7) / 8
    ∧ len bits = Z.of_nat N * total
    ∧ (∀ n entry i field w j,
         entries !! n = Some entry → entry !! i = Some field →
         fieldLengths !! i = Some w → (j < Z.to_nat w)%nat →
         bits !! (n * Z.to_nat total
                  + Z.to_nat (pysum (take i fieldLengths)) + j)%nat
         = Some (fieldBitAt field j))
    ∧ length fieldLengths = F
    ∧ ∀ i w, fieldLengths !! i = Some w →
        (∀ entry, entry ∈ entries →
           ∃ field, entry !! i = Some field ∧ fieldBits field <= w)
        ∧ (entries = [] → w = 0)
        ∧ (entries ≠ [] →
             ∃ entry field,
               entry ∈ entries ∧ entry !! i = Some field
               ∧ fieldBits field = w).
Proof.
  intros self F N total Hbits Hok Hlengths Hfits.
  destruct (getFieldLengths_spec _ _ _ Hlengths) as [HlenF Hmax].
  assert (Forall (fun w => 0 <= w) fieldLengths) as Hnonneg.
  { apply Forall_forall. intros w Hw.
    destruct (proj1 (list_elem_of_lookup _ _) Hw) as [i Hi].
    destruct (Hmax i w Hi) as (_ & Hempty & Hsome).
    destruct entries as [|entry entries']; [by rewrite Hempty|].
    destruct Hsome as (e & field & _ & _ & <-); [done|].
    by apply fieldBits_nonneg. }
  assert (Forall (fun entry : list FieldValue =>
                    Forall2 (fun field w => 0 <= w ∧ fieldBits field <= w)
                      entry fieldLengths) entries) as Hcolumns.
  { apply Forall_forall. intros entry Hentry.
    apply Forall2_same_length_lookup_2.
    - eapply Forall_forall in Hok; [|exact Hentry]. simpl in Hok. lia.
    - intros i field w Hi Hw. split.
      + eapply Forall_forall in Hnonneg; [exact Hnonneg|].
        by eapply list_elem_of_lookup_2.
      + destruct (Hmax i w Hw) as (Hle & _).
        destruct (Hle entry Hentry) as (field' & Hi' & Hfield).
        rewrite Hi in Hi'. by injection Hi' as <-. }
  pose proof (pysum_nonneg _ Hnonneg) as Htotal. fold total in Htotal.
  set (offset := (len fieldLengths + 2) * 16).
  set (headerValues :=
         pysum fieldLengths
         :: map (fun i => offset + pysum (take i fieldLengths))
              (seq 0 (length fieldLengths + 1))).
  assert (offset = 16 * (Z.of_nat F + 2)) as Hoffset
    by (unfold offset, len; rewrite HlenF; fold F; lia).
  assert (Forall (fun n => 0 <= n < 65536) headerValues) as Hrange.
  { constructor; [fold total; lia|]. apply Forall_map, Forall_forall.
    intros i _.
    pose proof (pysum_take_le fieldLengths i Hnonneg) as Hprefix.
    fold total in Hprefix. lia. }
  set (bits := concat (map (entryBits fieldLengths) entries)).
  assert (Forall (fun chunk : list bool => length chunk = Z.to_nat total)
            (map (entryBits fieldLengths) entries)) as Hchunks.
  { apply Forall_map. eapply Forall_impl; [exact Hcolumns|].
    intros entry. apply entryBits_length. }
  assert (length bits = (N * Z.to_nat total)%nat) as Hbitslen.
  { unfold bits. rewrite (concat_uniform_length _ _ Hchunks).
    by rewrite length_map. }
  assert (len bits = Z.of_nat N * total) as Hlenbits
    by (unfold len; rewrite Hbitslen; lia).
  assert (length (concat (map (le_split 2) headerValues))
          = (2 * (F + 2))%nat) as Hheaderlen.
  { rewrite (concat_uniform_length _ 2).
    - unfold headerValues. cbn [map length].
      rewrite !length_map, length_seq, HlenF. fold F. lia.
    - apply Forall_map, Forall_forall. intros n _. apply length_le_split. }
  assert (∀ i, (i <= F)%nat →
            headerValues !! S i
            = Some (16 * (Z.of_nat F + 2) + pysum (take i fieldLengths)))
    as Hwords.
  { intros i Hi. unfold headerValues. rewrite lookup_cons.
    rewrite lookup_map, lookup_seq_lt by (rewrite HlenF; fold F; lia).
    simpl. by rewrite Hoffset. }
  assert (∀ i, (i <= F)%nat →
            headerWord (concat (map (le_split 2) headerValues)) (S i)
            = 16 * (Z.of_nat F + 2) + pysum (take i fieldLengths))
    as Hheaderwords.
  { intros i Hi. apply headerWord_words; [by apply Hwords|].
    pose proof (pysum_take_le fieldLengths i Hnonneg) as Hprefix.
    fold total in Hprefix. lia. }
  exists (concat (map (le_split 2) headerValues)), (packBitsToChars bits), bits.
  split; [|split; [|split; [|split; [|split; [|split; [|split;
    [|split; [|split; [|split]]]]]]]]]; try done.
  - unfold self. cbn [pack]. unfold BitFieldArray_pack. rewrite Hlengths.
    cbn [mbind Result_bind]. fold offset. fold headerValues.
    destruct (header_packed headerValues Hrange)
      as (headerArray & Hinit & Hheader).
    rewrite Hinit. cbn [mbind Result_bind].
    rewrite Hheader. cbn [mbind Result_bind].
    rewrite BitFieldArray_pack_entries_bits.
    + cbn [mbind Result_bind app]. fold bits.
      destruct (blob_packed bits) as (blobValue & Hblob & Hdata).
      rewrite Hblob. cbn [mbind Result_bind].
      rewrite Hdata. cbn [mbind Result_bind]. unfold pyassert.
      destruct (Z.eqb_spec (len bits) (pysum fieldLengths * len entries))
        as [_|Hne]; [done|].
      destruct Hne. rewrite Hlenbits. unfold len. fold N total. lia.
    + eapply Forall_impl; [exact Hok|]. intros entry Hentry.
      simpl in *. lia.
  - apply headerWord_words; [done | lia].
  - intros i w Hw.
    pose proof (lookup_lt_Some _ _ _ Hw) as Hi. rewrite HlenF in Hi.
    rewrite !Hheaderwords by (unfold F; lia).
    rewrite (take_S_r _ _ _ Hw), pysum_app. simpl. lia.
  - rewrite packBitsToChars_length, Hlenbits. done.
  - intros n entry i field w j Hn Hi Hw Hj.
    assert (Forall2 (fun field w => 0 <= w ∧ fieldBits field <= w)
              entry fieldLengths) as Hentry.
    { eapply Forall_forall in Hcolumns; [exact Hcolumns|].
      by eapply list_elem_of_lookup_2. }
    rewrite <- Nat.add_assoc.
    rewrite (concat_uniform_lookup _ _ Hchunks n (entryBits fieldLengths entry)).
    + by apply (entryBits_lookup _ _ Hentry i field w j).
    + by rewrite lookup_map, Hn.
    + pose proof (pysum_take_le fieldLengths (S i) Hnonneg) as Hprefix.
      rewrite (take_S_r _ _ _ Hw), pysum_app in Hprefix. simpl in Hprefix.
      pose proof (pysum_take_le fieldLengths i Hnonneg).
      fold total in Hprefix. lia.
Qed.
End BitFieldArrayLayout.

Lemma bitLength_nonneg (n : Z) : 0 <= bitLength n.
Proof.
  unfold bitLength. destruct (Z.leb_spec n 0); [done|].
  pose proof (Z.log2_nonneg n). lia.
Qed.

(** C1, the counterexample: the one-field BitFieldArray of testStruct38
    packs to a header whose word 1 is 48, the bit length of the three-word
    header, and not 0, the offset of the first field counted from the end
    of the header. *)
Lemma BitFieldArray_header_offsets_from_start :
  pack (types := sampleTypes) (bithelper := sampleBits) bitBitArray None
  = Ok ([Byte.x01; Byte.x00; Byte.x30; Byte.x00; Byte.x31; Byte.x00;
         Byte.xa6], [])
  ∧ headerWord [Byte.x01; Byte.x00; Byte.x30; Byte.x00; Byte.x31; Byte.x00;
                Byte.xa6] 1 = 48
  ∧ pysum (take 0 [1]) = 0
  ∧ getFieldLengths (bithelper := sampleBits) ["bit"]
      [[IntField 0]; [IntField 1]; [IntField 1]; [IntField 0];
       [IntField 0]; [IntField 1]; [IntField 0]; [IntField 1]] = Ok [1].
Proof. repeat split; reflexivity. Qed.

(** ** The entries that [add] builds *)

Lemma BitFieldArray_add_ok (name : string) (fields : list string)
    (entries : list (list FieldValue)) (fieldValues : FieldValues)
    (name' : string) (fields' : list string)
    (entries' : list (list FieldValue)) :
  BitFieldArray_ok fields entries →
  BitFieldArray_add (BitFieldArray name fields entries) fieldValues
  = Ok (BitFieldArray name' fields' entries') →
  BitFieldArray_ok fields' entries'.
Proof.
  intros Hok. unfold BitFieldArray_add, pyassert.
  destruct (Z.eqb_spec (len fields) (FieldValues_len fieldValues))
    as [Hlen|_]; [|discriminate].
  cbn [mbind Result_bind].
  intros (values & Hvalues & (entry & Hentry & [= <- <- <-])%bind_Ok)%bind_Ok.
  apply Forall_app. split; [done|]. constructor; [|constructor].
  apply forM_Ok, Forall2_length in Hentry. rewrite <- Hentry.
  destruct fieldValues as [vs|d].
  - injection Hvalues as <-. simpl in Hlen. unfold len in Hlen. lia.
  - by apply forM_Ok, Forall2_length in Hvalues.
Qed.

Section FieldLengthsTotal.
Context {bithelper : BitHelper}.

(** On entries as [add] builds them [getFieldLengths] raises nothing. *)
Lemma getFieldLengths_total (fields : list string)
    (entries : list (list FieldValue)) :
  BitFieldArray_ok fields entries →
  ∃ fieldLengths, getFieldLengths fields entries = Ok fieldLengths.
Proof.
  intros Hok. unfold getFieldLengths.
  destruct (len entries =? 0) eqn:Hempty; [by eexists|].
  assert (entries ≠ []) as Hnonempty by (by intros ->).
  assert (∀ indices, Forall (fun i => (i < length fields)%nat) indices →
            ∃ fieldLengths,
              forM (fun fieldIndex =>
                      lengths ← forM (fun entry : list FieldValue =>
                                        match entry !! fieldIndex with
                                        | Some field => Ok (fieldBits field)
                                        | None => Err IndexError
                                        end) entries;
                      pymax lengths) indices = Ok fieldLengths) as Hall.
  { induction 1 as [|i indices Hi _ [rest IH]]; [by eexists|].
    cbn [forM].
    assert (∃ lengths,
              forM (fun entry : list FieldValue =>
                      match entry !! i with
                      | Some field => Ok (fieldBits field)
                      | None => Err IndexError
                      end) entries = Ok lengths ∧ lengths ≠ [])
      as (lengths & -> & Hlengths).
    { clear -Hok Hi Hnonempty.
      induction Hok as [|entry entries Hentry _ IH]; [done|].
      cbn [forM]. simpl in Hentry.
      destruct (lookup_lt_is_Some_2 entry i) as [field ->]; [lia|].
      cbn [mbind Result_bind].
      destruct entries as [|entry' entries'].
      - by eexists.
      - destruct IH as (lengths & -> & _); [done|]. by eexists. }
    cbn [mbind Result_bind]. destruct lengths as [|l lengths]; [done|].
    cbn [pymax mbind Result_bind]. rewrite IH. by eexists. }
  apply Hall, Forall_forall. intros i Hi%elem_of_seq. lia.
Qed.
End FieldLengthsTotal.

(** ** The theorems at the examples of tests.py *)

Lemma BitFieldArray_pack_layout_witness :
  (∀ n, 0 <= bitLength n)
  ∧ BitFieldArray_ok ["a"; "b"]
      [[IntField 0; IntField 12]; [IntField 0; IntField 4];
       [IntField 0; IntField 0]; [IntField 0; IntField 63]]
  ∧ getFieldLengths (bithelper := sampleBits) ["a"; "b"]
      [[IntField 0; IntField 12]; [IntField 0; IntField 4];
       [IntField 0; IntField 0]; [IntField 0; IntField 63]] = Ok [0; 6]
  ∧ 16 * (Z.of_nat 2 + 2) + pysum [0; 6] < 65536
  ∧ ∃ header data,
      pack (types := sampleTypes) (bithelper := sampleBits) pairBitArray None
      = Ok (header ++ data, [])
      ∧ length header = 8%nat
      ∧ headerWord header 0 = 6
      ∧ len data = 3.
Proof.
  assert (BitFieldArray_ok ["a"; "b"]
            [[IntField 0; IntField 12]; [IntField 0; IntField 4];
             [IntField 0; IntField 0]; [IntField 0; IntField 63]]) as Hok
    by (by repeat constructor).
  assert (16 * (Z.of_nat 2 + 2) + pysum [0; 6] < 65536) as Hfits
    by (by vm_compute).
  split; [exact bitLength_nonneg|]. split; [exact Hok|].
  split; [reflexivity|]. split; [exact Hfits|].
  destruct (BitFieldArray_pack_layout (types := sampleTypes)
              (bithelper := sampleBits) "PairBitArray" ["a"; "b"]
              [[IntField 0; IntField 12]; [IntField 0; IntField 4];
               [IntField 0; IntField 0]; [IntField 0; IntField 63]]
              None [0; 6] bitLength_nonneg Hok eq_refl Hfits)
    as (header & data & bits & Hpack & Hlength & Hword & _ & _ & _ & Hdata & _).
  exists header, data. repeat split; done.
Defined.

Lemma Reference_pack_cursor_witness :
  0 <= 8
  ∧ pack (types := sampleTypes) (bithelper := sampleBits)
      (Reference Null 8) (Some 1000)
    = Ok ([Byte.x00], [])
  ∧ pack (types := sampleTypes) (bithelper := sampleBits)
      (Int false 32 234) None
    = Ok ([Byte.xea; Byte.x00; Byte.x00; Byte.x00], [])
  ∧ sampleAlignment (IntType false 32) = 4
  ∧ pack (types := sampleTypes) (bithelper := sampleBits)
      (Reference (Int false 32 234) 32) (Some 5)
    = Ok ([Byte.x08; Byte.x00; Byte.x00; Byte.x00],
          [Byte.x00; Byte.x00; Byte.x00;
           Byte.xea; Byte.x00; Byte.x00; Byte.x00]).
Proof.
  split; [lia|]. split.
  { exact (proj1 (proj2
      (Reference_pack_cursor (types := sampleTypes) (bithelper := sampleBits)
         Null 8 1000 ltac:(lia)))). }
  split; [reflexivity|]. split; [reflexivity|].
  exact (proj1 (proj2 (proj2 (proj2 (proj2
    (Reference_pack_cursor (types := sampleTypes) (bithelper := sampleBits)
       (Int false 32 234) 32 5 ltac:(lia))))))
    [Byte.xea; Byte.x00; Byte.x00; Byte.x00] []
    eq_refl ltac:(by vm_compute) ltac:(by vm_compute)).
Defined.

Lemma Reference_errors_witness :
  PyInt 5 ≠ PyNone
  ∧ pack (types := sampleTypes) (bithelper := sampleBits)
      (Reference Null 32) None
    = Err (Exception "cannot pack reference without a data offset (is the reference not contained in a struct?)")
  ∧ Reference_init (types := sampleTypes) (PyInt 5) 32 (Some CharType)
    = Err (Exception "cannot set target type for non-null reference").
Proof.
  assert (PyInt 5 ≠ PyNone) as Hnot by discriminate.
  split; [exact Hnot|].
  pose proof (Reference_errors (types := sampleTypes)
                (bithelper := sampleBits) (PyInt 5) Null 32 CharType Hnot)
    as (Hpack & _ & Hinit).
  split; [exact Hpack | exact Hinit].
Defined.

Lemma numberAndString_members :
  membersPacked (types := sampleTypes) (bithelper := sampleBits) 8
    [Int false 32 23; Reference helluWorldString 32] numberAndStringPacked.
Proof.
  apply membersPacked_cons; [reflexivity|].
  apply membersPacked_cons; [reflexivity|].
  apply membersPacked_nil.
Qed.

Lemma Struct_pack_members_witness :
  membersPacked (types := sampleTypes) (bithelper := sampleBits) 8
    [Int false 32 23; Reference helluWorldString 32] numberAndStringPacked
  ∧ pack (types := sampleTypes) (bithelper := sampleBits) numberAndString None
    = Ok ([Byte.x17; Byte.x00; Byte.x00; Byte.x00;
           Byte.x08; Byte.x00; Byte.x00; Byte.x00] ++ helluWorld ++ [Byte.x00],
          []).
Proof.
  split; [exact numberAndString_members|].
  exact (proj1
    (Struct_pack_members (types := sampleTypes) (bithelper := sampleBits)
       "testStruct14" ["number"; "string"] 8 8
       [Int false 32 23; Reference helluWorldString 32] None
       numberAndStringPacked ltac:(simpl; lia) eq_refl
       numberAndString_members)).
Defined.

(** C6, the counterexample: the struct of an int32 and a reference to a
    string, packed as the top-level value.  The reference contributes the
    eleven bytes of the string as indirect bytes, and [pack] returns them
    at the end of its first component, after the eight inline bytes; the
    indirect bytes it returns are empty. *)
Lemma Struct_pack_top_level_combined :
  pack (types := sampleTypes) (bithelper := sampleBits)
    (Reference helluWorldString 32) (Some 8)
  = Ok ([Byte.x08; Byte.x00; Byte.x00; Byte.x00], helluWorld ++ [Byte.x00])
  ∧ pack (types := sampleTypes) (bithelper := sampleBits) numberAndString None
    = Ok ([Byte.x17; Byte.x00; Byte.x00; Byte.x00;
           Byte.x08; Byte.x00; Byte.x00; Byte.x00] ++ helluWorld ++ [Byte.x00],
          [])
  ∧ helluWorld ++ [Byte.x00] ≠ [].
Proof. repeat split; done. Qed.








(** * Further properties of values.py *)

(** ** Reading back what [add] stored *)

Lemma pyIndex_nonneg {A : Type} (l : list A) (i : nat) :
  pyIndex l (Z.of_nat i)
  = match l !! i with Some x => Ok x | None => Err IndexError end.
Proof.
  unfold pyIndex. cbv zeta.
  destruct (Z.ltb_spec (Z.of_nat i) 0) as [|_]; [lia|].
  destruct (Z.ltb_spec (Z.of_nat i) 0) as [|_]; [lia|].
  by rewrite Nat2Z.id.
Qed.

Lemma pyIndex_last {A : Type} (l : list A) (x : A) :
  pyIndex (l ++ [x]) (-1) = Ok x.
Proof.
  unfold pyIndex. cbv zeta. change (-1 <? 0) with true. cbv iota.
  rewrite len_app.
  replace (-1 + (len l + len [x])) with (Z.of_nat (length l))
    by (unfold len; simpl; lia).
  destruct (Z.ltb_spec (Z.of_nat (length l)) 0) as [|_]; [lia|].
  by rewrite Nat2Z.id, list_lookup_middle by done.
Qed.

Lemma pyIndexOf_first (x : string) (l : list string) (i : nat) :
  l !! i = Some x → x ∉ take i l → pyIndexOf x l = Ok (Z.of_nat i).
Proof.
  revert i. induction l as [|y l IH]; intros i Hi Hfirst; [done|].
  destruct i as [|i]; simpl in *.
  - injection Hi as ->. by rewrite bool_decide_eq_true_2.
  - rewrite bool_decide_eq_false_2.
    + rewrite (IH i Hi); [simpl; f_equal; lia|].
      intros Hin. apply Hfirst. by constructor.
    + intros ->. apply Hfirst. constructor.
Qed.

Lemma BitFieldArray_add_value_stores (value : PyObj) (field : FieldValue) :
  BitFieldArray_add_value value = Ok field → field = fieldValueOf value.
Proof.
  destruct value as [|n| | |v]; try done.
  - simpl. destruct (_ && _); [by intros [= <-] | done].
  - destruct v as [| | | | |cls ? ? ?| |]; try done.
    destruct cls; try done. by intros [= <-].
Qed.

Lemma BitFieldArray_add_entry (name : string) (fields : list string)
    (entries : list (list FieldValue)) (fieldValues : FieldValues)
    (self' : Value) :
  BitFieldArray_add (BitFieldArray name fields entries) fieldValues = Ok self' →
  ∃ entry,
    self' = BitFieldArray name fields (entries ++ [entry])
    ∧ length entry = length fields
    ∧ ∀ values, fieldValues = Sequence values → entry = map fieldValueOf values.
Proof.
  unfold BitFieldArray_add, pyassert.
  destruct (Z.eqb_spec (len fields) (FieldValues_len fieldValues))
    as [Hlen|_]; [|discriminate].
  cbn [mbind Result_bind].
  intros (values & Hvalues & (entry & Hentry & [= <-])%bind_Ok)%bind_Ok.
  exists entry. split; [done|]. apply forM_Ok in Hentry. split.
  - rewrite <- (Forall2_length _ _ _ Hentry).
    destruct fieldValues as [vs|d].
    + injection Hvalues as <-. simpl in Hlen. unfold len in Hlen. lia.
    + by apply forM_Ok, Forall2_length in Hvalues.
  - intros vs ->. injection Hvalues as <-.
    clear -Hentry. induction Hentry as [|v f vs fs Hv _ IH]; [done|].
    simpl. by rewrite (BitFieldArray_add_value_stores _ _ Hv), IH.
Qed.

(** X1.  What [add] stores, [get] returns.  After [add] of a sequence of
    values succeeds, [get] of a field name at the index of the new entry
    (the number of entries before the call, or -1) returns the value
    supplied at the first position of that name among the fields, and [get]
    at every index of an earlier entry returns what it returned before. *)
Theorem BitFieldArray_get_add (name : string) (fields : list string)
    (entries : list (list FieldValue)) (values : list PyObj) (self' : Value)
    (i : nat) (fieldName : string) (value : PyObj) :
  let self := BitFieldArray name fields entries in
  BitFieldArray_add self (Sequence values) = Ok self' →
  fields !! i = Some fieldName →
  fieldName ∉ take i fields →
  values !! i = Some value →
  BitFieldArray_get self' fieldName (len entries) = Ok (fieldValueOf value)
  ∧ BitFieldArray_get self' fieldName (-1) = Ok (fieldValueOf value)
  ∧ ∀ (other : string) (k : nat),
      (k < length entries)%nat →
      BitFieldArray_get self' other (Z.of_nat k)
      = BitFieldArray_get self other (Z.of_nat k).
Proof.
  intros self Hadd Hfield Hfirst Hvalue.
  destruct (BitFieldArray_add_entry _ _ _ _ _ Hadd) as (entry & -> & _ & Hentry).
  rewrite (Hentry values eq_refl).
  assert (pyIndex (map fieldValueOf values) (Z.of_nat i)
          = Ok (fieldValueOf value)) as Hread.
  { by rewrite pyIndex_nonneg, lookup_map, Hvalue. }
  unfold BitFieldArray_get. repeat split.
  - unfold len. rewrite pyIndex_nonneg, list_lookup_middle by done.
    cbn [mbind Result_bind].
    by rewrite (pyIndexOf_first _ _ _ Hfield Hfirst).
  - rewrite pyIndex_last. cbn [mbind Result_bind].
    by rewrite (pyIndexOf_first _ _ _ Hfield Hfirst).
  - intros other k Hk. unfold self.
    by rewrite !pyIndex_nonneg, lookup_app_l.
Qed.

Lemma BitFieldArray_get_add_witness :
  BitFieldArray_add (BitFieldArray "pairs" ["a"; "b"] [[IntField 1; IntField 2]])
    (Sequence [PyInt 3; PyInt 4])
  = Ok (BitFieldArray "pairs" ["a"; "b"]
          [[IntField 1; IntField 2]; [IntField 3; IntField 4]])
  ∧ BitFieldArray_get
      (BitFieldArray "pairs" ["a"; "b"]
         [[IntField 1; IntField 2]; [IntField 3; IntField 4]]) "b" 1
    = Ok (IntField 4).
Proof.
  split; [reflexivity|].
  exact (proj1
    (BitFieldArray_get_add "pairs" ["a"; "b"] [[IntField 1; IntField 2]]
       [PyInt 3; PyInt 4] _ 1 "b" (PyInt 4) eq_refl eq_refl
       ltac:(compute_done)
       eq_refl)).
Defined.

(** ** Filling a BitFieldArray entry by entry *)

Lemma BitFieldArray_add_any_entries (name : string) (fields : list string)
    (entries entries' : list (list FieldValue)) (fieldValues : FieldValues) :
  match BitFieldArray_add (BitFieldArray name fields entries) fieldValues with
  | Ok self' =>
      ∃ entry,
        self' = BitFieldArray name fields (entries ++ [entry])
        ∧ length entry = length fields
        ∧ BitFieldArray_add (BitFieldArray name fields entries') fieldValues
          = Ok (BitFieldArray name fields (entries' ++ [entry]))
  | Err e =>
      BitFieldArray_add (BitFieldArray name fields entries') fieldValues = Err e
  end.
Proof.
  destruct (BitFieldArray_add (BitFieldArray name fields entries) fieldValues)
    as [self'|e] eqn:Hadd.
  - destruct (BitFieldArray_add_entry _ _ _ _ _ Hadd) as (entry & -> & Hlen & _).
    exists entry. repeat split; [done|].
    revert Hadd. unfold BitFieldArray_add.
    destruct (pyassert _); [|done]. cbn [mbind Result_bind].
    destruct (match fieldValues with Sequence _ => _ | Dict _ => _ end)
      as [values|]; [|done].
    cbn [mbind Result_bind].
    destruct (forM BitFieldArray_add_value values) as [entry'|]; [|done].
    cbn [mbind Result_bind]. intros [= Heq].
    by apply app_inv_head in Heq as [= <-].
  - revert Hadd. unfold BitFieldArray_add.
    destruct (pyassert _); [|done]. cbn [mbind Result_bind].
    destruct (match fieldValues with Sequence _ => _ | Dict _ => _ end)
      as [values|]; [|done].
    cbn [mbind Result_bind].
    by destruct (forM BitFieldArray_add_value values).
Qed.

Section AddAll.
Context {bithelper : BitHelper}.

(** X2.  [addAll] on a BitFieldArray whose entries have one value per
    field: it appends, in order, the entries that [add] accepts up to the
    first one [add] refuses, and raises what [add] raises for that one; the
    entries appended before it stay in the array.  It returns normally
    exactly when every entry was appended.  Either way the entries of the
    array still have one value per field, and [getFieldLengths] on them
    raises nothing. *)
Theorem BitFieldArray_addAll_prefix (name : string) (fields : list string)
    (entries : list (list FieldValue)) (new : list FieldValues) :
  let self := BitFieldArray name fields entries in
  let accepted fieldValues entry :=
    ∀ before,
      BitFieldArray_add (BitFieldArray name fields before) fieldValues
      = Ok (BitFieldArray name fields (before ++ [entry])) in
  BitFieldArray_ok fields entries →
  ∃ added,
    (BitFieldArray_addAll self new).1
    = BitFieldArray name fields (entries ++ added)
    ∧ Forall2 accepted (take (length added) new) added
    ∧ match (BitFieldArray_addAll self new).2 with
      | Ok _ => length added = length new
      | Err e =>
          ∃ refused,
            new !! length added = Some refused
            ∧ ∀ before,
                BitFieldArray_add (BitFieldArray name fields before) refused
                = Err e
      end
    ∧ BitFieldArray_ok fields (entries ++ added)
    ∧ ∃ fieldLengths,
        getFieldLengths fields (entries ++ added) = Ok fieldLengths.
Proof.
  intros self accepted. unfold self. clear self. revert entries.
  induction new as [|fieldValues new IH]; intros entries Hok.
  - exists []. rewrite app_nil_r. simpl.
    repeat split; [constructor | done | by apply getFieldLengths_total].
  - cbn [BitFieldArray_addAll].
    pose proof (fun entries' =>
      BitFieldArray_add_any_entries name fields entries entries' fieldValues)
      as Hany.
    destruct (BitFieldArray_add (BitFieldArray name fields entries) fieldValues)
      as [self'|e] eqn:Hadd.
    + destruct (Hany entries) as (entry & -> & Hlen & _).
      destruct (IH (entries ++ [entry])) as (added & Hself & Haccepted & Hend & Hok' & Hlengths).
      { apply Forall_app. split; [done|]. by repeat constructor. }
      exists (entry :: added). rewrite <- app_assoc in *. simpl in *.
      split; [done|]. split; [|split; [|by split]].
      * constructor; [|done]. intros before.
        destruct (Hany before) as (entry' & Heq & _ & ->).
        injection Heq as Heq. by apply app_inv_head in Heq as [= <-].
      * destruct (BitFieldArray_addAll _ new).2; [by f_equal | done].
    + exists []. rewrite app_nil_r. simpl.
      repeat split; [constructor | | done | by apply getFieldLengths_total].
      exists fieldValues. split; [done|]. intros before. apply (Hany before).
Qed.
End AddAll.

Lemma BitFieldArray_addAll_prefix_witness :
  BitFieldArray_ok ["a"; "b"] []
  ∧ BitFieldArray_addAll (BitFieldArray_init "pairs" ["a"; "b"])
      [Sequence [PyInt 1; PyInt 2]; Sequence [PyInt 3]; Sequence [PyInt 5; PyInt 6]]
    = (BitFieldArray "pairs" ["a"; "b"] [[IntField 1; IntField 2]],
       Err AssertionError)
  ∧ ∃ added,
      (BitFieldArray_addAll (BitFieldArray_init "pairs" ["a"; "b"])
         [Sequence [PyInt 1; PyInt 2]; Sequence [PyInt 3];
          Sequence [PyInt 5; PyInt 6]]).1
      = BitFieldArray "pairs" ["a"; "b"] ([] ++ added).
Proof.
  assert (BitFieldArray_ok ["a"; "b"] []) as Hok by constructor.
  split; [exact Hok|]. split; [reflexivity|].
  destruct (BitFieldArray_addAll_prefix (bithelper := sampleBits)
              "pairs" ["a"; "b"] []
              [Sequence [PyInt 1; PyInt 2]; Sequence [PyInt 3];
               Sequence [PyInt 5; PyInt 6]] Hok)
    as (added & Hself & _).
  exists added. exact Hself.
Defined.

(** ** References to references *)

Section ReferenceChains.
Context {types : TypesModule} {bithelper : BitHelper}.

(** X3.  A Reference may be constructed with a Reference as its target, but
    it packs only when the chain of references ends in None: then it is a
    null pointer, with no indirect bytes, at every cursor.  When the chain
    ends in a present value, packing raises at every cursor, the inner
    Reference being packed without one. *)
Theorem Reference_to_Reference (absent present : Value)
    (innerBitWidth referenceBitWidth dataOffset : Z) :
  getPythonValue_isNone absent = true →
  getPythonValue_isNone present = false →
  0 <= referenceBitWidth →
  Reference_init (PyValue (Reference present innerBitWidth))
    referenceBitWidth None
  = Ok (Reference (Reference present innerBitWidth) referenceBitWidth)
  ∧ pack (Reference (Reference absent innerBitWidth) referenceBitWidth)
      (Some dataOffset)
    = Ok (nullPointer referenceBitWidth, [])
  ∧ ∃ e,
      pack (Reference (Reference present innerBitWidth) referenceBitWidth)
        (Some dataOffset)
      = Err e.
Proof.
  intros Habsent Hpresent Hwidth. split; [done|]. split.
  - cbn [pack Reference_pack getPythonValue_isNone]. rewrite Habsent.
    unfold referenceType, Ty_pack.
    rewrite inRange_unsigned by (split; [done | by apply Z.pow_pos_nonneg]).
    cbn [mbind Result_bind]. by rewrite le_split_0.
  - cbn [pack Reference_pack getPythonValue_isNone]. rewrite Hpresent.
    destruct (_ =? 0); [by eexists|].
    destruct (Ty_pack _ _) as [pointer|e]; [|by eexists].
    cbn [mbind Result_bind]. unfold namedstruct_pack_with.
    cbn [pack Reference_pack mbind Result_bind]. by eexists.
Qed.
End ReferenceChains.

Lemma Reference_to_Reference_witness :
  getPythonValue_isNone Null = true
  ∧ getPythonValue_isNone (Int true 8 7) = false
  ∧ pack (types := sampleTypes) (bithelper := sampleBits)
      (Reference (Reference Null 8) 16) (Some 4)
    = Ok ([Byte.x00; Byte.x00], []).
Proof.
  split; [reflexivity|]. split; [reflexivity|].
  exact (proj1 (proj2
    (Reference_to_Reference (types := sampleTypes) (bithelper := sampleBits)
       Null (Int true 8 7) 8 16 4 eq_refl eq_refl ltac:(lia)))).
Defined.

(** ** What a constructed ReferenceArray holds *)

Section ReferenceArrayInvariants.
Context {types : TypesModule}.

Lemma ReferenceArray_init_loop_inv (values : list PyObj) :
  ∀ start before elementType targetValues,
    ReferenceArray_init_loop values start before
    = Ok (elementType, targetValues) →
    ∃ targets,
      targetValues = before ++ targets
      ∧ Forall2 (fun o v => getValue o = Ok v) values targets
      ∧ Forall (fun v => isReference v = false) targets
      ∧ mergeAll start targets = Ok elementType.
Proof.
  induction values as [|o values IH];
    intros start before elementType targetValues Hloop; simpl in Hloop.
  - injection Hloop as <- <-. exists []. rewrite app_nil_r.
    repeat split; constructor.
  - destruct (getValue o) as [v|] eqn:Hv; [|done]. simpl in Hloop.
    assert (isReference v = false
            ∧ (elementType' ← mergeTypes (getType v) start;
               ReferenceArray_init_loop values elementType' (before ++ [v]))
              = Ok (elementType, targetValues)) as [Href Hrest]
      by (by destruct v).
    apply bind_Ok in Hrest as (t & Ht & Hrest).
    destruct (IH _ _ _ _ Hrest) as (targets & -> & Hvalues & Hrefs & Hmerge).
    exists (v :: targets). rewrite <- app_assoc.
    repeat split; try by constructor.
    cbn [mergeAll]. by rewrite Ht.
Qed.

Lemma map_PyValue_inj (l k : list Value) :
  map PyValue l = map PyValue k → l = k.
Proof.
  revert k. induction l as [|v l IH]; intros [|v' k]; try done.
  simpl. intros [= -> Hrest]. by rewrite (IH _ Hrest).
Qed.

Lemma Reference_init_values (referenceBitWidth : Z)
    (targets referenceValues : list Value) :
  forM (fun v => Reference_init (PyValue v) referenceBitWidth None) targets
  = Ok referenceValues →
  referenceValues = map (fun v => Reference v referenceBitWidth) targets.
Proof.
  intros Hreferences%forM_Ok.
  induction Hreferences as [|v r vs rs Hr _ IH]; [done|].
  simpl. injection Hr as <-. by rewrite IH.
Qed.

Lemma Array_init_check_values (type : Ty) (values : list PyObj) :
  Array_init_check type true values = Ok () →
  ∃ elements,
    values = map PyValue elements
    ∧ Forall (fun v => ∃ t, merge (getElementType type) (getType v) = Ok t)
        elements.
Proof.
  induction values as [|value values IH]; [by exists []|].
  cbn [Array_init_check].
  intros (u & Hvalue & (elements & -> & Helements)%IH)%bind_Ok.
  destruct value as [| | | |v]; try done.
  cbn [isValue pyassert mbind Result_bind] in Hvalue.
  apply bind_Ok in Hvalue as (t & Ht & _).
  exists (v :: elements). split; [done|]. constructor; by eauto.
Qed.

Lemma ReferenceArray_init_inv (values : list PyObj)
    (fixedSize : option Z) (referenceBitWidth : Z) (array : Value) :
  ReferenceArray_init values fixedSize referenceBitWidth = Ok array →
  ∃ elementType targets,
    array
    = Array ReferenceArrayC
        (ReferenceArrayType elementType fixedSize referenceBitWidth)
        (map (fun v => PyValue (Reference v referenceBitWidth)) targets)
        fixedSize
    ∧ Forall2 (fun o v => getValue o = Ok v) values targets
    ∧ Forall (fun v => isReference v = false) targets
    ∧ values ≠ []
    ∧ ∀ n, fixedSize = Some n → len values <= n.
Proof.
  unfold ReferenceArray_init.
  destruct (Z.eqb_spec (len values) 0) as [|Hlen]; [done|].
  intros (u & Hfits & Hrest)%bind_Ok.
  apply bind_Ok in Hrest as (first & Hfirst & Hrest).
  apply bind_Ok in Hrest as ([elementType targetValues] & Hloop & Hrest).
  apply bind_Ok in Hrest
    as (referenceValues & ->%Reference_init_values & Harray).
  destruct (ReferenceArray_init_loop_inv _ _ _ _ _ Hloop)
    as (targets & -> & Hvalues & Hrefs & _).
  unfold Array_init in Harray.
  apply bind_Ok in Harray as (u' & Hcheck & [= <-]).
  exists elementType, targets. rewrite map_map.
  repeat split; try done.
  - intros ->. by apply Hlen.
  - intros n ->. unfold pyassert in Hfits.
    by destruct (Z.leb_spec (len values) n).
Qed.

(** X4.  What a constructed ReferenceArray holds.  Whenever
    [ReferenceArray.__init__] returns, there was a first element, every
    supplied element converted with [getValue], and the array holds, in
    order, one Reference of the array's pointer width to each converted
    value.  None of these values is itself a Reference, their types
    merged, one after the other from the type of the first, into the
    element type of the array, the type of every Reference merged with
    the type of the array's slots, and there are no more elements than a
    declared fixed size. *)
Theorem ReferenceArray_init_holds_references (values : list PyObj)
    (fixedSize : option Z) (referenceBitWidth : Z) (array : Value) :
  ReferenceArray_init values fixedSize referenceBitWidth = Ok array →
  ∃ elementType first rest,
    array
    = Array ReferenceArrayC
        (ReferenceArrayType elementType fixedSize referenceBitWidth)
        (map (fun v => PyValue (Reference v referenceBitWidth))
           (first :: rest))
        fixedSize
    ∧ Forall2 (fun o v => getValue o = Ok v) values (first :: rest)
    ∧ Forall (fun v => isReference v = false) (first :: rest)
    ∧ mergeAll (getType first) (first :: rest) = Ok elementType
    ∧ Forall (fun v =>
                ∃ t, merge (ReferenceType elementType referenceBitWidth)
                       (ReferenceType (getType v) referenceBitWidth)
                     = Ok t) (first :: rest)
    ∧ ∀ n, fixedSize = Some n → len values <= n.
Proof.
  unfold ReferenceArray_init.
  destruct (Z.eqb_spec (len values) 0) as [|Hlen]; [done|].
  intros (u & Hfits & Hrest)%bind_Ok.
  apply bind_Ok in Hrest as (first & Hfirst & Hrest).
  apply bind_Ok in Hrest as ([elementType targetValues] & Hloop & Hrest).
  apply bind_Ok in Hrest
    as (referenceValues & ->%Reference_init_values & Harray).
  destruct (ReferenceArray_init_loop_inv _ _ _ _ _ Hloop)
    as (targets & -> & Hvalues & Hrefs & Hmerge).
  destruct Hvalues as [|o first' values rest Hfirst' Hvalues];
    [by destruct Hlen|].
  rewrite Hfirst' in Hfirst. injection Hfirst as ->.
  unfold Array_init in Harray.
  apply bind_Ok in Harray as ([] & Hcheck & [= <-]).
  cbn [app map elementsAreValueObjects isValue] in Hcheck.
  change (PyValue (Reference first referenceBitWidth)
          :: map PyValue (map (fun v => Reference v referenceBitWidth) rest))
    with (map PyValue
            (map (fun v => Reference v referenceBitWidth) (first :: rest)))
    in Hcheck.
  apply Array_init_check_values in Hcheck as (elements & Hsame & Hmerges).
  apply map_PyValue_inj in Hsame as <-.
  exists elementType, first, rest. rewrite map_map.
  repeat split; try done.
  - by constructor.
  - by rewrite Forall_map in Hmerges.
  - intros n ->. unfold pyassert in Hfits.
    by destruct (Z.leb_spec (len (o :: values)) n).
Qed.
End ReferenceArrayInvariants.

Lemma ReferenceArray_init_holds_references_witness :
  ReferenceArray_init (types := sampleTypes) [PyNone; PyStr helluWorld]
    (Some 4) 32
  = Ok (Array ReferenceArrayC
          (ReferenceArrayType (SimpleArrayType CharType None None) (Some 4) 32)
          [PyValue (Reference Null 32);
           PyValue (Reference helluWorldString 32)]
          (Some 4))
  ∧ len [PyNone; PyStr helluWorld] <= 4.
Proof.
  split; [reflexivity|].
  destruct (ReferenceArray_init_holds_references (types := sampleTypes)
              [PyNone; PyStr helluWorld] (Some 4) 32 _ eq_refl)
    as (elementType & first & rest & _ & _ & _ & _ & _ & Hfits).
  exact (Hfits 4 eq_refl).
Defined.

(** ** Values without references *)

Section CursorIndependence.
Context {types : TypesModule} {bithelper : BitHelper}.

Lemma Array_pack_loop_cursorFree (values : list PyObj) :
  Forall (fun value => match value with
                       | PyValue v => cursorFree v
                       | _ => True
                       end) values →
  ∀ elementType valueObjects relative d1 d2 immediateData offsetedData
    immediateLen,
    Array_pack_loop pack elementType valueObjects relative values d1
      immediateData offsetedData immediateLen
    = Array_pack_loop pack elementType valueObjects relative values d2
        immediateData offsetedData immediateLen
    ∧ ∀ immediates offseted,
        Array_pack_loop pack elementType valueObjects relative values d1
          immediateData offsetedData immediateLen
        = Ok (immediates, offseted) →
        concat offseted = concat offsetedData.
Proof.
  induction 1 as [|value values Hvalue _ IH]; intros; [split; [done|]|].
  { by intros ? ? [= _ <-]. }
  cbn [Array_pack_loop]. destruct valueObjects.
  - destruct value as [| | | |v]; try done.
    destruct Hvalue as [Hsame Hnone].
    rewrite (Hsame _ (d2 - (if relative then immediateLen else 0))).
    destruct (pack v _) as [[immediate referred]|] eqn:Hpack; [|done].
    cbn [mbind Result_bind].
    rewrite (Hnone _ _ _ Hpack).
    destruct (IH elementType true relative (d1 + len (@nil byte)) (d2 + len (@nil byte))
                (immediateData ++ [immediate]) (offsetedData ++ [[]])
                (immediateLen + len immediate)) as [-> Hoff].
    split; [done|]. intros immediates offseted Hloop.
    destruct (IH elementType true relative (d2 + len (@nil byte)) (d1 + len (@nil byte))
                (immediateData ++ [immediate]) (offsetedData ++ [[]])
                (immediateLen + len immediate)) as [Heq Hoff'].
    rewrite (Hoff' _ _ Hloop), concat_app. simpl. by rewrite app_nil_r.
  - destruct (Ty_pack elementType value) as [immediate|]; [|done].
    cbn [mbind Result_bind]. apply IH.
Qed.

Lemma Struct_pack_loop_cursorFree (values : list Value) :
  Forall cursorFree values →
  ∀ names i d1 d2 immediateData offsetedData,
    Struct_pack_loop pack names i values d1 immediateData offsetedData
    = Struct_pack_loop pack names i values d2 immediateData offsetedData
    ∧ ∀ immediate offseted,
        Struct_pack_loop pack names i values d1 immediateData offsetedData
        = Ok (immediate, offseted) →
        offseted = offsetedData.
Proof.
  induction 1 as [|value values [Hsame Hnone] _ IH]; intros; [split; [done|]|].
  { by intros ? ? [= _ <-]. }
  cbn [Struct_pack_loop]. destruct (names !! i); [|done].
  rewrite (Hsame _ d2).
  destruct (pack value _) as [[immediate referred]|] eqn:Hpack; [|done].
  cbn [mbind Result_bind]. rewrite (Hnone _ _ _ Hpack), app_nil_r.
  apply IH.
Qed.

Lemma referenceFree_cursorFree (v : Value) :
  referenceFree v = true → cursorFree v.
Proof.
  revert v. apply (Value_nested_ind (fun v => referenceFree v = true → cursorFree v)).
  - intros unsigned bitWidth pythonValue _. split; [done|].
    intros c inline indirect. cbn [pack PrimitiveValue_pack].
    destruct (Ty_pack _ _); [|done]. by intros [= _ <-].
  - intros char _. split; [done|]. by intros c inline indirect [= _ <-].
  - intros name bitWidth fieldNames fieldWidths values _. split; [done|].
    intros c inline indirect. cbn [pack]. unfold BitField_pack.
    destruct (BitField_pack_loop _ _ _ _ _); [|done].
    cbn [mbind Result_bind]. unfold Int_init.
    destruct (assertValueHasType _ _); [|done].
    cbn [mbind Result_bind PrimitiveValue_pack].
    destruct (Ty_pack _ _); [|done]. by intros [= _ <-].
  - done.
  - done.
  - intros cls type values fixedSize IH Hfree.
    assert (Forall (fun value => match value with
                                 | PyValue v => cursorFree v
                                 | _ => True
                                 end) values) as Helements.
    { simpl in Hfree. rewrite forallb_forall in Hfree.
      rewrite Forall_forall in IH. apply Forall_forall.
      intros value Hin. specialize (IH value Hin).
      specialize (Hfree value). destruct value; try done.
      apply IH, Hfree. by apply list_elem_of_In. }
    pose proof (Array_pack_loop_cursorFree values Helements) as Hloop.
    split.
    + intros c1 c2. destruct cls; cbn [pack];
        unfold SimpleArray_pack, ReferenceArray_pack, Array_pack;
        cbn [mbind Result_bind];
        by rewrite (proj1 (Hloop _ _ _ c1 c2 _ _ _)).
    + intros c inline indirect.
      assert (∀ relative immediateData offsetData,
                Array_pack pack (Array cls type values fixedSize) (Some c)
                  relative
                = Ok (immediateData, offsetData) → offsetData = []) as Harray.
      { intros relative immediateData offsetData. unfold Array_pack.
        cbn [mbind Result_bind].
        destruct (Array_pack_loop _ _ _ _ _ _ _ _ _)
          as [[immediates offseted]|] eqn:Hpack; [|done].
        intros [= _ <-]. by rewrite (proj2 (Hloop _ _ _ c c _ _ _) _ _ Hpack). }
      destruct cls; cbn [pack];
        unfold SimpleArray_pack, ReferenceArray_pack;
        cbn [mbind Result_bind];
        (destruct (Array_pack _ _ _ _) as [[immediateData offsetData]|]
           eqn:Hpack; [|done]);
        cbn [mbind Result_bind];
        (destruct (fillFixedSize _ _ _); [|done]);
        cbn [mbind Result_bind]; intros [= _ <-];
        by apply Harray in Hpack.
  - intros name names size values IH Hfree.
    assert (Forall cursorFree values) as Hmembers.
    { simpl in Hfree. rewrite forallb_forall in Hfree.
      rewrite Forall_forall in IH. apply Forall_forall.
      intros value Hin. apply IH; [done|]. apply Hfree.
      by apply list_elem_of_In. }
    pose proof (Struct_pack_loop_cursorFree values Hmembers) as Hloop.
    split.
    + intros c1 c2. cbn [pack]. unfold Struct_pack.
      cbn [mbind Result_bind].
      by rewrite (proj1 (Hloop _ _ c1 c2 _ _)).
    + intros c inline indirect. cbn [pack]. unfold Struct_pack.
      cbn [mbind Result_bind].
      destruct (Struct_pack_loop _ _ _ _ _ _ _)
        as [[immediateData offsetedData]|] eqn:Hpack; [|done].
      cbn [mbind Result_bind].
      destruct (getImmediateDataSize _); [|done]. cbn [mbind Result_bind].
      intros [= _ <-]. by apply (proj2 (Hloop _ _ c c _ _)) in Hpack.
  - intros name fields entries _. split; [done|].
    intros c inline indirect. cbn [pack]. unfold BitFieldArray_pack.
    intros (? & _ & (? & _ & (? & _ & (? & _ & (? & _ & (? & _ & (? & _ & [= _ <-])%bind_Ok)%bind_Ok)%bind_Ok)%bind_Ok)%bind_Ok)%bind_Ok)%bind_Ok. done.
Qed.

Lemma elements_cursorFree (values : list PyObj) :
  forallb (fun value => match value with
                        | PyValue v => referenceFree v
                        | _ => true
                        end) values = true →
  Forall (fun value => match value with
                       | PyValue v => cursorFree v
                       | _ => True
                       end) values.
Proof.
  rewrite forallb_forall. intros Hfree. apply Forall_forall.
  intros value Hin%list_elem_of_In. specialize (Hfree value Hin).
  destruct value; try done. by apply referenceFree_cursorFree.
Qed.

Lemma members_cursorFree (values : list Value) :
  forallb referenceFree values = true → Forall cursorFree values.
Proof.
  rewrite forallb_forall. intros Hfree. apply Forall_forall.
  intros value Hin%list_elem_of_In. by apply referenceFree_cursorFree, Hfree.
Qed.

Lemma Array_pack_cursorFree (cls : ArrayClass) (type : Ty)
    (values : list PyObj) (fixedSize : option Z) (relative : bool)
    (d1 d2 : Z) :
  referenceFree (Array cls type values fixedSize) = true →
  Array_pack pack (Array cls type values fixedSize) (Some d1) relative
  = Array_pack pack (Array cls type values fixedSize) (Some d2) relative
  ∧ ∀ immediateData offsetData,
      Array_pack pack (Array cls type values fixedSize) (Some d1) relative
      = Ok (immediateData, offsetData) →
      offsetData = [].
Proof.
  intros Hfree%elements_cursorFree.
  pose proof (Array_pack_loop_cursorFree values Hfree) as Hloop.
  unfold Array_pack. cbn [mbind Result_bind].
  rewrite (proj1 (Hloop _ _ _ d1 d2 _ _ _)). split; [done|].
  intros immediateData offsetData.
  destruct (Array_pack_loop _ _ _ _ _ _ _ _ _)
    as [[immediates offseted]|] eqn:Hpack; [|done].
  intros [= _ <-]. by rewrite (proj2 (Hloop _ _ _ d2 d2 _ _ _) _ _ Hpack).
Qed.

(** X5.  A value that holds no Reference, at any depth, is packed without
    regard to the write cursor: with every cursor [pack] returns the same
    bytes or raises the same error, the indirect bytes it returns are
    empty, and packed as the top-level value, with no cursor, it returns
    the same inline bytes. *)
Theorem pack_reference_free (v : Value) :
  referenceFree v = true →
  (∀ c1 c2, pack v (Some c1) = pack v (Some c2))
  ∧ (∀ c inline indirect,
       pack v (Some c) = Ok (inline, indirect) →
       indirect = [] ∧ pack v None = Ok (inline, [])
       ∧ namedstruct_pack v = Ok inline)
  ∧ ∀ c packed, pack v None = Ok packed → pack v (Some c) = Ok packed.
Proof.
  intros Hfree. destruct (referenceFree_cursorFree v Hfree) as [Hsame Hnone].
  split; [exact Hsame|].
  assert (∀ c packed, pack v None = Ok packed ↔ pack v (Some c) = Ok packed)
    as Htop.
  { intros c packed.
    destruct v as [| | | | |cls type values fixedSize|name names size values|];
      try done.
    - assert (∀ relative,
                Array_pack pack (Array cls type values fixedSize) None relative
                = Array_pack pack (Array cls type values fixedSize) (Some c)
                    relative) as Harray.
      { intros relative.
        rewrite (Array_pack_top_level _ _ _ _ None _ _ eq_refl).
        by apply Array_pack_cursorFree. }
      assert (∀ d relative immediateData offsetData,
                Array_pack pack (Array cls type values fixedSize) (Some d)
                  relative
                = Ok (immediateData, offsetData) → offsetData = []) as Hoff.
      { intros d relative. by apply Array_pack_cursorFree. }
      destruct cls; cbn [pack];
        unfold SimpleArray_pack, ReferenceArray_pack;
        cbn [mbind Result_bind getImmediateDataSize bool_decide decide_rel];
        rewrite ?Harray;
        try rewrite (proj1 (Array_pack_cursorFree ReferenceArrayC type values
                              fixedSize false _ c Hfree));
        (destruct (Array_pack _ _ _ _) as [[immediateData offsetData]|]
           eqn:Hpack; [|done]);
        apply Hoff in Hpack as ->;
        cbn [mbind Result_bind];
        (destruct (fillFixedSize _ _ _); [|done]);
        cbn [mbind Result_bind]; rewrite ?app_nil_r;
        by repeat case_bool_decide.
    - pose proof (Struct_pack_loop_cursorFree values
                    (members_cursorFree values Hfree)) as Hloop.
      cbn [pack]. unfold Struct_pack.
      destruct (getImmediateDataSize _) as [size'|] eqn:Hsize.
      + cbn [mbind Result_bind].
        rewrite (proj1 (Hloop names 0%nat size' c [] [])).
        destruct (Struct_pack_loop _ _ _ _ _ _ _)
          as [[immediateData offsetedData]|] eqn:Hpack; [|done].
        apply (proj2 (Hloop _ _ c c _ _)) in Hpack as ->.
        cbn [mbind Result_bind]. by rewrite app_nil_r.
      + cbn [mbind Result_bind]. split; [done|].
        by destruct (Struct_pack_loop _ _ _ _ _ _ _) as [[? ?]|]. }
  split.
  - intros c inline indirect Hpack.
    pose proof (Hnone _ _ _ Hpack) as ->. split; [done|].
    apply Htop in Hpack. split; [done|].
    unfold namedstruct_pack, namedstruct_pack_with. rewrite Hpack.
    cbn [mbind Result_bind]. by rewrite app_nil_r.
  - intros c packed. apply Htop.
Qed.
End CursorIndependence.

Lemma pack_reference_free_witness :
  referenceFree flagsAndInts = true
  ∧ pack (types := sampleTypes) (bithelper := sampleBits) flagsAndInts
      (Some 100)
    = pack (types := sampleTypes) (bithelper := sampleBits) flagsAndInts
        (Some 8).
Proof.
  split; [reflexivity|].
  exact (proj1 (pack_reference_free (types := sampleTypes)
                  (bithelper := sampleBits) flagsAndInts eq_refl) 100 8).
Defined.

(** ** The immediate size and the packed inline bytes *)

Lemma inRange_width (unsigned : bool) (bitWidth n : Z) :
  inRange unsigned bitWidth n = true → 0 <= bitWidth / 8.
Proof.
  unfold inRange. intros Hin. apply Z.div_pos; [|lia].
  destruct (Z.le_gt_cases 0 bitWidth) as [|Hneg]; [done|]. exfalso.
  destruct unsigned; apply andb_true_iff in Hin as [Hlow%Z.leb_le Hhigh%Z.ltb_lt].
  - rewrite Z.pow_neg_r in Hhigh by lia. lia.
  - rewrite Z.pow_neg_r in Hlow, Hhigh by lia. lia.
Qed.

Lemma Ty_pack_length (t : Ty) (value : PyObj) (packed : list byte) :
  Ty_pack t value = Ok packed →
  match t with
  | IntType _ bitWidth => len packed = bitWidth / 8
  | CharType => len packed = 1
  | _ => False
  end.
Proof.
  destruct t as [|unsigned bitWidth| | | | | | |]; try done.
  - destruct value as [|n| | |]; try done. simpl.
    destruct (inRange unsigned bitWidth n) eqn:Hin; [|done].
    intros [= <-]. unfold len. rewrite length_le_split.
    apply inRange_width in Hin. lia.
  - destruct value as [| |[|c [|]]| |]; try done. by intros [= <-].
Qed.

Section InlineSize.
Context {types : TypesModule} {bithelper : BitHelper}.

Lemma Ty_pack_width (t : Ty) (value : PyObj) (packed : list byte) :
  widthsAgree → Ty_pack t value = Ok packed → len packed = getWidth t.
Proof.
  intros (Hint & Hchar & _) Hpack%Ty_pack_length.
  destruct t; try done; [by rewrite Hint | by rewrite Hchar].
Qed.

Lemma Array_pack_loop_widths (pack' : Value → option Z → Result Packed)
    (w : Z) (elementType : Ty) (values : list PyObj) :
  (∀ value packed, Ty_pack elementType value = Ok packed → len packed = w) →
  Forall (fun value => match value with
                       | PyValue v =>
                           ∀ c immediate referred,
                             pack' v (Some c) = Ok (immediate, referred) →
                             len immediate = w
                       | _ => True
                       end) values →
  ∀ valueObjects relative dataOffset immediateData offsetedData immediateLen
    immediates offseted,
    Array_pack_loop pack' elementType valueObjects relative values dataOffset
      immediateData offsetedData immediateLen
    = Ok (immediates, offseted) →
    len (concat immediates) = len (concat immediateData) + w * len values.
Proof.
  intros Htype. induction 1 as [|value values Hvalue _ IH]; intros * Hloop.
  { injection Hloop as <- _. unfold len. simpl. lia. }
  cbn [Array_pack_loop] in Hloop.
  assert (∀ immediate : list byte, len immediate = w →
            len (concat (immediateData ++ [immediate]))
            + w * len values
            = len (concat immediateData) + w * len (value :: values))
    as Hstep.
  { intros immediate <-. rewrite concat_app, len_app. unfold len. simpl.
    rewrite app_nil_r. lia. }
  destruct valueObjects.
  - destruct value as [| | | |v]; try done.
    apply bind_Ok in Hloop as ([immediate referred] & Hpack & Hloop).
    apply IH in Hloop as ->. eauto.
  - apply bind_Ok in Hloop as (immediate & Hpack & Hloop).
    apply IH in Hloop as ->. eauto.
Qed.

Lemma Array_pack_loop_no_values (elementType : Ty) (values : list PyObj) :
  ∀ valueObjects relative dataOffset immediateData offsetedData immediateLen
    immediates offseted,
    Array_pack_loop (fun _ _ => Err AttributeError) elementType valueObjects
      relative values dataOffset immediateData offsetedData immediateLen
    = Ok (immediates, offseted) →
    offseted = offsetedData.
Proof.
  induction values as [|value values IH]; intros * Hloop.
  { by injection Hloop as _ <-. }
  cbn [Array_pack_loop] in Hloop. destruct valueObjects.
  - by destruct value.
  - apply bind_Ok in Hloop as (immediate & _ & Hloop). by apply IH in Hloop.
Qed.

Lemma packPythonArray_length (cls : ArrayClass) (elementType : Ty)
    (byteAlignment : option Z) (values : list PyObj) (w : Z)
    (data : list byte) :
  (∀ value packed, Ty_pack elementType value = Ok packed → len packed = w) →
  packPythonArray
    (Array cls (SimpleArrayType elementType None byteAlignment) values None)
  = Ok data →
  len data = w * len values.
Proof.
  intros Htype. unfold packPythonArray, namedstruct_pack_with.
  intros ([immediate offseted] & Hpack & [= <-])%bind_Ok.
  unfold SimpleArray_pack, Array_pack in Hpack.
  cbn [getImmediateDataSize mbind Result_bind] in Hpack.
  destruct (Array_pack_loop _ _ _ _ _ _ _ _ _)
    as [[immediates offseteds]|] eqn:Hloop; [|done].
  cbn [mbind Result_bind fillFixedSize] in Hpack. injection Hpack as <- <-.
  pose proof (Array_pack_loop_no_values _ _ _ _ _ _ _ _ _ _ Hloop) as ->.
  apply (Array_pack_loop_widths _ w) in Hloop; [|done|].
  - rewrite !app_nil_r. rewrite Hloop. unfold len. simpl. lia.
  - apply Forall_forall. intros value _. by destruct value.
Qed.

Lemma BitFieldArray_pack_size (name : string) (fields : list string)
    (entries : list (list FieldValue)) (inline indirect : list byte) :
  BitFieldArray_pack fields entries = Ok (inline, indirect) →
  indirect = []
  ∧ getImmediateDataSize (BitFieldArray name fields entries)
    = Ok (len inline).
Proof.
  unfold BitFieldArray_pack.
  intros (fieldLengths & Hlengths & Hpack)%bind_Ok.
  apply bind_Ok in Hpack as (headerArray & HheaderArray & Hpack).
  apply bind_Ok in Hpack as (header & Hheader & Hpack).
  apply bind_Ok in Hpack as (blob & Hblob & Hpack).
  apply bind_Ok in Hpack as (blobValue & HblobValue & Hpack).
  apply bind_Ok in Hpack as (data & Hdata & Hpack).
  apply bind_Ok in Hpack as (u & Hbits & [= <- <-]).
  split; [done|].
  cbn [getImmediateDataSize]. rewrite Hlengths. cbn [mbind Result_bind].
  f_equal. rewrite len_app.
  unfold SimpleArray_init, SimpleArray_init_as, Array_init in HheaderArray.
  cbn [isReferenceType UINT16 mbind Result_bind] in HheaderArray.
  apply bind_Ok in HheaderArray as (u1 & _ & [= <-]).
  apply (packPythonArray_length _ _ _ _ 2) in Hheader.
  2: { intros value packed Hp%Ty_pack_length. exact Hp. }
  unfold Blob_init, SimpleArray_init_as, Array_init in HblobValue.
  cbn [isReferenceType mbind Result_bind] in HblobValue.
  apply bind_Ok in HblobValue as (u2 & _ & [= <-]).
  apply (packPythonArray_length _ _ _ _ 1) in Hdata.
  2: { intros value packed Hp%Ty_pack_length. exact Hp. }
  unfold pyassert in Hbits.
  destruct (Z.eqb_spec (len blob) (pysum fieldLengths * len entries))
    as [Hsum|]; [|done].
  rewrite Hheader, Hdata, <- Hsum.
  pose proof (packBitsToChars_length blob) as Hchars.
  unfold len in *. cbn [length].
  rewrite !length_map, length_seq, Z.mul_1_l, Hchars. lia.
Qed.

(** X6.  The immediate size of a BitFieldArray is the number of bytes
    [pack] returns for it: whenever [pack] returns, at any cursor or with
    none, the inline bytes are as many as [getImmediateDataSize] says, two
    for each header word and one for each eight bits of the entries rounded
    up, and there are no indirect bytes. *)
Theorem BitFieldArray_pack_size_agrees (name : string) (fields : list string)
    (entries : list (list FieldValue)) (dataOffset : option Z)
    (inline indirect : list byte) :
  pack (BitFieldArray name fields entries) dataOffset = Ok (inline, indirect) →
  indirect = []
  ∧ getImmediateDataSize (BitFieldArray name fields entries)
    = Ok (len inline)
  ∧ ∃ fieldLengths,
      getFieldLengths fields entries = Ok fieldLengths
      ∧ len inline
        = 2 * (len fields + 2)
          + (pysum fieldLengths * len entries + 7) / 8.
Proof.
  cbn [pack]. intros Hpack.
  destruct (BitFieldArray_pack_size name _ _ _ _ Hpack) as [-> Hsize].
  split; [done|]. split; [done|].
  cbn [getImmediateDataSize] in Hsize.
  apply bind_Ok in Hsize as (fieldLengths & Hlengths & [= Hsize]).
  exists fieldLengths. split; [done|].
  destruct (getFieldLengths_spec _ _ _ Hlengths) as [Hlen _].
  rewrite <- Hsize. unfold len. rewrite Hlen. lia.
Qed.

Lemma lockStep_elements (type : Ty) (values : list PyObj) :
  (fix elements (values : list PyObj) : Prop :=
     match values with
     | [] => True
     | value :: rest =>
         match value with
         | PyValue element =>
             lockStep element
             ∧ getImmediateDataSize element
               = Ok (getWidth (getElementType type))
         | _ => True
         end
         ∧ elements rest
     end) values →
  Forall (fun value => match value with
                       | PyValue element =>
                           lockStep element
                           ∧ getImmediateDataSize element
                             = Ok (getWidth (getElementType type))
                       | _ => True
                       end) values.
Proof.
  induction values as [|value values IH]; [constructor|].
  intros [Hvalue Hrest]. constructor; [done | by apply IH].
Qed.

Lemma lockStep_members (values : list Value) :
  (fix members (values : list Value) : Prop :=
     match values with
     | [] => True
     | value :: rest => lockStep value ∧ members rest
     end) values →
  Forall lockStep values.
Proof.
  induction values as [|value values IH]; [constructor|].
  intros [Hvalue Hrest]. constructor; [done | by apply IH].
Qed.

Lemma Struct_pack_loop_sizes (values : list Value) :
  Forall (fun v => ∀ c immediate referred,
            pack v (Some c) = Ok (immediate, referred) →
            getImmediateDataSize v = Ok (len immediate)) values →
  ∀ names i dataOffset immediateData offsetedData immediate offseted,
    Struct_pack_loop pack names i values dataOffset immediateData offsetedData
    = Ok (immediate, offseted) →
    ∃ size,
      sumSizes getImmediateDataSize values = Ok size
      ∧ len immediate = len immediateData + size.
Proof.
  induction 1 as [|value values Hvalue _ IH]; intros * Hloop.
  { injection Hloop as <- _. exists 0. split; [done | lia]. }
  cbn [Struct_pack_loop] in Hloop. destruct (names !! i); [|done].
  apply bind_Ok in Hloop as ([immediate' referred] & Hpack & Hloop).
  apply IH in Hloop as (size & Hsize & ->).
  cbn [sumSizes]. rewrite (Hvalue _ _ _ Hpack), Hsize.
  cbn [mbind Result_bind]. eexists. split; [done|]. rewrite len_app. lia.
Qed.

(** X7.  When the width table of the types agrees with the bytes they
    pack to, and the sizes of a value are in lock-step with its type, the
    immediate size of the value is the number of inline bytes [pack]
    returns for it at a cursor: for every class of value, with a struct
    then padded by nothing, and an array of a fixed length filled to
    exactly its size. *)
Theorem pack_inline_size (v : Value) (c : Z) (inline indirect : list byte) :
  widthsAgree →
  lockStep v →
  pack v (Some c) = Ok (inline, indirect) →
  getImmediateDataSize v = Ok (len inline).
Proof.
  intros Hwidths. revert c inline indirect. revert v.
  apply (Value_nested_ind
           (fun v => ∀ c inline indirect,
              lockStep v →
              pack v (Some c) = Ok (inline, indirect) →
              getImmediateDataSize v = Ok (len inline))).
  - intros unsigned bitWidth pythonValue c inline indirect _.
    cbn [pack PrimitiveValue_pack getImmediateDataSize getType].
    intros (data & Hdata & [= <- _])%bind_Ok.
    by rewrite (Ty_pack_width _ _ _ Hwidths Hdata).
  - intros char c inline indirect _ [= <- _].
    cbn [getImmediateDataSize getType].
    by rewrite (proj1 (proj2 Hwidths)).
  - intros name bitWidth fieldNames fieldWidths values c inline indirect _.
    cbn [pack getImmediateDataSize getType]. unfold BitField_pack, Int_init.
    intros (value & _ & Hpack)%bind_Ok.
    apply bind_Ok in Hpack as (int & Hint & Hpack).
    apply bind_Ok in Hint as (u1 & _ & Hint).
    apply bind_Ok in Hint as (u2 & _ & [= <-]).
    cbn [PrimitiveValue_pack] in Hpack.
    apply bind_Ok in Hpack as (data & Hdata%Ty_pack_length & [= <- _]).
    destruct Hwidths as (_ & _ & -> & _). by rewrite Hdata.
  - done.
  - intros targetValue referenceBitWidth _ c inline indirect _.
    cbn [pack Reference_pack getImmediateDataSize getType].
    assert (∀ n packedReference,
              Ty_pack (referenceType referenceBitWidth) (PyInt n)
              = Ok packedReference →
              getWidth (ReferenceType (getType targetValue) referenceBitWidth)
              = len packedReference) as Hpointer.
    { intros n packedReference Hp%Ty_pack_length.
      destruct Hwidths as (_ & _ & _ & ->). by rewrite Hp. }
    destruct (getPythonValue_isNone targetValue).
    + intros (packedReference & Hp & [= <- _])%bind_Ok.
      by rewrite (Hpointer _ _ Hp).
    + destruct (_ =? 0); [done|].
      intros (packedReference & Hp & Hpack)%bind_Ok.
      apply bind_Ok in Hpack as (target & _ & [= <- _]).
      by rewrite (Hpointer _ _ Hp).
  - intros cls type values fixedSize IH c inline indirect
      (Hwidth & Hfixed & Helements%lockStep_elements).
    set (w := getWidth (getElementType type)) in *.
    assert (∀ relative d immediateData offsetData,
              Array_pack pack (Array cls type values fixedSize) (Some d)
                relative
              = Ok (immediateData, offsetData) →
              len immediateData = w * len values) as Harray.
    { intros relative d immediateData offsetData. unfold Array_pack.
      cbn [mbind Result_bind].
      intros ([immediates offseted] & Hloop & [= <- _])%bind_Ok.
      apply (Array_pack_loop_widths _ w) in Hloop.
      - rewrite Hloop. unfold len. simpl. lia.
      - intros value packed. by apply Ty_pack_width.
      - apply Forall_forall. intros value Hin.
        rewrite Forall_forall in IH, Helements.
        specialize (IH value Hin). specialize (Helements value Hin).
        destruct value as [| | | |element]; try done.
        destruct Helements as [Hlock Hsize].
        intros c' immediate referred Hpack.
        specialize (IH _ _ _ Hlock Hpack). rewrite Hsize in IH.
        by injection IH as ->. }
    assert (∀ immediateData filled,
              len immediateData = w * len values →
              fillFixedSize (Array cls type values fixedSize) fixedSize
                immediateData
              = Ok filled →
              getImmediateDataSize (Array cls type values fixedSize)
              = Ok (len filled)) as Hfill.
    { intros immediateData filled Hlen. unfold fillFixedSize.
      cbn [getImmediateDataSize]. fold w.
      destruct fixedSize as [n|]; cbn [mbind Result_bind]; intros [= <-].
      - rewrite len_app, len_times, Hlen. f_equal. nia.
      - by rewrite Hlen. }
    destruct cls; cbn [pack]; unfold SimpleArray_pack, ReferenceArray_pack;
      cbn [mbind Result_bind];
      intros ([immediateData offsetData] & Hpack%Harray & Hrest)%bind_Ok;
      apply bind_Ok in Hrest as (filled & Hfilled & Hrest);
      repeat case_bool_decide; try done;
      injection Hrest as <- _; by apply (Hfill immediateData).
  - intros name names size values IH c inline indirect
      Hmembers%lockStep_members.
    cbn [pack]. unfold Struct_pack. cbn [mbind Result_bind].
    intros ([immediateData offsetedData] & Hloop & Hrest)%bind_Ok.
    apply bind_Ok in Hrest as (size' & Hsize & Hrest).
    case_bool_decide; [done|]. injection Hrest as <- _.
    assert (Forall (fun v => ∀ c immediate referred,
                      pack v (Some c) = Ok (immediate, referred) →
                      getImmediateDataSize v = Ok (len immediate)) values)
      as Hsizes.
    { apply Forall_forall. intros value Hin.
      rewrite Forall_forall in IH, Hmembers.
      intros c' immediate referred. by apply IH, Hmembers. }
    destruct (Struct_pack_loop_sizes values Hsizes _ _ _ _ _ _ _ Hloop)
      as (total & Htotal & Hlen).
    cbn [getImmediateDataSize] in *. rewrite Htotal in *.
    injection Hsize as <-. rewrite len_app, len_times, Hlen.
    f_equal. unfold len. simpl. lia.
  - intros name fields entries c inline indirect _. cbn [pack].
    intros Hpack.
    by destruct (BitFieldArray_pack_size name _ _ _ _ Hpack) as [_ Hsize].
Qed.
End InlineSize.

Lemma BitFieldArray_pack_size_agrees_witness :
  pack (types := sampleTypes) (bithelper := sampleBits) bitBitArray (Some 3)
  = Ok ([Byte.x01; Byte.x00; Byte.x30; Byte.x00; Byte.x31; Byte.x00;
         Byte.xa6], [])
  ∧ getImmediateDataSize (types := sampleTypes) (bithelper := sampleBits)
      bitBitArray
    = Ok 7.
Proof.
  split; [reflexivity|].
  exact (proj1 (proj2
    (BitFieldArray_pack_size_agrees (types := sampleTypes)
       (bithelper := sampleBits) "BitBitArray" ["bit"]
       [[IntField 0]; [IntField 1]; [IntField 1]; [IntField 0];
        [IntField 0]; [IntField 1]; [IntField 0]; [IntField 1]]
       (Some 3)
       [Byte.x01; Byte.x00; Byte.x30; Byte.x00; Byte.x31; Byte.x00; Byte.xa6]
       [] eq_refl))).
Defined.

Lemma sampleTypes_widthsAgree :
  widthsAgree (types := sampleTypes).
Proof. by repeat split. Qed.

Lemma pack_inline_size_witness :
  widthsAgree (types := sampleTypes)
  ∧ lockStep (types := sampleTypes) (bithelper := sampleBits) fixedReferences
  ∧ pack (types := sampleTypes) (bithelper := sampleBits) fixedReferences
      (Some 6)
    = Ok ([Byte.x00; Byte.x00; Byte.x06; Byte.x00; Byte.x00; Byte.x00],
          helluWorld ++ [Byte.x00])
  ∧ getImmediateDataSize (types := sampleTypes) (bithelper := sampleBits)
      fixedReferences
    = Ok 6.
Proof.
  assert (lockStep (types := sampleTypes) (bithelper := sampleBits) fixedReferences) as Hlock
    by (by repeat split).
  split; [exact sampleTypes_widthsAgree|].
  split; [exact Hlock|]. split; [reflexivity|].
  exact (pack_inline_size (types := sampleTypes) (bithelper := sampleBits)
           fixedReferences 6 _ _ sampleTypes_widthsAgree Hlock
           eq_refl).
Defined.

(** ** Where a Reference points *)

Section ReferenceAlignment.
Context {types : TypesModule} {bithelper : BitHelper}.

(** X8.  A Reference to a present value points to an aligned offset.
    When the alignment of the target's type is zero, packing raises
    ZeroDivisionError.  Whenever it returns, the pointer is the cursor
    plus the padding, it is a multiple of the alignment and fits the
    pointer width, the padding is the zero bytes that come before the
    packed target in the indirect bytes, and for a positive alignment it
    is the least number of bytes that aligns the cursor. *)
Theorem Reference_pack_aligned (targetValue : Value)
    (referenceBitWidth dataOffset : Z) :
  let alignment := getAlignment (getType targetValue) in
  getPythonValue_isNone targetValue = false →
  (alignment = 0 →
   pack (Reference targetValue referenceBitWidth) (Some dataOffset)
   = Err ZeroDivisionError)
  ∧ ∀ inline indirect,
      pack (Reference targetValue referenceBitWidth) (Some dataOffset)
      = Ok (inline, indirect) →
      ∃ padding data,
        alignment ≠ 0
        ∧ (dataOffset + padding) `mod` alignment = 0
        ∧ (0 < alignment →
           0 <= padding < alignment
           ∧ ∀ p, 0 <= p < padding → (dataOffset + p) `mod` alignment ≠ 0)
        ∧ 0 <= dataOffset + padding < 2 ^ referenceBitWidth
        ∧ inline
          = le_split (Z.to_nat (referenceBitWidth / 8)) (dataOffset + padding)
        ∧ namedstruct_pack targetValue = Ok data
        ∧ indirect = times Byte.x00 padding ++ data.
Proof.
  intros alignment Hpresent. cbn [pack Reference_pack]. rewrite Hpresent.
  fold alignment. split.
  { intros Hzero. by rewrite Hzero. }
  intros inline indirect.
  destruct (Z.eqb_spec alignment 0) as [|Halignment]; [done|].
  intros (packedReference & Hpointer & Hpack)%bind_Ok.
  apply bind_Ok in Hpack as (data & Hdata & [= <- <-]).
  set (padding := (- dataOffset) `mod` alignment) in *.
  exists padding, data.
  assert ((dataOffset + padding) `mod` alignment = 0) as Haligned.
  { pose proof (Z_div_mod_eq_full (- dataOffset) alignment) as Hdiv.
    fold padding in Hdiv.
    replace (dataOffset + padding)
      with ((- ((- dataOffset) `div` alignment)) * alignment) by lia.
    by apply Z.mod_mul. }
  unfold referenceType in Hpointer. cbn [Ty_pack] in Hpointer.
  destruct (inRange true referenceBitWidth (dataOffset + padding)) eqn:Hin;
    [|done].
  injection Hpointer as <-.
  unfold inRange in Hin.
  apply andb_true_iff in Hin as [Hlow%Z.leb_le Hhigh%Z.ltb_lt].
  assert (0 < alignment → 0 <= padding < alignment) as Hpadding
    by (intros Hpositive; by apply Z.mod_pos_bound).
  clearbody padding. repeat split; try done; try lia.
  intros p Hp Hearlier.
  apply Z.mod_divide in Haligned as [k Hk]; [|done].
  apply Z.mod_divide in Hearlier as [k' Hk']; [|done].
  assert (padding - p = (k - k') * alignment) as Hbetween by lia.
  specialize (Hpadding ltac:(done)). clear Hhigh Hk Hk'. clearbody alignment.
  destruct (Z.le_gt_cases (k - k') 0); nia.
Qed.
End ReferenceAlignment.

Lemma Reference_pack_aligned_witness :
  getPythonValue_isNone (Int false 32 7) = false
  ∧ pack (types := sampleTypes) (bithelper := sampleBits)
      (Reference (Int false 32 7) 8) (Some 9)
    = Ok ([Byte.x0c], [Byte.x00; Byte.x00; Byte.x00;
                       Byte.x07; Byte.x00; Byte.x00; Byte.x00])
  ∧ ∃ padding data,
      (9 + padding) `mod` 4 = 0
      ∧ namedstruct_pack (types := sampleTypes) (bithelper := sampleBits)
          (Int false 32 7)
        = Ok data.
Proof.
  split; [reflexivity|]. split; [reflexivity|].
  destruct (proj2 (Reference_pack_aligned (types := sampleTypes)
                     (bithelper := sampleBits) (Int false 32 7) 8 9 eq_refl)
              _ _ eq_refl)
    as (padding & data & _ & Haligned & _ & _ & _ & Hdata & _).
  exists padding, data. split; [exact Haligned | exact Hdata].
Defined.

(** ** A member that cannot be packed *)

Section StructErrors.
Context {types : TypesModule} {bithelper : BitHelper}.

Lemma Struct_pack_loop_error (cursor : Z) (before : list Value)
    (packed : list Packed) (v : Value) (after : list Value) (e : PyError) :
  membersPacked cursor before packed →
  pack v (Some (cursor + len (indirectOf packed))) = Err e →
  ∀ names i immediateData offsetedData,
    (i + length before < length names)%nat →
    Struct_pack_loop pack names i (before ++ v :: after) cursor
      immediateData offsetedData
    = Err e.
Proof.
  induction 1 as [cursor|cursor value values immediate referred packed
                            Hvalue _ IH];
    intros Hpack names i immediateData offsetedData Hnames.
  - simpl in *. destruct (lookup_lt_is_Some_2 names i) as [member ->]; [lia|].
    replace (cursor + len (indirectOf [])) with cursor in Hpack
      by (unfold len; simpl; lia).
    by rewrite Hpack.
  - simpl in *. destruct (lookup_lt_is_Some_2 names i) as [member ->]; [lia|].
    rewrite Hvalue. cbn [mbind Result_bind]. apply IH; [|lia].
    unfold indirectOf in *. simpl in Hpack. rewrite len_app in Hpack.
    by rewrite <- Z.add_assoc.
Qed.

(** X9.  A struct reports the first member that cannot be packed.  When
    the members before a member pack one after the other from the cursor
    and that member's [pack], at the cursor they leave, raises, [pack] of
    the struct at the cursor raises the same error, whatever the members
    after it are; so does packing the struct as the top-level value when
    its immediate size is that cursor. *)
Theorem Struct_pack_first_error (name : string) (names : list string)
    (size cursor : Z) (before : list Value) (packed : list Packed)
    (v : Value) (after : list Value) (e : PyError) :
  let self := Struct name names size (before ++ v :: after) in
  membersPacked cursor before packed →
  pack v (Some (cursor + len (indirectOf packed))) = Err e →
  (length before < length names)%nat →
  pack self (Some cursor) = Err e
  ∧ (getImmediateDataSize self = Ok cursor →
     pack self None = Err e ∧ namedstruct_pack self = Err e).
Proof.
  intros self Hbefore Hpack Hnames.
  pose proof (Struct_pack_loop_error _ _ _ _ after _ Hbefore Hpack names 0%nat
                [] [] Hnames) as Hloop.
  unfold self, namedstruct_pack, namedstruct_pack_with.
  cbn [pack]. unfold Struct_pack. cbn [mbind Result_bind].
  rewrite Hloop. split; [done|]. intros ->. cbn [mbind Result_bind].
  by rewrite Hloop.
Qed.
End StructErrors.

Lemma Struct_pack_first_error_witness :
  membersPacked (types := sampleTypes) (bithelper := sampleBits) 5
    [Int false 32 23] [([Byte.x17; Byte.x00; Byte.x00; Byte.x00], [])]
  ∧ pack (types := sampleTypes) (bithelper := sampleBits) (Int true 8 300)
      (Some (5 + len (indirectOf
                        [([Byte.x17; Byte.x00; Byte.x00; Byte.x00], [])])))
    = Err ValueOutOfRange
  ∧ pack (types := sampleTypes) (bithelper := sampleBits)
      (Struct "testStruct1" ["bla"; "woot"; "end"] 6
         ([Int false 32 23] ++ [Int true 8 300; Char Byte.x21]))
      (Some 5)
    = Err ValueOutOfRange.
Proof.
  assert (membersPacked (types := sampleTypes) (bithelper := sampleBits) 5
            [Int false 32 23] [([Byte.x17; Byte.x00; Byte.x00; Byte.x00], [])])
    as Hbefore by (constructor; [reflexivity | constructor]).
  split; [exact Hbefore|]. split; [reflexivity|].
  exact (proj1
    (Struct_pack_first_error (types := sampleTypes) (bithelper := sampleBits)
       "testStruct1" ["bla"; "woot"; "end"] 6 5 [Int false 32 23] _
       (Int true 8 300) [Char Byte.x21] ValueOutOfRange Hbefore eq_refl
       ltac:(simpl; lia))).
Defined.

(** ** Reading a field back from a packed bit field *)

Lemma fieldWidths_nonneg (values fieldWidths : list Z) :
  Forall2 (fun v w => 0 <= v < 2 ^ w) values fieldWidths →
  Forall (fun w => 0 <= w) fieldWidths.
Proof.
  induction 1 as [|v w values fieldWidths Hv _ IH]; constructor; [|done].
  destruct (Z.lt_ge_cases w 0) as [Hneg|]; [|done].
  rewrite Z.pow_neg_r in Hv by done. lia.
Qed.

Lemma shiftedSum_shift (values fieldWidths : list Z) :
  Forall2 (fun v w => 0 <= v < 2 ^ w) values fieldWidths →
  ∀ shift, 0 <= shift →
    shiftedSum values fieldWidths shift
    = 2 ^ shift * shiftedSum values fieldWidths 0.
Proof.
  intros Hok. pose proof (fieldWidths_nonneg _ _ Hok) as Hwidths.
  induction Hok as [|v w values fieldWidths Hv _ IH]; intros shift Hshift;
    simpl; [lia|].
  apply Forall_cons in Hwidths as [Hw Hwidths].
  rewrite Z.add_0_l, (IH Hwidths (shift + w)), (IH Hwidths w) by lia.
  rewrite Z.shiftl_mul_pow2, Z.shiftl_0_r, Z.pow_add_r by lia. lia.
Qed.

Lemma shiftedSum_field (values fieldWidths : list Z) :
  Forall2 (fun v w => 0 <= v < 2 ^ w) values fieldWidths →
  ∀ i v w,
    values !! i = Some v → fieldWidths !! i = Some w →
    (shiftedSum values fieldWidths 0 `div` 2 ^ pysum (take i fieldWidths))
    `mod` 2 ^ w
    = v.
Proof.
  intros Hok. pose proof (fieldWidths_nonneg _ _ Hok) as Hwidths.
  induction Hok as [|v0 w0 values fieldWidths Hv0 Hok IH];
    intros i v w Hv Hw; [done|].
  apply Forall_cons in Hwidths as [Hw0 Hwidths].
  cbn [shiftedSum]. rewrite Z.shiftl_0_r, Z.add_0_l.
  rewrite (shiftedSum_shift _ _ Hok w0 Hw0).
  assert (0 < 2 ^ w0) as Hpow by (by apply Z.pow_pos_nonneg).
  set (rest := shiftedSum values fieldWidths 0) in *.
  replace (v0 + 2 ^ w0 * rest) with (v0 + rest * 2 ^ w0) by lia.
  destruct i as [|i]; simpl in *.
  - injection Hv as <-. injection Hw as <-.
    rewrite Z.pow_0_r, Z.div_1_r, Z_mod_plus_full.
    by apply Z.mod_small.
  - assert (0 <= pysum (take i fieldWidths)) as Hsum.
    { by apply pysum_nonneg, Forall_take. }
    rewrite Z.pow_add_r, <- Z.div_div by lia.
    rewrite Z.div_add by lia.
    rewrite (Z.div_small v0) by done. rewrite Z.add_0_l.
    by apply IH.
Qed.

Section BitFieldReadBack.
Context {types : TypesModule} {bithelper : BitHelper}.

(** X10.  Each field can be read back from a packed bit field.  When
    every value fits the width of its field and the widths fit the
    container, the loop of [pack] returns an integer below two to the
    container's width, [pack] emits it on the container's bytes, and for
    every field the bits of that integer from the sum of the widths of the
    fields before it, masked to the width of the field, are the value
    that was added for it. *)
Theorem BitField_pack_read_back (name : string) (bitWidth : Z)
    (fieldNames : list string) (fieldWidths values : list Z)
    (dataOffset : option Z) :
  BitField_ok (BitField name bitWidth fieldNames fieldWidths values) →
  ∃ packed,
    BitField_pack_loop fieldWidths 0 values 0 0 = Ok packed
    ∧ 0 <= packed < 2 ^ bitWidth
    ∧ pack (BitField name bitWidth fieldNames fieldWidths values) dataOffset
      = Ok (le_split (Z.to_nat (bitWidth / 8)) packed, [])
    ∧ ∀ i v w,
        values !! i = Some v → fieldWidths !! i = Some w →
        Z.land (Z.shiftr packed (pysum (take i fieldWidths))) (Z.ones w) = v.
Proof.
  intros [Hok Hsum].
  pose proof (fieldWidths_nonneg _ _ Hok) as Hwidths.
  pose proof (BitField_pack_loop_sum _ _ Hok [] 0 0 ltac:(done) ltac:(done))
    as Hloop.
  simpl in Hloop. rewrite Z.add_0_l in Hloop.
  destruct (shiftedSum_bound _ _ Hok 0 ltac:(done)) as [Hlow Hhigh].
  rewrite Z.pow_0_r, Z.add_0_l in Hhigh.
  assert (shiftedSum values fieldWidths 0 < 2 ^ bitWidth) as Hfits.
  { pose proof (Z.pow_le_mono_r 2 (pysum fieldWidths) bitWidth) as Hmono.
    lia. }
  exists (shiftedSum values fieldWidths 0). split; [done|]. split; [done|].
  split.
  - cbn [pack]. unfold BitField_pack, Int_init, assertValueHasType.
    rewrite Hloop. cbn [mbind Result_bind hasType].
    rewrite inRange_unsigned by done.
    cbn [mbind Result_bind PrimitiveValue_pack Ty_pack].
    by rewrite inRange_unsigned by done.
  - intros i v w Hv Hw.
    assert (0 <= w) as Hw0.
    { by apply (Forall_lookup_1 _ _ _ _ Hwidths Hw). }
    assert (0 <= pysum (take i fieldWidths)) as Hbefore.
    { by apply pysum_nonneg, Forall_take. }
    rewrite Z.land_ones, Z.shiftr_div_pow2 by done.
    by apply shiftedSum_field.
Qed.
End BitFieldReadBack.

Lemma BitField_pack_read_back_witness :
  BitField_ok smallInts34
  ∧ pack (types := sampleTypes) (bithelper := sampleBits) smallInts34 None
    = Ok ([Byte.xfe; Byte.x38], [])
  ∧ Z.land (Z.shiftr 14590 11) (Z.ones 5) = 7.
Proof.
  assert (BitField_ok smallInts34) as Hok.
  { split; [|by vm_compute]. repeat constructor; by vm_compute. }
  split; [exact Hok|]. split; [reflexivity|].
  destruct (BitField_pack_read_back (types := sampleTypes)
              (bithelper := sampleBits) "bitField2" 16
              ["aFlag"; "b"; "c"; "d"] [1; 7; 3; 5] [0; 127; 0; 7] None Hok)
    as (packed & Hloop & _ & _ & Hfield).
  injection Hloop as <-.
  exact (Hfield 3%nat 7 5 eq_refl eq_refl).
Defined.

(** ** Strings *)

Lemma concat_singletons {A : Type} (l : list A) :
  concat (map (fun c => [c]) l) = l.
Proof. induction l as [|c l IH]; simpl; [done | by rewrite IH]. Qed.

Section Strings.
Context {types : TypesModule} {bithelper : BitHelper}.

Lemma chars_packed (chars : list byte) :
  Forall2 (fun value packed => Ty_pack CharType value = Ok packed)
    (map (fun c => PyStr [c]) chars) (map (fun c => [c]) chars).
Proof. induction chars as [|c chars IH]; simpl; constructor; done. Qed.

Lemma String_init_chars (string : list byte) (omitTerminal : bool) :
  (let chars := stringToChars string in
   if omitTerminal then take (length chars - 1) chars else chars)
  = map (fun c => PyStr [c])
      (if omitTerminal then string else string ++ [Byte.x00]).
Proof.
  cbv zeta. unfold stringToChars. destruct omitTerminal; [|done].
  rewrite length_map, length_app, firstn_map. f_equal.
  simpl. replace (length string + 1 - 1)%nat with (length string) by lia.
  by rewrite take_app_length.
Qed.

(** X11.  A String packs to its bytes.  [String(string, fixedSize,
    omitTerminal)] holds the bytes of the string followed by the zero
    terminal, or without it when the terminal is omitted.  With a fixed
    size smaller than that many chars the constructor fails its assertion;
    otherwise the String is constructed, and [pack] of it, at any cursor or
    as the top-level value, returns those bytes followed by zero bytes up
    to its immediate size when the size is fixed, and no indirect bytes. *)
Theorem String_pack_bytes (string : list byte) (fixedSize : option Z)
    (omitTerminal : bool) (dataOffset : option Z) :
  let chars := if omitTerminal then string else string ++ [Byte.x00] in
  let fill :=
    match fixedSize with
    | Some n => times Byte.x00 (getWidth CharType * n - len chars)
    | None => []
    end in
  (∀ n, fixedSize = Some n → n < len chars →
     String_init string fixedSize omitTerminal = Err AssertionError)
  ∧ ((∀ n, fixedSize = Some n → len chars <= n) →
     ∃ value,
       String_init string fixedSize omitTerminal = Ok value
       ∧ pack value dataOffset = Ok (chars ++ fill, [])
       ∧ namedstruct_pack value = Ok (chars ++ fill)
       ∧ (getWidth CharType = 1 →
          getImmediateDataSize value = Ok (len (chars ++ fill)))).
Proof.
  intros chars fill. unfold String_init.
  rewrite String_init_chars. fold chars.
  unfold SimpleArray_init_as. cbn [isReferenceType].
  assert (len (map (fun c => PyStr [c]) chars) = len chars) as Hlen
    by (unfold len; by rewrite length_map).
  rewrite Hlen. split.
  { intros n -> Hsmall. unfold pyassert.
    by destruct (Z.leb_spec (len chars) n); [lia|]. }
  intros Hfits.
  assert (match fixedSize with
          | Some n => pyassert (len chars <=? n)
          | None => Ok ()
          end = Ok ()) as ->.
  { destruct fixedSize as [n|]; [|done]. unfold pyassert.
    by destruct (Z.leb_spec (len chars) n); [|specialize (Hfits n eq_refl); lia]. }
  cbn [mbind Result_bind]. unfold Array_init.
  assert (elementsAreValueObjects (map (fun c => PyStr [c]) chars) = false)
    as Hobjects by (by destruct chars).
  rewrite Hobjects, Array_init_check_python
    by (apply Forall_map, Forall_forall; done).
  cbn [mbind Result_bind]. eexists. split; [done|].
  assert (∀ dataOffset',
            pack (Array (StringC string)
                    (SimpleArrayType CharType fixedSize None)
                    (map (fun c => PyStr [c]) chars) fixedSize) dataOffset'
            = Ok (chars ++ fill, [])) as Hpack.
  { intros dataOffset'. cbn [pack].
    unfold SimpleArray_pack, Array_pack.
    cbn [getImmediateDataSize getElementType].
    assert (∀ cursor : Result Z,
              (cursor ≫= λ dataOffset0 : Z,
                 Array_pack_loop pack CharType
                   (elementsAreValueObjects (map (fun c => PyStr [c]) chars))
                   true (map (fun c => PyStr [c]) chars) dataOffset0 [] [] 0
                 ≫= λ '(immediateData, offsetedData),
                      Ok (concat immediateData, concat offsetedData))
              = (cursor ≫= λ _, Ok (chars, []))) as Harray.
    { intros [cursor|e]; [|done]. cbn [mbind Result_bind].
      rewrite Hobjects, (Array_pack_loop_python _ _ _ (chars_packed chars)).
      cbn [mbind Result_bind]. simpl. by rewrite concat_singletons. }
    destruct dataOffset' as [cursor|]; rewrite Harray;
      cbn [mbind Result_bind]; unfold fillFixedSize, fill;
      cbn [getImmediateDataSize getElementType];
      destruct fixedSize as [n|]; cbn [mbind Result_bind];
      rewrite ?Hlen, ?app_nil_r; done. }
  split; [apply Hpack|]. split.
  - unfold namedstruct_pack, namedstruct_pack_with. rewrite Hpack.
    cbn [mbind Result_bind]. by rewrite app_nil_r.
  - intros Hwidth. cbn [getImmediateDataSize getElementType].
    rewrite Hwidth, Hlen, len_app. unfold fill. f_equal.
    destruct fixedSize as [n|].
    + rewrite len_times, Hwidth. specialize (Hfits n eq_refl). lia.
    + unfold len at 3. simpl. lia.
Qed.
End Strings.

Lemma String_pack_bytes_witness :
  String_init (types := sampleTypes) helluWorld (Some 12) false
  = Ok (Array (StringC helluWorld) (SimpleArrayType CharType (Some 12) None)
          (stringToChars helluWorld) (Some 12))
  ∧ ∃ value,
      String_init (types := sampleTypes) helluWorld (Some 12) false = Ok value
      ∧ pack (types := sampleTypes) (bithelper := sampleBits) value (Some 3)
        = Ok ((helluWorld ++ [Byte.x00]) ++ [Byte.x00], []).
Proof.
  split; [reflexivity|].
  destruct (proj2 (String_pack_bytes (types := sampleTypes)
                     (bithelper := sampleBits) helluWorld (Some 12) false
                     (Some 3)))
    as (value & Hinit & Hpack & _).
  { intros n [= <-]. by vm_compute. }
  exists value. split; [exact Hinit | exact Hpack].
Defined.

(** ** Arrays from Python sequences *)

Section ArrayValueProperties.
Context {types : TypesModule} {immediacy : Immediacy}.

Lemma getValue_values (targets targets' : list Value) :
  Forall2 (fun o v => getValue o = Ok v) (map PyValue targets) targets' →
  targets' = targets.
Proof.
  revert targets'. induction targets as [|v targets IH]; intros targets' H;
    inversion H as [|o v' os vs Hv Hrest]; subst; [done|].
  injection Hv as <-. by rewrite (IH _ Hrest).
Qed.

(** X12.  [getArrayValue] converts each element and wraps the converted
    values, in order.  An empty sequence raises IndexError, and a single
    Reference raises: no array is built out of references.  Whenever an
    array is returned, every element converted with [getValue], their
    types merged into a type that is no reference type, and there are no
    more elements than a declared fixed size; when the merged type is
    immediate the array is a SimpleArray of that element type holding the
    converted values, otherwise it is a ReferenceArray holding one 32-bit
    Reference to each converted value, none of which is a Reference. *)
Theorem getArrayValue_converts (values : list PyObj) (fixedSize : option Z) :
  getArrayValue [] fixedSize = Err IndexError
  ∧ (∀ target w,
       getArrayValue [PyValue (Reference target w)] fixedSize
       = Err (Exception "can't build arrays out of references"))
  ∧ ∀ array,
      getArrayValue values fixedSize = Ok array →
      ∃ first rest t,
        Forall2 (fun o v => getValue o = Ok v) values (first :: rest)
        ∧ getArrayValue_merge (getType first) rest = Ok t
        ∧ isReferenceType t = false
        ∧ (∀ n, fixedSize = Some n → len values <= n)
        ∧ if isImmediate t
          then array
               = Array SimpleArrayC (SimpleArrayType t fixedSize None)
                   (map PyValue (first :: rest)) fixedSize
          else ∃ elementType,
                 array
                 = Array ReferenceArrayC
                     (ReferenceArrayType elementType fixedSize 32)
                     (map (fun v => PyValue (Reference v 32)) (first :: rest))
                     fixedSize
                 ∧ Forall (fun v => isReference v = false) (first :: rest).
Proof.
  split; [done|]. split; [done|].
  intros array. unfold getArrayValue.
  intros (targets & Htargets%forM_Ok & Harray)%bind_Ok.
  destruct targets as [|first rest]; [done|].
  apply bind_Ok in Harray as (t & Ht & Harray).
  destruct (isReferenceType t) eqn:Hreference; [done|].
  assert (len values = len (map PyValue (first :: rest))) as Hlen.
  { unfold len. by rewrite length_map, (Forall2_length _ _ _ Htargets). }
  exists first, rest, t. repeat split; try done.
  - intros n ->. rewrite Hlen. destruct (isImmediate t).
    + unfold SimpleArray_init, SimpleArray_init_as in Harray.
      rewrite Hreference in Harray.
      apply bind_Ok in Harray as (u & Hfits & _). unfold pyassert in Hfits.
      by destruct (Z.leb_spec (len (map PyValue (first :: rest))) n).
    + apply ReferenceArray_init_inv in Harray
        as (_ & _ & _ & _ & _ & _ & Hfits).
      by apply Hfits.
  - destruct (isImmediate t).
    + unfold SimpleArray_init, SimpleArray_init_as, Array_init in Harray.
      rewrite Hreference in Harray.
      apply bind_Ok in Harray as (u & _ & Harray).
      by apply bind_Ok in Harray as (u' & _ & [= <-]).
    + apply ReferenceArray_init_inv in Harray
        as (elementType & targets' & -> & Hsame%getValue_values & Hrefs & _).
      subst targets'. by exists elementType.
Qed.
End ArrayValueProperties.

(** ** Reading back an entry added from a dictionary *)

Lemma pyIndexOf_elem (x : string) (l : list string) :
  x ∈ l → ∃ i, l !! i = Some x ∧ x ∉ take i l.
Proof.
  induction l as [|y l IH]; [by intros ?%elem_of_nil|].
  destruct (decide (y = x)) as [->|Hne].
  - intros _. exists 0%nat. split; [done|]. simpl. apply not_elem_of_nil.
  - intros [?|Hin]%elem_of_cons; [done|].
    destruct (IH Hin) as (i & Hi & Hfirst). exists (S i). split; [done|].
    simpl. by intros [?|?]%elem_of_cons.
Qed.

Lemma pyIndexOf_missing (x : string) (l : list string) :
  x ∉ l → pyIndexOf x l = Err ValueError.
Proof.
  induction l as [|y l IH]; [done|].
  intros [Hne Hl]%not_elem_of_cons. simpl.
  rewrite bool_decide_eq_false_2 by done. by rewrite IH.
Qed.

(** X13.  What [add] stores from a dictionary, [get] returns by name.
    After [add] of a dictionary succeeds, the dictionary has a value under
    the name of every field, a Blob or an integer from 0 to 2^31, and [get]
    of that name at the last entry returns it, in whatever order the
    dictionary holds its keys; [get] of a name that is no field raises
    ValueError. *)
Theorem BitFieldArray_get_add_dict (name : string) (fields : list string)
    (entries : list (list FieldValue)) (d : gmap string PyObj)
    (self' : Value) :
  BitFieldArray_add (BitFieldArray name fields entries) (Dict d) = Ok self' →
  (∀ fieldName,
     fieldName ∈ fields →
     ∃ value,
       d !! fieldName = Some value
       ∧ isFieldValue value = true
       ∧ BitFieldArray_get self' fieldName (-1) = Ok (fieldValueOf value))
  ∧ ∀ fieldName,
      fieldName ∉ fields →
      BitFieldArray_get self' fieldName (-1) = Err ValueError.
Proof.
  unfold BitFieldArray_add.
  intros (u & _ & Hadd)%bind_Ok.
  apply bind_Ok in Hadd as (values & Hvalues%forM_Ok & Hadd).
  apply bind_Ok in Hadd as (entry & Hentry%forM_Ok & [= <-]).
  unfold BitFieldArray_get. split.
  - intros fieldName (i & Hfield & Hfirst)%pyIndexOf_elem.
    destruct (Forall2_lookup_l _ _ _ _ _ Hvalues Hfield)
      as (value & Hvalue & Hd).
    destruct (Forall2_lookup_l _ _ _ _ _ Hentry Hvalue)
      as (field & Hstored & Hfieldvalue).
    exists value. split; [by destruct (d !! fieldName) as [?|]; simplify_eq|].
    split.
    { destruct (isFieldValue value) eqn:Hfits; [done|].
      destruct (BitFieldArray_add_value_refuses _ Hfits) as [e He].
      by rewrite He in Hfieldvalue. }
    rewrite pyIndex_last. cbn [mbind Result_bind].
    rewrite (pyIndexOf_first _ _ _ Hfield Hfirst). cbn [mbind Result_bind].
    rewrite pyIndex_nonneg, Hstored.
    by rewrite (BitFieldArray_add_value_stores _ _ Hfieldvalue).
  - intros fieldName Hmissing. rewrite pyIndex_last.
    cbn [mbind Result_bind]. by rewrite pyIndexOf_missing.
Qed.

Lemma BitFieldArray_get_add_dict_witness :
  BitFieldArray_add (BitFieldArray "PairBitArray" ["a"; "b"] [])
    (Dict {[ "b" := PyInt 12; "a" := PyInt 0 ]})
  = Ok (BitFieldArray "PairBitArray" ["a"; "b"] [[IntField 0; IntField 12]])
  ∧ BitFieldArray_get
      (BitFieldArray "PairBitArray" ["a"; "b"] [[IntField 0; IntField 12]])
      "c" (-1)
    = Err ValueError.
Proof.
  assert (BitFieldArray_add (BitFieldArray "PairBitArray" ["a"; "b"] [])
            (Dict {[ "b" := PyInt 12; "a" := PyInt 0 ]})
          = Ok (BitFieldArray "PairBitArray" ["a"; "b"]
                  [[IntField 0; IntField 12]])) as Hadd
    by (by vm_compute).
  split; [exact Hadd|].
  exact (proj2 (BitFieldArray_get_add_dict _ _ _ _ _ Hadd) "c"
           ltac:(compute_done)).
Defined.

(** ** What a constructed array holds *)

Lemma hasType_packs (t : Ty) (value : PyObj) :
  hasType t value = true →
  isValue value = false ∧ ∃ packed, Ty_pack t value = Ok packed.
Proof.
  destruct t as [|unsigned bitWidth| | | | | | |], value as [|n|[|c [|]]| |];
    try done; simpl.
  - intros ->. by eauto.
  - by eauto.
Qed.

Section ArrayInvariants.
Context {types : TypesModule} {bithelper : BitHelper}.

Lemma Array_init_check_objects (type : Ty) (values : list PyObj) :
  Array_init_check type false values = Ok () →
  Forall (fun value => hasType (getElementType type) value = true) values.
Proof.
  induction values as [|value values IH]; [constructor|].
  cbn [Array_init_check]. unfold assertValueHasType.
  destruct (hasType _ value) eqn:Hvalue; [|done].
  cbn [mbind Result_bind]. intros Hrest%IH. by constructor.
Qed.

(** X14.  A constructed array is of one kind.  When [Array.__init__]
    returns, the array holds the values it was given and either every
    element is a Value whose type merges with the element type, or no
    element is a Value and every element has the element type, so that the
    element type packs it; an array of Python values then packs, to the
    bytes of its elements in order, at any cursor. *)
Theorem Array_init_one_kind (cls : ArrayClass) (type : Ty)
    (values : list PyObj) (fixedSize : option Z) (array : Value) :
  Array_init cls type values fixedSize = Ok array →
  array = Array cls type values fixedSize
  ∧ ((elementsAreValueObjects values = true
      ∧ ∃ elements,
          values = map PyValue elements
          ∧ Forall (fun v => ∃ t, merge (getElementType type) (getType v)
                                  = Ok t) elements)
     ∨ (elementsAreValueObjects values = false
        ∧ Forall (fun value => isValue value = false) values
        ∧ ∃ packs,
            Forall2 (fun value packed =>
                       Ty_pack (getElementType type) value = Ok packed)
              values packs
            ∧ ∀ dataOffset relative,
                Array_pack pack array (Some dataOffset) relative
                = Ok (concat packs, []))).
Proof.
  unfold Array_init. intros ([] & Hcheck & [= <-])%bind_Ok.
  split; [done|].
  destruct (elementsAreValueObjects values) eqn:Hobjects; [left | right].
  all: try rewrite Hobjects in Hcheck.
  - split; [done|]. by apply Array_init_check_values.
  - split; [done|]. apply Array_init_check_objects in Hcheck.
    assert (∃ packs,
              Forall2 (fun value packed =>
                         Ty_pack (getElementType type) value = Ok packed)
                values packs) as [packs Hpacks].
    { clear Hobjects. induction Hcheck as [|value values Hvalue _ [packs IH]];
        [by exists []|].
      destruct (hasType_packs _ _ Hvalue) as [_ [packed Hpacked]].
      exists (packed :: packs). by constructor. }
    split.
    + eapply Forall_impl; [exact Hcheck|]. intros value Hvalue.
      by destruct (hasType_packs _ _ Hvalue).
    + exists packs. split; [done|]. intros dataOffset relative.
      unfold Array_pack. cbn [mbind Result_bind].
      rewrite Hobjects, (Array_pack_loop_python _ _ _ Hpacks).
      by cbn [mbind Result_bind].
Qed.
End ArrayInvariants.

Lemma Array_init_one_kind_witness :
  Array_init (types := sampleTypes) SimpleArrayC
    (SimpleArrayType UINT16 None None) [PyInt 6; PyInt 64] None
  = Ok (Array SimpleArrayC (SimpleArrayType UINT16 None None)
          [PyInt 6; PyInt 64] None)
  ∧ elementsAreValueObjects [PyInt 6; PyInt 64] = false.
Proof.
  split; [reflexivity|].
  destruct (proj2 (Array_init_one_kind (types := sampleTypes)
                     (bithelper := sampleBits) SimpleArrayC
                     (SimpleArrayType UINT16 None None) [PyInt 6; PyInt 64]
                     None _ eq_refl))
    as [[Hvalues _]|[Hobjects _]]; [discriminate Hvalues | exact Hobjects].
Defined.
